(** * iphone-photo-copier: the copy orchestration engine of [main.py]

    A shallow embedding of class [IPhoneMTPCopier]: the two-tier copy of one
    file ([_copy_file_mtp]), the incremental synchronisation of one roll
    ([_process_roll]), the time estimate ([_format_time], [_calculate_eta])
    and the run ([copy_photos]).

    Python values are modelled as follows.
    - [int] is [Z]; [str] is [string] (UTF-8 bytes); [list] is [list].
    - [float] is IEEE binary64, taken from the Standard Library's
      [SpecFloat] (precision 53, exponent bound 1024), so that [+], [-],
      [*] and [/] round as CPython's do; [//] and [%] follow CPython's
      [_float_div_mod] step by step.
    - A call that may raise returns a [result]; the methods that use the
      object or the outside world run in a state monad whose state survives
      a raise, as the attributes of a Python object do.
    - The shell ([Shell.Application]), the clipboard, the local file system
      and the clock are an interface, [Environment], over an abstract world.
      Calls that cross to the shell or the clipboard may raise; in the
      engine given first the local calls ([os.path.exists], [os.makedirs],
      [time.time], [time.sleep], [print], the append to [log.txt]) are
      taken to succeed.
    - [print], the append to [log.txt] and [os.makedirs] can raise: the
      methods that use them are given a second time, in [Fallible], over
      an interface [Faults] that tells which of these calls raise.  The
      statements about errors that are caught, or that leave a method,
      are made on that engine; the two engines agree when no local call
      fails.
    - The construction of the object ([__init__], with the reading of
      [config.json] in [_get_destination_folder]) and the script
      ([__enter__], [__exit__] and the [with] statement around
      [copy_photos]) come after the engine, over an interface [Host] for
      the environment variables, the JSON file and the COM runtime, whose
      calls may raise. *)

From Stdlib Require Import ZArith QArith Qround String Ascii List Bool Lia.
From Stdlib Require Import Sorting.Permutation Sorting.Sorted.
From Stdlib Require Import Floats.SpecFloat DecimalString.
Import ListNotations.
Local Open Scope string_scope.
Local Open Scope Z_scope.

(* ================================================================== *)
(** * Python values *)

(** The exceptions the program can meet; all derive from [Exception]. *)
Inductive exn : Type :=
| ComError (msg : string)          (* pywintypes.com_error *)
| AttributeError (msg : string)
| TypeError (msg : string)
| ValueError (msg : string)
| OverflowError (msg : string)
| ZeroDivisionError (msg : string)
| OSError (msg : string).          (* from open, write and os.makedirs *)

(** [str(e)] *)
Definition str_exn (e : exn) : string :=
  match e with
  | ComError msg | AttributeError msg | TypeError msg | ValueError msg
  | OverflowError msg | ZeroDivisionError msg | OSError msg => msg
  end.

Inductive result (A : Type) : Type :=
| Ok (a : A)
| Raise (e : exn).
Arguments Ok {A} a.
Arguments Raise {A} e.

Definition bindR {A B} (r : result A) (k : A -> result B) : result B :=
  match r with
  | Ok a => k a
  | Raise e => Raise e
  end.

Notation "'let*' x ':=' r 'in' k" := (bindR r (fun x => k))
  (at level 10, x name, r at level 100, k at level 200).

(** An f-string is the concatenation of its pieces. *)
Definition fstr (parts : list string) : string := String.concat "" parts.

(** [str(n)] for an [int], as an f-string renders it. *)
Definition fmt_int (n : Z) : string := NilZero.string_of_int (Z.to_int n).

(** [len(l)] *)
Definition len {A} (l : list A) : Z := Z.of_nat (length l).

(** [needle in s] on strings. *)
Fixpoint str_contains (needle s : string) : bool :=
  if String.prefix needle s then true
  else match s with
       | EmptyString => false
       | String _ rest => str_contains needle rest
       end.

(* ================================================================== *)
(** * Python floats: IEEE binary64 *)

Module PyFloat.

Definition prec : Z := 53.
Definition emax : Z := 1024.
Definition float : Type := spec_float.

(** Correct rounding of the integer [n] (round to nearest, ties to even);
    exact when [|n| < 2^53]. *)
Definition of_Z (n : Z) : float := binary_normalize prec emax n 0 false.

Definition fadd : float -> float -> float := SFadd prec emax.
Definition fsub : float -> float -> float := SFsub prec emax.
Definition fmul : float -> float -> float := SFmul prec emax.
Definition fdiv : float -> float -> float := SFdiv prec emax.
Definition flt : float -> float -> bool := SFltb.

(** A decimal literal [num / den] of the source, correctly rounded. *)
Definition literal (num den : Z) : float := fdiv (of_Z num) (of_Z den).

Definition is_zero (x : float) : bool :=
  match x with S754_zero _ => true | _ => false end.

Definition is_finite (x : float) : bool :=
  match x with S754_zero _ | S754_finite _ _ _ => true | _ => false end.

(** [float(n)] for an [int]: raises when [n] is out of range. *)
Definition float_of_int (n : Z) : result float :=
  match of_Z n with
  | S754_infinity _ => Raise (OverflowError "int too large to convert to float")
  | x => Ok x
  end.

(** [x / y] on floats. *)
Definition truediv (x y : float) : result float :=
  if is_zero y then Raise (ZeroDivisionError "float division by zero")
  else Ok (fdiv x y).

(** [a / b] on two [int]s (both below [2^53] in this program, where the
    conversions are exact and the quotient is rounded once). *)
Definition int_truediv (a b : Z) : result float :=
  if b =? 0 then Raise (ZeroDivisionError "division by zero")
  else
    let* x := float_of_int a in
    let* y := float_of_int b in
    truediv x y.

(** [int(x)]: truncation toward zero. *)
Definition py_int (x : float) : result Z :=
  match x with
  | S754_nan => Raise (ValueError "cannot convert float NaN to integer")
  | S754_infinity _ =>
      Raise (OverflowError "cannot convert float infinity to integer")
  | S754_zero _ => Ok 0
  | S754_finite s m e => Ok (cond_Zopp s (Z.shiftl (Zpos m) e))
  end.

(** Two finite floats brought to a common exponent: [x = X * 2^e0] and
    [y = Y * 2^e0] with integers [X] and [Y]. *)
Definition align (sx : bool) (mx : positive) (ex : Z)
                 (sy : bool) (my : positive) (ey : Z) : Z * Z * Z :=
  let e0 := Z.min ex ey in
  (cond_Zopp sx (Zpos mx) * 2 ^ (ex - e0),
   cond_Zopp sy (Zpos my) * 2 ^ (ey - e0), e0).

(** The sign bit. *)
Definition signbit (x : float) : bool :=
  match x with
  | S754_zero s | S754_infinity s | S754_finite s _ _ => s
  | S754_nan => false
  end.

(** C's [fmod]: the remainder of the division truncated toward zero.  It
    is exact and has the sign of [x]. *)
Definition fmod (x y : float) : float :=
  match x, y with
  | S754_nan, _ | _, S754_nan => S754_nan
  | S754_infinity _, _ => S754_nan
  | _, S754_zero _ => S754_nan
  | S754_zero _, _ => x
  | S754_finite _ _ _, S754_infinity _ => x
  | S754_finite sx mx ex, S754_finite sy my ey =>
      let '(X, Y, e0) := align sx mx ex sy my ey in
      binary_normalize prec emax (Z.rem X Y) e0 sx
  end.

(** C's [floor]. *)
Definition ffloor (x : float) : float :=
  match x with
  | S754_finite s m e =>
      if 0 <=? e then x
      else
        let n := Z.shiftl (cond_Zopp s (Zpos m)) e in
        if n =? 0 then S754_zero s else of_Z n
  | _ => x
  end.

(** CPython's [_float_div_mod]: the pair [(x // y, x % y)] for [y != 0];
    [rm] is its [mod] and [dv] its [div], and the C tests [if (mod)] and
    [if (div)] hold for any value other than zero. *)
Definition float_div_mod (vx wx : float) : float * float :=
  let rm := fmod vx wx in
  let dv := fdiv (fsub vx rm) wx in
  let '(rm, dv) :=
    if negb (is_zero rm) then
      if xorb (flt wx (S754_zero false)) (flt rm (S754_zero false))
      then (fadd rm wx, fsub dv (of_Z 1))
      else (rm, dv)
    else (S754_zero (signbit wx), dv) in
  let floordiv :=
    if negb (is_zero dv) then
      let fl := ffloor dv in
      if flt (literal 5 10) (fsub dv fl) then fadd fl (of_Z 1) else fl
    else S754_zero (signbit (fdiv vx wx)) in
  (floordiv, rm).

(** [x // y] on floats. *)
Definition floordiv (x y : float) : result float :=
  if is_zero y then Raise (ZeroDivisionError "float floor division by zero")
  else Ok (fst (float_div_mod x y)).

(** [x % y] on floats: the remainder has the sign of [y]. *)
Definition modulo (x y : float) : result float :=
  if is_zero y then Raise (ZeroDivisionError "float modulo by zero")
  else Ok (snd (float_div_mod x y)).

(** The real number a finite float stands for. *)
Definition to_Q (x : float) : Q :=
  match x with
  | S754_finite s m (Zneg p) => Qmake (cond_Zopp s (Zpos m)) (2 ^ p)
  | S754_finite s m e => inject_Z (cond_Zopp s (Zpos m) * 2 ^ e)
  | _ => 0%Q
  end.

(** A float of the binary64 format (canonical mantissa and exponent). *)
Definition valid (x : float) : bool := valid_binary prec emax x.

End PyFloat.

Import PyFloat.

(* ================================================================== *)
(** * The outside world *)

(** A shell item ([FolderItem]): a device, a folder or a file.  Its
    properties [Name] and [IsFolder] are read as data of the item. *)
Record Item : Type := {
  Name : string;
  IsFolder : bool;
  Path : string
}.

(** A shell folder object ([Folder]); [Self] is the item it was opened on. *)
Record Folder : Type := { Self : Item }.

(** [item.GetFolder] *)
Definition GetFolder (it : Item) : Folder := {| Self := it |}.

(** The argument of [shell.Namespace]: a special-folder number or a path. *)
Inductive vdir : Type :=
| CSIDL (n : Z)
| Dir (path : string).

(** The calls the program makes on its collaborators, in the order made. *)
Inductive event : Type :=
| EvNamespace (d : vdir)
| EvItems (f : Folder)
| EvCopyHere (dst : Folder) (src : Item) (options : Z)
| EvInvokeVerbEx (it : Item) (verb : string)
| EvOpenClipboard
| EvEmptyClipboard
| EvCloseClipboard
| EvSleep (secs : float)
| EvExists (path : string)
| EvMakedirs (path : string).

(** The collaborators of the engine over a world [W]. *)
Class Environment (W : Type) : Type := {
  (* Shell.Application *)
  shell_Namespace : vdir -> W -> result (option Folder) * W;
  folder_Items : Folder -> W -> result (list Item) * W;
  folder_CopyHere : Folder -> Item -> Z -> W -> result unit * W;
  item_InvokeVerbEx : Item -> string -> W -> result unit * W;
  (* win32clipboard *)
  OpenClipboard : W -> result unit * W;
  EmptyClipboard : W -> result unit * W;
  CloseClipboard : W -> result unit * W;
  (* os, os.path *)
  os_path_exists : string -> W -> bool;
  os_makedirs : string -> W -> W;
  os_path_join : string -> string -> string;
  os_path_dirname : string -> string;
  (* time, datetime *)
  time_time : W -> float;
  time_sleep : float -> W -> W;
  strftime_now : W -> string;
  (* built-in conversions of str and float *)
  str_lower : string -> string;
  format_1f : float -> string
}.

(* ================================================================== *)
(** * The copier object and its run *)

(** [CopyResult] *)
Record CopyResult : Type := {
  completate : list string;
  saltate : list string;
  errori : list string;
  tempo_totale : float;
  file_copiati : Z;
  velocita_media : float
}.

(** [CopyResult(c, s, e)], the other fields at their defaults. *)
Definition mkCopyResult (c s e : list string) : CopyResult :=
  {| completate := c; saltate := s; errori := e;
     tempo_totale := S754_zero false; file_copiati := 0;
     velocita_media := S754_zero false |}.

(** The attributes of [IPhoneMTPCopier] that the engine reads or writes. *)
Record Copier : Type := {
  dest_dir : string;
  start_time : option float;
  files_copied_total : Z;
  copy_times : list float
}.

(** The local variables of [copy_photos] that outlive a raise inside its
    loop: the exception handler and the code after the loop see them as
    the failed iteration left them. *)
Record RunLocals : Type := {
  res : CopyResult;
  total_files_in_rolls : Z;
  rolls_with_files : Z
}.

(** The per-roll counters of [_process_roll]. *)
Record counts : Type := {
  files_copied : Z;
  files_skipped : Z;
  files_failed : Z
}.

Definition newline : string := String (ascii_of_nat 10) EmptyString.

(** The float literals of the source. *)
Definition f0_03 : float := Eval cbv in literal 3 100.
Definition f0_1 : float := Eval cbv in literal 1 10.
Definition f1_2 : float := Eval cbv in literal 12 10.
Definition f60 : float := Eval cbv in of_Z 60.
Definition f3600 : float := Eval cbv in of_Z 3600.

(* ================================================================== *)
(** * The time estimate *)

(** [_format_time(self, seconds)] *)
Definition _format_time (seconds : float) : result string :=
  if flt seconds f60 then
    let* n := py_int seconds in
    Ok (fstr [fmt_int n; " seconds"])
  else if flt seconds f3600 then
    let* q := floordiv seconds f60 in
    let* minutes := py_int q in
    let* r := modulo seconds f60 in
    let* secs := py_int r in
    Ok (fstr [fmt_int minutes; " minutes and "; fmt_int secs; " seconds"])
  else
    let* q := floordiv seconds f3600 in
    let* hours := py_int q in
    let* r := modulo seconds f3600 in
    let* q' := floordiv r f60 in
    let* minutes := py_int q' in
    Ok (fstr [fmt_int hours; " hours and "; fmt_int minutes; " minutes"]).

(** [sum(l)] on floats: the additions from the left, starting at [0]. *)
Definition py_sum (l : list float) : float := fold_left fadd l (of_Z 0).

(** [not l] on a list. *)
Definition is_empty {A} (l : list A) : bool :=
  match l with [] => true | _ => false end.

(** [_calculate_eta(self, rolls_done, total_rolls, files_per_roll_avg)];
    it reads [self.copy_times] and changes nothing. *)
Definition _calculate_eta (self : Copier) (rolls_done total_rolls : Z)
    (files_per_roll_avg : float) : result string :=
  if is_empty (copy_times self) || (rolls_done =? 0) then Ok "Calculating..."
  else
    let* n := float_of_int (len (copy_times self)) in
    let* avg_time_per_file := truediv (py_sum (copy_times self)) n in
    let rolls_remaining := total_rolls - rolls_done in
    let* rr := float_of_int rolls_remaining in
    let estimated_files_remaining := fmul rr files_per_roll_avg in
    let estimated_seconds := fmul estimated_files_remaining avg_time_per_file in
    let estimated_seconds := fmul estimated_seconds f1_2 in
    let* t := _format_time estimated_seconds in
    Ok (fstr [t; " (approx)"]).

(* ================================================================== *)
(** * The engine *)

Section Engine.

Context {W : Type} {E : Environment W}.

(** What a method call can change: the world, the object, what was
    printed and written to [log.txt], and the locals of [copy_photos];
    [trace] records the calls made on the collaborators. *)
Record State : Type := {
  world : W;
  self : Copier;
  console : list string;
  log_txt : list string;
  run : RunLocals;
  trace : list event
}.

Definition set_world (w : W) (s : State) : State :=
  {| world := w; self := self s; console := console s; log_txt := log_txt s;
     run := run s; trace := trace s |}.

Definition set_self (c : Copier) (s : State) : State :=
  {| world := world s; self := c; console := console s; log_txt := log_txt s;
     run := run s; trace := trace s |}.

Definition set_run (r : RunLocals) (s : State) : State :=
  {| world := world s; self := self s; console := console s;
     log_txt := log_txt s; run := r; trace := trace s |}.

Definition add_event (ev : event) (s : State) : State :=
  {| world := world s; self := self s; console := console s;
     log_txt := log_txt s; run := run s; trace := trace s ++ [ev] |}.

(** A method body: it runs from a state and ends in a value or a raise,
    and in the state it reached. *)
Definition M (A : Type) : Type := State -> result A * State.

Definition ret {A} (a : A) : M A := fun s => (Ok a, s).

Definition raise {A} (e : exn) : M A := fun s => (Raise e, s).

Definition bind {A B} (m : M A) (k : A -> M B) : M B :=
  fun s =>
    match m s with
    | (Ok a, s') => k a s'
    | (Raise e, s') => (Raise e, s')
    end.

(** [try: m  except Exception as e: h e] *)
Definition try_except {A} (m : M A) (h : exn -> M A) : M A :=
  fun s =>
    match m s with
    | (Ok a, s') => (Ok a, s')
    | (Raise e, s') => h e s'
    end.

Definition lift {A} (r : result A) : M A := fun s => (r, s).

Notation "x <- m ;; k" := (bind m (fun x => k))
  (at level 61, m at next level, right associativity).
Notation "m ;; k" := (bind m (fun _ => k))
  (at level 61, right associativity).

(** A call on a collaborator that may raise and may change the world. *)
Definition call {A} (ev : event) (op : W -> result A * W) : M A :=
  fun s =>
    let '(r, w) := op (world s) in
    (r, set_world w (add_event ev s)).

(** A call that succeeds and changes the world. *)
Definition act (ev : event) (op : W -> W) : M unit :=
  fun s => (Ok tt, set_world (op (world s)) (add_event ev s)).

Definition get_self : M Copier := fun s => (Ok (self s), s).
Definition put_self (c : Copier) : M unit := fun s => (Ok tt, set_self c s).
Definition get_run : M RunLocals := fun s => (Ok (run s), s).
Definition put_run (r : RunLocals) : M unit := fun s => (Ok tt, set_run r s).

(** [time.time()] *)
Definition now : M float := fun s => (Ok (time_time (world s)), s).

(** [time.sleep(secs)] *)
Definition sleep (secs : float) : M unit := act (EvSleep secs) (time_sleep secs).

(** [os.path.exists(path)] *)
Definition exists_ (path : string) : M bool :=
  fun s => (Ok (os_path_exists path (world s)), add_event (EvExists path) s).

(** [print(line)] *)
Definition print (line : string) : M unit :=
  fun s =>
    (Ok tt,
     {| world := world s; self := self s; console := console s ++ [line];
        log_txt := log_txt s; run := run s; trace := trace s |}).

(** [log(self, msg)]: the line is printed and appended to [log.txt]. *)
Definition log (msg : string) : M unit :=
  fun s =>
    let ts := strftime_now (world s) in
    let line := fstr ["["; ts; "] "; msg] in
    (Ok tt,
     {| world := world s; self := self s; console := console s ++ [line];
        log_txt := log_txt s ++ [fstr [line; newline]];
        run := run s; trace := trace s |}).

(** [obj.Items()] where [obj] may be [None]. *)
Definition Items (obj : option Folder) : M (list Item) :=
  match obj with
  | Some f => call (EvItems f) (folder_Items f)
  | None =>
      raise (AttributeError "'NoneType' object has no attribute 'Items'")
  end.

(** [_find_iphone(self)] *)
Definition _find_iphone : M (option Item) :=
  computer <- call (EvNamespace (CSIDL 17)) (shell_Namespace (CSIDL 17)) ;;
  items <- Items computer ;;
  ret (find (fun item =>
               let name_lower := str_lower (Name item) in
               str_contains "iphone" name_lower
               || str_contains "apple" name_lower) items).

(** [_find_folder(self, parent, target_name)] *)
Definition _find_folder (parent : Item) (target_name : string)
    : M (option Item) :=
  let target_lower := str_lower target_name in
  subs <- Items (Some (GetFolder parent)) ;;
  ret (find (fun sub =>
               IsFolder sub && (str_lower (Name sub) =? target_lower)%string)
            subs).

(** [_clear_clipboard()]: the bare [except: pass] swallows every raise. *)
Definition _clear_clipboard : M unit :=
  try_except
    (call EvOpenClipboard OpenClipboard ;;
     call EvEmptyClipboard EmptyClipboard ;;
     call EvCloseClipboard CloseClipboard)
    (fun _ => ret tt).

(** The three lines that record a verified copy:
    [copy_time = time.time() - file_start],
    [self.copy_times.append(copy_time)], [self.files_copied_total += 1]. *)
Definition record_copy (file_start : float) : M unit :=
  t <- now ;;
  let copy_time := fsub t file_start in
  c <- get_self ;;
  put_self {| dest_dir := dest_dir c; start_time := start_time c;
              files_copied_total := files_copied_total c + 1;
              copy_times := copy_times c ++ [copy_time] |}.

(** The primary strategy of [_copy_file_mtp] (the block under
    [if dest_folder:]); [true] stands for its [return True], [false] for
    falling through to the fallback. *)
Definition primary_copy (dest_folder : option Folder) (file_item : Item)
    (dest_path : string) (file_start : float) : M bool :=
  match dest_folder with
  | Some folder =>
      call (EvCopyHere folder file_item 16)
           (folder_CopyHere folder file_item 16) ;;
      sleep f0_03 ;;
      found <- exists_ dest_path ;;
      if found then record_copy file_start ;; ret true else ret false
  | None => ret false
  end.

(** The clipboard fallback of [_copy_file_mtp]. *)
Definition fallback_copy (dest_folder : option Folder) (file_item : Item)
    (dest_path : string) (file_start : float) : M bool :=
  _clear_clipboard ;;
  call (EvInvokeVerbEx file_item "copy") (item_InvokeVerbEx file_item "copy") ;;
  target <- match dest_folder with
            | Some folder => ret (Self folder)
            | None =>
                raise (AttributeError
                         "'NoneType' object has no attribute 'Self'")
            end ;;
  call (EvInvokeVerbEx target "paste") (item_InvokeVerbEx target "paste") ;;
  sleep f0_1 ;;
  found <- exists_ dest_path ;;
  if found then record_copy file_start ;; ret true else ret false.

(** The [try] block of [_copy_file_mtp]: the primary strategy, then the
    fallback when the primary did not return. *)
Definition copy_attempt (file_item : Item) (dest_path : string)
    (file_start : float) : M bool :=
  let d := Dir (os_path_dirname dest_path) in
  dest_folder <- call (EvNamespace d) (shell_Namespace d) ;;
  done <- primary_copy dest_folder file_item dest_path file_start ;;
  if done then ret true
  else fallback_copy dest_folder file_item dest_path file_start.

(** [_copy_file_mtp(self, file_item, dest_path)] *)
Definition _copy_file_mtp (file_item : Item) (dest_path : string) : M bool :=
  file_start <- now ;;
  try_except (copy_attempt file_item dest_path file_start)
    (fun e =>
       log (fstr ["❌ Error during copy: "; str_exn e]) ;;
       ret false).

(** One turn of the loop of [_process_roll] over [source_files]. *)
Definition process_file (roll : Item) (dst_path : string) (source_count : Z)
    (idx : Z) (file_item : Item) (c : counts) : M counts :=
  let dest_file := os_path_join dst_path (Name file_item) in
  found <- exists_ dest_file ;;
  if found then
    log (fstr ["  ["; fmt_int idx; "/"; fmt_int source_count;
               "] ⏭️  File already exists: "; Name roll; "/"; Name file_item]) ;;
    ret {| files_copied := files_copied c;
           files_skipped := files_skipped c + 1;
           files_failed := files_failed c |}
  else
    copied <- _copy_file_mtp file_item dest_file ;;
    if copied then
      log (fstr ["  ["; fmt_int idx; "/"; fmt_int source_count;
                 "] ✅ Copied: "; Name roll; "/"; Name file_item]) ;;
      ret {| files_copied := files_copied c + 1;
             files_skipped := files_skipped c;
             files_failed := files_failed c |}
    else
      log (fstr ["  ["; fmt_int idx; "/"; fmt_int source_count;
                 "] ❌ Failed: "; Name roll; "/"; Name file_item]) ;;
      ret {| files_copied := files_copied c;
             files_skipped := files_skipped c;
             files_failed := files_failed c + 1 |}.

(** [for idx, file_item in enumerate(source_files, idx): ...] *)
Fixpoint process_files (roll : Item) (dst_path : string) (source_count : Z)
    (idx : Z) (source_files : list Item) (c : counts) : M counts :=
  match source_files with
  | [] => ret c
  | file_item :: rest =>
      c' <- process_file roll dst_path source_count idx file_item c ;;
      process_files roll dst_path source_count (idx + 1) rest c'
  end.

(** [_process_roll] up to the end of its loop: the destination folder is
    made if absent, then every file is handled; the counters are returned. *)
Definition roll_scan (roll : Item) (roll_idx total_rolls : Z)
    (source_files : list Item) : M counts :=
  me <- get_self ;;
  let dst_path := os_path_join (dest_dir me) (Name roll) in
  let source_count := len source_files in
  found <- exists_ dst_path ;;
  (if negb found then
     act (EvMakedirs dst_path) (os_makedirs dst_path) ;;
     log (fstr ["📁 ["; fmt_int roll_idx; "/"; fmt_int total_rolls;
                "] New folder: "; Name roll; " ("; fmt_int source_count;
                " files to copy)"])
   else
     log (fstr ["📁 ["; fmt_int roll_idx; "/"; fmt_int total_rolls;
                "] Checking folder: "; Name roll; " ("; fmt_int source_count;
                " files)"])) ;;
  process_files roll dst_path source_count 1 source_files
    {| files_copied := 0; files_skipped := 0; files_failed := 0 |}.

(** The end of [_process_roll]: the final state of the roll. *)
Definition roll_status (roll : Item) (roll_idx total_rolls source_count : Z)
    (c : counts) : M string :=
  if files_failed c >? 0 then
    log (fstr ["⚠️  ["; fmt_int roll_idx; "/"; fmt_int total_rolls;
               "] Completed with errors: "; Name roll; " (";
               fmt_int (files_copied c); " copied, ";
               fmt_int (files_skipped c); " skipped, ";
               fmt_int (files_failed c); " failed)"]) ;;
    ret "errore"
  else if (files_copied c =? 0) && (files_skipped c =? source_count) then
    log (fstr ["✅ ["; fmt_int roll_idx; "/"; fmt_int total_rolls;
               "] Already complete: "; Name roll; " (";
               fmt_int (files_skipped c); " files)"]) ;;
    ret "saltata"
  else
    log (fstr ["✅ ["; fmt_int roll_idx; "/"; fmt_int total_rolls;
               "] Completed: "; Name roll; " (";
               fmt_int (files_copied c); " copied, ";
               fmt_int (files_skipped c); " skipped)"]) ;;
    ret "completata".

(** [_process_roll(self, roll, roll_idx, total_rolls, source_files)] *)
Definition _process_roll (roll : Item) (roll_idx total_rolls : Z)
    (source_files : list Item) : M string :=
  c <- roll_scan roll roll_idx total_rolls source_files ;;
  roll_status roll roll_idx total_rolls (len source_files) c.

(** [sorted(items, key=lambda x: x.Name)]: a stable sort on the names,
    compared as Python compares [str] (by code point). *)
Fixpoint insert_by_name (x : Item) (l : list Item) : list Item :=
  match l with
  | [] => [x]
  | y :: l' =>
      if (Name y <? Name x)%string then y :: insert_by_name x l'
      else x :: y :: l'
  end.

Definition sorted_by_name (l : list Item) : list Item :=
  fold_right insert_by_name [] l.

(** [result.<bucket>.append(name)] for the three lists of the result. *)
Definition append_completate (name : string) : M unit :=
  r <- get_run ;;
  let cr := res r in
  put_run {| res := {| completate := completate cr ++ [name];
                       saltate := saltate cr; errori := errori cr;
                       tempo_totale := tempo_totale cr;
                       file_copiati := file_copiati cr;
                       velocita_media := velocita_media cr |};
             total_files_in_rolls := total_files_in_rolls r;
             rolls_with_files := rolls_with_files r |}.

Definition append_saltate (name : string) : M unit :=
  r <- get_run ;;
  let cr := res r in
  put_run {| res := {| completate := completate cr;
                       saltate := saltate cr ++ [name]; errori := errori cr;
                       tempo_totale := tempo_totale cr;
                       file_copiati := file_copiati cr;
                       velocita_media := velocita_media cr |};
             total_files_in_rolls := total_files_in_rolls r;
             rolls_with_files := rolls_with_files r |}.

Definition append_errori (name : string) : M unit :=
  r <- get_run ;;
  let cr := res r in
  put_run {| res := {| completate := completate cr;
                       saltate := saltate cr; errori := errori cr ++ [name];
                       tempo_totale := tempo_totale cr;
                       file_copiati := file_copiati cr;
                       velocita_media := velocita_media cr |};
             total_files_in_rolls := total_files_in_rolls r;
             rolls_with_files := rolls_with_files r |}.

(** The [try] block of the loop of [copy_photos], for one roll. *)
Definition roll_body (idx total_rolls : Z) (roll : Item) : M unit :=
  print (fstr [newline; "📂 ["; fmt_int idx; "/"; fmt_int total_rolls;
               "] Analyzing folder: "; Name roll]) ;;
  items <- Items (Some (GetFolder roll)) ;;
  let roll_files := filter (fun f => negb (IsFolder f)) items in
  (if negb (is_empty roll_files) then
     r <- get_run ;;
     put_run {| res := res r;
                total_files_in_rolls :=
                  total_files_in_rolls r + len roll_files;
                rolls_with_files := rolls_with_files r + 1 |}
   else ret tt) ;;
  status <- _process_roll roll idx total_rolls roll_files ;;
  (if (status =? "completata")%string then append_completate (Name roll)
   else if (status =? "saltata")%string then append_saltate (Name roll)
   else if (status =? "errore")%string then append_errori (Name roll)
   else ret tt) ;;
  me <- get_self ;;
  if (idx <? total_rolls) && (files_copied_total me >? 0)
     && negb (status =? "saltata")%string then
    r <- get_run ;;
    avg_files_per_roll <-
      lift (if rolls_with_files r >? 0
            then int_truediv (total_files_in_rolls r) (rolls_with_files r)
            else Ok (of_Z 0)) ;;
    let avg_files_per_roll := fmul avg_files_per_roll f1_2 in
    eta <- lift (_calculate_eta me idx total_rolls avg_files_per_roll) ;;
    log (fstr ["⏱️  Estimated time remaining: "; eta;
               " [statistical estimate, not based on actual missing files]";
               newline])
  else ret tt.

(** [for idx, roll in enumerate(rolls, idx): try: ... except Exception ...] *)
Fixpoint rolls_loop (idx total_rolls : Z) (rolls : list Item) : M unit :=
  match rolls with
  | [] => ret tt
  | roll :: rest =>
      try_except (roll_body idx total_rolls roll)
        (fun e =>
           log (fstr ["❌ Critical error "; Name roll; ": "; str_exn e]) ;;
           append_errori (Name roll)) ;;
      rolls_loop (idx + 1) total_rolls rest
  end.

(** The end of [copy_photos]: the statistics and the summary. *)
Definition final_summary (total_rolls : Z) : M CopyResult :=
  t <- now ;;
  me <- get_self ;;
  t0 <- match start_time me with
        | Some t0 => ret t0
        | None => raise (TypeError "unsupported operand type(s) for -")
        end ;;
  let tempo := fsub t t0 in
  r <- get_run ;;
  let cr := res r in
  let cr := {| completate := completate cr; saltate := saltate cr;
               errori := errori cr; tempo_totale := tempo;
               file_copiati := files_copied_total me;
               velocita_media := velocita_media cr |} in
  put_run {| res := cr; total_files_in_rolls := total_files_in_rolls r;
             rolls_with_files := rolls_with_files r |} ;;
  cr <- (if files_copied_total me >? 0 then
           n <- lift (float_of_int (files_copied_total me)) ;;
           q <- lift (truediv n tempo) ;;
           let cr' := {| completate := completate cr; saltate := saltate cr;
                         errori := errori cr; tempo_totale := tempo_totale cr;
                         file_copiati := file_copiati cr;
                         velocita_media := fmul q (of_Z 60) |} in
           put_run {| res := cr';
                      total_files_in_rolls := total_files_in_rolls r;
                      rolls_with_files := rolls_with_files r |} ;;
           ret cr'
         else ret cr) ;;
  total_time <- lift (_format_time tempo) ;;
  log (fstr [newline; "🎉 FINAL SUMMARY ("; fmt_int total_rolls;
             " total folders):"; newline;
             "   ✅ Completed: "; fmt_int (len (completate cr)); newline;
             "   ⏭️  Skipped: "; fmt_int (len (saltate cr)); newline;
             "   ❌ With errors: "; fmt_int (len (errori cr)); newline;
             newline; "📊 STATISTICS:"; newline;
             "   ⏱️  Total time: "; total_time; newline;
             "   📁 Files copied: "; fmt_int (files_copied_total me); newline;
             "   ⚡ Average speed: "; format_1f (velocita_media cr);
             " files/minute"]) ;;
  ret cr.

(** [copy_photos(self)] *)
Definition copy_photos : M CopyResult :=
  t0 <- now ;;
  me <- get_self ;;
  put_self {| dest_dir := dest_dir me; start_time := Some t0;
              files_copied_total := files_copied_total me;
              copy_times := copy_times me |} ;;
  iphone <- _find_iphone ;;
  match iphone with
  | None =>
      log "❌ iPhone not found." ;;
      ret (mkCopyResult [] [] [])
  | Some iphone =>
      internal <- _find_folder iphone "Internal Storage" ;;
      match internal with
      | None =>
          log "❌ Internal Storage not found." ;;
          ret (mkCopyResult [] [] [])
      | Some internal =>
          items <- Items (Some (GetFolder internal)) ;;
          let rolls := sorted_by_name (filter IsFolder items) in
          let total_rolls := len rolls in
          log (fstr ["📲 Starting copy of "; fmt_int total_rolls;
                     " folders…"]) ;;
          put_run {| res := mkCopyResult [] [] [];
                     total_files_in_rolls := 0; rolls_with_files := 0 |} ;;
          rolls_loop 1 total_rolls rolls ;;
          final_summary total_rolls
      end
  end.

End Engine.

Arguments State W : clear implicits.
Arguments M W A : clear implicits.

(* ================================================================== *)
(** * Vocabulary of the statements *)

(** The files a roll has handled so far: the sum of its three counters. *)
Definition handled (c : counts) : Z :=
  files_copied c + files_skipped c + files_failed c.

(** How many of the calls satisfy [p]. *)
Definition count (p : event -> bool) (calls : list event) : nat :=
  length (filter p calls).

(** The first call of [_clear_clipboard], by which the fallback starts. *)
Definition is_clear (ev : event) : bool :=
  match ev with EvOpenClipboard => true | _ => false end.

Definition is_verb (verb : string) (ev : event) : bool :=
  match ev with
  | EvInvokeVerbEx _ v => (v =? verb)%string
  | _ => false
  end.

Definition is_copyhere (ev : event) : bool :=
  match ev with EvCopyHere _ _ _ => true | _ => false end.

(** Nothing removes a local path: every call that changes the world keeps
    the paths that exist. *)
Class Persistent {W : Type} (E : Environment W) : Prop := {
  keep_Namespace : forall d w p,
    os_path_exists p w = true ->
    os_path_exists p (snd (shell_Namespace d w)) = true;
  keep_CopyHere : forall dst src o w p,
    os_path_exists p w = true ->
    os_path_exists p (snd (folder_CopyHere dst src o w)) = true;
  keep_InvokeVerbEx : forall it verb w p,
    os_path_exists p w = true ->
    os_path_exists p (snd (item_InvokeVerbEx it verb w)) = true;
  keep_OpenClipboard : forall w p,
    os_path_exists p w = true -> os_path_exists p (snd (OpenClipboard w)) = true;
  keep_EmptyClipboard : forall w p,
    os_path_exists p w = true -> os_path_exists p (snd (EmptyClipboard w)) = true;
  keep_CloseClipboard : forall w p,
    os_path_exists p w = true -> os_path_exists p (snd (CloseClipboard w)) = true;
  keep_makedirs : forall q w p,
    os_path_exists p w = true -> os_path_exists p (os_makedirs q w) = true;
  keep_sleep : forall d w p,
    os_path_exists p w = true -> os_path_exists p (time_sleep d w) = true
}.

Section Vocabulary.

Context {W : Type} {E : Environment W}.

(** The primary part of [copy_attempt]: the destination folder it resolved
    and whether the primary strategy returned [True]. *)
Definition primary_phase (file_item : Item) (dest_path : string)
    (file_start : float) : M W (option Folder * bool) :=
  let d := Dir (os_path_dirname dest_path) in
  bind (call (EvNamespace d) (shell_Namespace d)) (fun dest_folder =>
  bind (primary_copy dest_folder file_item dest_path file_start) (fun done =>
  ret (dest_folder, done))).

(** A method body that keeps [self.dest_dir] and every existing path. *)
Definition steady {A} (m : M W A) : Prop :=
  forall s,
    dest_dir (self (snd (m s))) = dest_dir (self s)
    /\ forall p, os_path_exists p (world s) = true ->
                 os_path_exists p (world (snd (m s))) = true.

(** The state after the first line of [copy_photos],
    [self.start_time = time.time()]. *)
Definition started (s : State W) : State W :=
  set_self {| dest_dir := dest_dir (self s);
              start_time := Some (time_time (world s));
              files_copied_total := files_copied_total (self s);
              copy_times := copy_times (self s) |} s.

(** The state in which the loop of [copy_photos] starts, [s] being the
    state after the listing of the rolls: the start is logged and the
    result is empty. *)
Definition prepared (total_rolls : Z) (s : State W) : State W :=
  set_run {| res := mkCopyResult [] [] [];
             total_files_in_rolls := 0; rolls_with_files := 0 |}
    (snd (log (fstr ["📲 Starting copy of "; fmt_int total_rolls;
                     " folders…"]) s)).

End Vocabulary.

(** Every finite binary64 number is a whole multiple of [2^-1074];
    [scaled x] is that multiple. *)
Definition scaled (x : float) : Z :=
  match x with
  | S754_finite s m e => cond_Zopp s (Zpos m) * 2 ^ (e + 1074)
  | _ => 0
  end.

Definition unit_ : positive := 2 ^ 1074.

(** The exponent of a finite float is not below the least one. *)
Definition low_ok (x : float) : Prop :=
  match x with
  | S754_finite _ _ e => -1074 <= e
  | _ => True
  end.

(** The integer part of a rational, toward zero. *)
Definition Qtrunc (q : Q) : Z := Z.quot (Qnum q) (Zpos (Qden q)).

(** ** Three sentences of the specification, as it words them *)

(** "Whenever the primary attempt raises or leaves no destination file,
    the fallback is entered exactly once." *)
Definition fallback_entered_on_every_failure : Prop :=
  forall (W : Type) (E : Environment W) (file_item : Item)
         (dest_path : string) (s : State W),
    (exists e s1,
       primary_phase file_item dest_path (time_time (world s)) s
       = (Raise e, s1))
    \/ (exists dest_folder s1,
          primary_phase file_item dest_path (time_time (world s)) s
          = (Ok (dest_folder, false), s1)) ->
    forall calls,
      trace (snd (_copy_file_mtp file_item dest_path s))
      = (trace s ++ calls)%list ->
      count is_clear calls = 1%nat.

(** "With one sample of 2.0 s, 10 files per folder, one folder done of two,
    the estimate is the string 24 seconds." *)
Definition eta_is_the_bare_time : Prop :=
  _calculate_eta {| dest_dir := ""; start_time := None;
                    files_copied_total := 1; copy_times := [of_Z 2] |}
                 1 2 (of_Z 10)
  = Ok "24 seconds".

(** "Once the device and its storage are found, the run is not ended
    early: [copy_photos] returns its result." *)
Definition only_absence_ends_the_run : Prop :=
  forall (W : Type) (E : Environment W) (s : State W) iphone internal s1 s2,
    _find_iphone (started s) = (Ok (Some iphone), s1) ->
    _find_folder iphone "Internal Storage" s1 = (Ok (Some internal), s2) ->
    exists r s', copy_photos s = (Ok r, s').

(* ================================================================== *)
(** * A simulated device and disk

    A small concrete [Environment], used to run the engine: the local disk
    is the list of the paths that exist, the device is a table of children,
    and a file named in [sim_silent] or [sim_broken] is one whose
    [CopyHere] transfers nothing or raises. *)

Module Sim.

Record World : Type := {
  sim_paths : list string;
  sim_clock : float;
  sim_computer : list Item;
  sim_children : list (string * list Item);
  sim_silent : list string;
  sim_broken : list string;
  sim_paste_works : bool;
  sim_clipboard : option Item
}.

Definition mem (x : string) (l : list string) : bool :=
  existsb (String.eqb x) l.

Definition with_paths (l : list string) (w : World) : World :=
  {| sim_paths := l; sim_clock := sim_clock w;
     sim_computer := sim_computer w; sim_children := sim_children w;
     sim_silent := sim_silent w; sim_broken := sim_broken w;
     sim_paste_works := sim_paste_works w;
     sim_clipboard := sim_clipboard w |}.

Definition with_clock (t : float) (w : World) : World :=
  {| sim_paths := sim_paths w; sim_clock := t;
     sim_computer := sim_computer w; sim_children := sim_children w;
     sim_silent := sim_silent w; sim_broken := sim_broken w;
     sim_paste_works := sim_paste_works w;
     sim_clipboard := sim_clipboard w |}.

Definition with_clipboard (c : option Item) (w : World) : World :=
  {| sim_paths := sim_paths w; sim_clock := sim_clock w;
     sim_computer := sim_computer w; sim_children := sim_children w;
     sim_silent := sim_silent w; sim_broken := sim_broken w;
     sim_paste_works := sim_paste_works w;
     sim_clipboard := c |}.

Definition join (a b : string) : string := fstr [a; "/"; b].

Fixpoint dirname_aux (s : string) : option string :=
  match s with
  | EmptyString => None
  | String c rest =>
      match dirname_aux rest with
      | Some d => Some (String c d)
      | None => if Ascii.eqb c "/" then Some EmptyString else None
      end
  end.

Definition dirname (s : string) : string :=
  match dirname_aux s with
  | Some d => d
  | None => EmptyString
  end.

Definition lower_ascii (c : ascii) : ascii :=
  let n := nat_of_ascii c in
  if (65 <=? n)%nat && (n <=? 90)%nat then ascii_of_nat (n + 32) else c.

Fixpoint lower (s : string) : string :=
  match s with
  | EmptyString => EmptyString
  | String c rest => String (lower_ascii c) (lower rest)
  end.

(** ['%.1f' % x]: the exact value, rounded to one decimal, ties to even. *)
Definition tenths (m : positive) (e : Z) : Z :=
  match e with
  | Zneg p =>
      let n := 10 * Zpos m in
      let d := 2 ^ Zpos p in
      let q := n / d in
      let r := n mod d in
      match 2 * r ?= d with
      | Lt => q
      | Gt => q + 1
      | Eq => if Z.even q then q else q + 1
      end
  | _ => 10 * Zpos m * 2 ^ e
  end.

Definition fmt_1f (x : float) : string :=
  match x with
  | S754_nan => "nan"
  | S754_infinity s => if s then "-inf" else "inf"
  | S754_zero s => if s then "-0.0" else "0.0"
  | S754_finite s m e =>
      let t := tenths m e in
      fstr [if s then "-" else ""; fmt_int (t / 10); "."; fmt_int (t mod 10)]
  end.

Definition computer : Item :=
  {| Name := "This PC"; IsFolder := true; Path := "::computer" |}.

Definition children (it : Item) (w : World) : result (list Item) :=
  if (Path it =? Path computer)%string then Ok (sim_computer w)
  else
    match find (fun entry => (fst entry =? Path it)%string) (sim_children w) with
    | Some entry => Ok (snd entry)
    | None => Raise (ComError "the device is unreachable")
    end.

#[export] Instance env : Environment World := {
  shell_Namespace d w :=
    match d with
    | CSIDL _ => (Ok (Some (GetFolder computer)), w)
    | Dir p =>
        if mem p (sim_paths w)
        then (Ok (Some (GetFolder {| Name := p; IsFolder := true; Path := p |})), w)
        else (Ok None, w)
    end;
  folder_Items f w := (children (Self f) w, w);
  folder_CopyHere dst src _ w :=
    if mem (Name src) (sim_broken w)
    then (Raise (ComError "the transfer was refused"), w)
    else if mem (Name src) (sim_silent w) then (Ok tt, w)
    else (Ok tt, with_paths (join (Path (Self dst)) (Name src) :: sim_paths w) w);
  item_InvokeVerbEx it verb w :=
    if (verb =? "copy")%string then (Ok tt, with_clipboard (Some it) w)
    else if (verb =? "paste")%string then
      match sim_clipboard w with
      | Some src =>
          if sim_paste_works w
          then (Ok tt, with_paths (join (Path it) (Name src) :: sim_paths w) w)
          else (Ok tt, w)
      | None => (Ok tt, w)
      end
    else (Raise (ComError "unknown verb"), w);
  OpenClipboard w := (Ok tt, w);
  EmptyClipboard w := (Ok tt, with_clipboard None w);
  CloseClipboard w := (Ok tt, w);
  os_path_exists p w := mem p (sim_paths w);
  os_makedirs p w := with_paths (p :: sim_paths w) w;
  os_path_join := join;
  os_path_dirname := dirname;
  time_time := sim_clock;
  time_sleep d w := with_clock (fadd (sim_clock w) d) w;
  strftime_now _ := "2024-01-01 12:00:00";
  str_lower := lower;
  format_1f := fmt_1f
}.

(** A copier on the simulated world. *)
Definition copier (dest : string) : Copier :=
  {| dest_dir := dest; start_time := None; files_copied_total := 0;
     copy_times := [] |}.

Definition start (dest : string) (w : World) : State World :=
  {| world := w; self := copier dest; console := []; log_txt := [];
     run := {| res := mkCopyResult [] [] []; total_files_in_rolls := 0;
               rolls_with_files := 0 |};
     trace := [] |}.

Definition file (dir name : string) : Item :=
  {| Name := name; IsFolder := false; Path := join dir name |}.

Definition folder (dir name : string) : Item :=
  {| Name := name; IsFolder := true; Path := join dir name |}.

End Sim.

(** ** Sample worlds *)

Module Samples.

Import Sim.

Definition iphone : Item := folder (Path computer) "Apple iPhone".
Definition storage : Item := folder (Path iphone) "Internal Storage".
Definition roll1 : Item := folder (Path storage) "Roll1".
Definition a_jpg : Item := file (Path roll1) "a.jpg".
Definition b_jpg : Item := file (Path roll1) "b.jpg".

(** The device shows one roll with two files; the destination [D] holds
    the roll's folder and [a.jpg]. *)
Definition desk : World :=
  {| sim_paths := ["D"; "D/Roll1"; "D/Roll1/a.jpg"];
     sim_clock := of_Z 1000;
     sim_computer := [iphone];
     sim_children := [(Path iphone, [storage]); (Path storage, [roll1]);
                      (Path roll1, [a_jpg; b_jpg])];
     sim_silent := []; sim_broken := [];
     sim_paste_works := true; sim_clipboard := None |}.

(** The same, where the transfer of [b.jpg] does nothing, by [CopyHere]
    and by paste alike. *)
Definition silent : World :=
  {| sim_paths := sim_paths desk; sim_clock := sim_clock desk;
     sim_computer := sim_computer desk; sim_children := sim_children desk;
     sim_silent := ["b.jpg"]; sim_broken := [];
     sim_paste_works := false; sim_clipboard := None |}.

(** The same, where [CopyHere] of [b.jpg] raises. *)
Definition broken : World :=
  {| sim_paths := sim_paths desk; sim_clock := sim_clock desk;
     sim_computer := sim_computer desk; sim_children := sim_children desk;
     sim_silent := []; sim_broken := ["b.jpg"];
     sim_paste_works := true; sim_clipboard := None |}.

(** No device is plugged in. *)
Definition unplugged : World :=
  {| sim_paths := ["D"]; sim_clock := of_Z 1000;
     sim_computer := [folder (Path computer) "Local Disk (C:)"];
     sim_children := [];
     sim_silent := []; sim_broken := [];
     sim_paste_works := true; sim_clipboard := None |}.

(** The device is there but locked: it shows no storage. *)
Definition locked : World :=
  {| sim_paths := ["D"]; sim_clock := of_Z 1000;
     sim_computer := [iphone];
     sim_children := [(Path iphone, [])];
     sim_silent := []; sim_broken := [];
     sim_paste_works := true; sim_clipboard := None |}.

(** The device and its storage are there, and the storage cannot be
    listed. *)
Definition unreachable : World :=
  {| sim_paths := ["D"]; sim_clock := of_Z 1000;
     sim_computer := [iphone];
     sim_children := [(Path iphone, [storage])];
     sim_silent := []; sim_broken := [];
     sim_paste_works := true; sim_clipboard := None |}.

(** The copier of [_calculate_eta]'s example: one sample of 2.0 s. *)
Definition one_sample : Copier :=
  {| dest_dir := ""; start_time := None; files_copied_total := 1;
     copy_times := [of_Z 2] |}.

End Samples.
(* ================================================================== *)
(** * Vocabulary of the properties of the engine *)

(** [a] does not come after [b] in the order of [sorted]: the names are
    compared as [str]. *)
Definition name_le (a b : Item) : Prop := (Name a <=? Name b)%string = true.

(** The items named [n]. *)
Definition named (n : string) (l : list Item) : list Item :=
  filter (fun it => (Name it =? n)%string) l.

(** A call that takes nothing from the device but a copy of a file:
    [CopyHere] of an item that is no folder with the option 16, the verb
    copy on such an item, the verb paste, or a call that transfers
    nothing. *)
Definition copies_a_file (ev : event) : bool :=
  match ev with
  | EvCopyHere _ src options => negb (IsFolder src) && (options =? 16)
  | EvInvokeVerbEx it verb =>
      (verb =? "paste")%string
      || ((verb =? "copy")%string && negb (IsFolder it))
  | _ => true
  end.

Definition is_makedirs (ev : event) : bool :=
  match ev with EvMakedirs _ => true | _ => false end.

Definition is_listing (ev : event) : bool :=
  match ev with EvItems _ => true | _ => false end.

(** A call that transfers nothing and lists nothing. *)
Definition is_plain (ev : event) : bool :=
  match ev with
  | EvNamespace _ | EvSleep _ | EvExists _
  | EvOpenClipboard | EvEmptyClipboard | EvCloseClipboard => true
  | _ => false
  end.

(** A call that only looks: a listing or a test of existence. *)
Definition only_looks (ev : event) : bool :=
  match ev with
  | EvItems _ | EvExists _ => true
  | _ => false
  end.

(** The three lists of a result, one after the other. *)
Definition reported (r : CopyResult) : list string :=
  (completate r ++ saltate r ++ errori r)%list.

Section Frames.

Context {W : Type} {E : Environment W}.

(** A method body whose calls all satisfy [p]. *)
Definition emits (p : event -> bool) {A} (m : M W A) : Prop :=
  forall s, exists calls,
    trace (snd (m s)) = (trace s ++ calls)%list /\ forallb p calls = true.

(** The test of [_find_iphone] on an item. *)
Definition looks_like_iphone (item : Item) : bool :=
  let name_lower := str_lower (Name item) in
  str_contains "iphone" name_lower || str_contains "apple" name_lower.

(** The test of [_find_folder] on an item. *)
Definition is_folder_named (target_name : string) (sub : Item) : bool :=
  IsFolder sub && (str_lower (Name sub) =? str_lower target_name)%string.

(** One turn of the loop of [copy_photos]: the [try] block on one roll
    and its handler. *)
Definition roll_turn (idx total_rolls : Z) (roll : Item) : M W unit :=
  try_except (roll_body idx total_rolls roll)
    (fun e =>
       bind (log (fstr ["❌ Critical error "; Name roll; ": "; str_exn e]))
            (fun _ => append_errori (Name roll))).

(** A roll whose folder and files are all on the disk, and whose listing
    leaves the world as it is. *)
Definition up_to_date (roll : Item) (s : State W) : Prop :=
  let dst := os_path_join (dest_dir (self s)) (Name roll) in
  exists items,
    folder_Items (GetFolder roll) (world s) = (Ok items, world s)
    /\ os_path_exists dst (world s) = true
    /\ forall f, In f items -> IsFolder f = false ->
         os_path_exists (os_path_join dst (Name f)) (world s) = true.

End Frames.

(* ================================================================== *)
(** * The engine when a local call fails

    The engine above takes [print], the append to [log.txt] and
    [os.makedirs] to succeed.  They can raise: [print] when the console
    cannot take the line (a code page without the characters of the
    message, a closed stream), the append when [log.txt] cannot be opened
    or written, [os.makedirs] when the folder cannot be made.  [Faults]
    tells, in a world, which of these calls raise.  The methods that
    print, log or make a folder are given again over it, line by line as
    above; [_clear_clipboard], the two strategies and [copy_attempt] make
    none of these calls and are the ones above. *)

Class Faults (W : Type) : Type := {
  (* print(line) *)
  print_raises : string -> W -> option exn;
  (* with open(self.log_file, "a", encoding="utf-8") as f: f.write(text) *)
  append_raises : string -> W -> option exn;
  (* os.makedirs(path) *)
  makedirs_raises : string -> W -> option exn
}.

(** No local call fails. *)
Definition reliable {W : Type} (F : Faults W) : Prop :=
  forall text w,
    print_raises text w = None
    /\ append_raises text w = None
    /\ makedirs_raises text w = None.

Module Fallible.

Section Engine.

Context {W : Type} {E : Environment W} {F : Faults W}.

Notation "x <- m ;; k" := (bind m (fun x => k))
  (at level 61, m at next level, right associativity).
Notation "m ;; k" := (bind m (fun _ => k))
  (at level 61, right associativity).

(** [print(line)] *)
Definition print (line : string) : M W unit :=
  fun s =>
    match print_raises line (world s) with
    | Some e => (Raise e, s)
    | None =>
        (Ok tt,
         {| world := world s; self := self s; console := console s ++ [line];
            log_txt := log_txt s; run := run s; trace := trace s |})
    end.

(** [with open(self.log_file, "a", encoding="utf-8") as f: f.write(text)] *)
Definition append_log (text : string) : M W unit :=
  fun s =>
    match append_raises text (world s) with
    | Some e => (Raise e, s)
    | None =>
        (Ok tt,
         {| world := world s; self := self s; console := console s;
            log_txt := log_txt s ++ [text]; run := run s; trace := trace s |})
    end.

(** [log(self, msg)]: the line is printed, then appended to [log.txt];
    a line that cannot be printed is not appended. *)
Definition log (msg : string) : M W unit :=
  fun s =>
    let ts := strftime_now (world s) in
    let line := fstr ["["; ts; "] "; msg] in
    (print line ;;
     append_log (fstr [line; newline])) s.

(** [os.makedirs(path)] *)
Definition makedirs (path : string) : M W unit :=
  fun s =>
    match makedirs_raises path (world s) with
    | Some e => (Raise e, add_event (EvMakedirs path) s)
    | None => act (EvMakedirs path) (os_makedirs path) s
    end.

(** [_copy_file_mtp(self, file_item, dest_path)] *)
Definition _copy_file_mtp (file_item : Item) (dest_path : string) : M W bool :=
  file_start <- now ;;
  try_except (copy_attempt file_item dest_path file_start)
    (fun e =>
       log (fstr ["❌ Error during copy: "; str_exn e]) ;;
       ret false).

(** One turn of the loop of [_process_roll] over [source_files]. *)
Definition process_file (roll : Item) (dst_path : string) (source_count : Z)
    (idx : Z) (file_item : Item) (c : counts) : M W counts :=
  let dest_file := os_path_join dst_path (Name file_item) in
  found <- exists_ dest_file ;;
  if found then
    log (fstr ["  ["; fmt_int idx; "/"; fmt_int source_count;
               "] ⏭️  File already exists: "; Name roll; "/"; Name file_item]) ;;
    ret {| files_copied := files_copied c;
           files_skipped := files_skipped c + 1;
           files_failed := files_failed c |}
  else
    copied <- _copy_file_mtp file_item dest_file ;;
    if copied then
      log (fstr ["  ["; fmt_int idx; "/"; fmt_int source_count;
                 "] ✅ Copied: "; Name roll; "/"; Name file_item]) ;;
      ret {| files_copied := files_copied c + 1;
             files_skipped := files_skipped c;
             files_failed := files_failed c |}
    else
      log (fstr ["  ["; fmt_int idx; "/"; fmt_int source_count;
                 "] ❌ Failed: "; Name roll; "/"; Name file_item]) ;;
      ret {| files_copied := files_copied c;
             files_skipped := files_skipped c;
             files_failed := files_failed c + 1 |}.

(** [for idx, file_item in enumerate(source_files, idx): ...] *)
Fixpoint process_files (roll : Item) (dst_path : string) (source_count : Z)
    (idx : Z) (source_files : list Item) (c : counts) : M W counts :=
  match source_files with
  | [] => ret c
  | file_item :: rest =>
      c' <- process_file roll dst_path source_count idx file_item c ;;
      process_files roll dst_path source_count (idx + 1) rest c'
  end.

(** [_process_roll] up to the end of its loop. *)
Definition roll_scan (roll : Item) (roll_idx total_rolls : Z)
    (source_files : list Item) : M W counts :=
  me <- get_self ;;
  let dst_path := os_path_join (dest_dir me) (Name roll) in
  let source_count := len source_files in
  found <- exists_ dst_path ;;
  (if negb found then
     makedirs dst_path ;;
     log (fstr ["📁 ["; fmt_int roll_idx; "/"; fmt_int total_rolls;
                "] New folder: "; Name roll; " ("; fmt_int source_count;
                " files to copy)"])
   else
     log (fstr ["📁 ["; fmt_int roll_idx; "/"; fmt_int total_rolls;
                "] Checking folder: "; Name roll; " ("; fmt_int source_count;
                " files)"])) ;;
  process_files roll dst_path source_count 1 source_files
    {| files_copied := 0; files_skipped := 0; files_failed := 0 |}.

(** The end of [_process_roll]: the final state of the roll. *)
Definition roll_status (roll : Item) (roll_idx total_rolls source_count : Z)
    (c : counts) : M W string :=
  if files_failed c >? 0 then
    log (fstr ["⚠️  ["; fmt_int roll_idx; "/"; fmt_int total_rolls;
               "] Completed with errors: "; Name roll; " (";
               fmt_int (files_copied c); " copied, ";
               fmt_int (files_skipped c); " skipped, ";
               fmt_int (files_failed c); " failed)"]) ;;
    ret "errore"
  else if (files_copied c =? 0) && (files_skipped c =? source_count) then
    log (fstr ["✅ ["; fmt_int roll_idx; "/"; fmt_int total_rolls;
               "] Already complete: "; Name roll; " (";
               fmt_int (files_skipped c); " files)"]) ;;
    ret "saltata"
  else
    log (fstr ["✅ ["; fmt_int roll_idx; "/"; fmt_int total_rolls;
               "] Completed: "; Name roll; " (";
               fmt_int (files_copied c); " copied, ";
               fmt_int (files_skipped c); " skipped)"]) ;;
    ret "completata".

(** [_process_roll(self, roll, roll_idx, total_rolls, source_files)] *)
Definition _process_roll (roll : Item) (roll_idx total_rolls : Z)
    (source_files : list Item) : M W string :=
  c <- roll_scan roll roll_idx total_rolls source_files ;;
  roll_status roll roll_idx total_rolls (len source_files) c.

(** The [try] block of the loop of [copy_photos], for one roll. *)
Definition roll_body (idx total_rolls : Z) (roll : Item) : M W unit :=
  print (fstr [newline; "📂 ["; fmt_int idx; "/"; fmt_int total_rolls;
               "] Analyzing folder: "; Name roll]) ;;
  items <- Items (Some (GetFolder roll)) ;;
  let roll_files := filter (fun f => negb (IsFolder f)) items in
  (if negb (is_empty roll_files) then
     r <- get_run ;;
     put_run {| res := res r;
                total_files_in_rolls :=
                  total_files_in_rolls r + len roll_files;
                rolls_with_files := rolls_with_files r + 1 |}
   else ret tt) ;;
  status <- _process_roll roll idx total_rolls roll_files ;;
  (if (status =? "completata")%string then append_completate (Name roll)
   else if (status =? "saltata")%string then append_saltate (Name roll)
   else if (status =? "errore")%string then append_errori (Name roll)
   else ret tt) ;;
  me <- get_self ;;
  if (idx <? total_rolls) && (files_copied_total me >? 0)
     && negb (status =? "saltata")%string then
    r <- get_run ;;
    avg_files_per_roll <-
      lift (if rolls_with_files r >? 0
            then int_truediv (total_files_in_rolls r) (rolls_with_files r)
            else Ok (of_Z 0)) ;;
    let avg_files_per_roll := fmul avg_files_per_roll f1_2 in
    eta <- lift (_calculate_eta me idx total_rolls avg_files_per_roll) ;;
    log (fstr ["⏱️  Estimated time remaining: "; eta;
               " [statistical estimate, not based on actual missing files]";
               newline])
  else ret tt.

(** The handler of the loop of [copy_photos]:
    [except Exception as e: self.log(...); result.errori.append(roll.Name)] *)
Definition roll_handler (roll : Item) (e : exn) : M W unit :=
  log (fstr ["❌ Critical error "; Name roll; ": "; str_exn e]) ;;
  append_errori (Name roll).

(** [for idx, roll in enumerate(rolls, idx): try: ... except Exception ...] *)
Fixpoint rolls_loop (idx total_rolls : Z) (rolls : list Item) : M W unit :=
  match rolls with
  | [] => ret tt
  | roll :: rest =>
      try_except (roll_body idx total_rolls roll) (roll_handler roll) ;;
      rolls_loop (idx + 1) total_rolls rest
  end.

(** The end of [copy_photos]: the statistics and the summary. *)
Definition final_summary (total_rolls : Z) : M W CopyResult :=
  t <- now ;;
  me <- get_self ;;
  t0 <- match start_time me with
        | Some t0 => ret t0
        | None => raise (TypeError "unsupported operand type(s) for -")
        end ;;
  let tempo := fsub t t0 in
  r <- get_run ;;
  let cr := res r in
  let cr := {| completate := completate cr; saltate := saltate cr;
               errori := errori cr; tempo_totale := tempo;
               file_copiati := files_copied_total me;
               velocita_media := velocita_media cr |} in
  put_run {| res := cr; total_files_in_rolls := total_files_in_rolls r;
             rolls_with_files := rolls_with_files r |} ;;
  cr <- (if files_copied_total me >? 0 then
           n <- lift (float_of_int (files_copied_total me)) ;;
           q <- lift (truediv n tempo) ;;
           let cr' := {| completate := completate cr; saltate := saltate cr;
                         errori := errori cr; tempo_totale := tempo_totale cr;
                         file_copiati := file_copiati cr;
                         velocita_media := fmul q (of_Z 60) |} in
           put_run {| res := cr';
                      total_files_in_rolls := total_files_in_rolls r;
                      rolls_with_files := rolls_with_files r |} ;;
           ret cr'
         else ret cr) ;;
  total_time <- lift (_format_time tempo) ;;
  log (fstr [newline; "🎉 FINAL SUMMARY ("; fmt_int total_rolls;
             " total folders):"; newline;
             "   ✅ Completed: "; fmt_int (len (completate cr)); newline;
             "   ⏭️  Skipped: "; fmt_int (len (saltate cr)); newline;
             "   ❌ With errors: "; fmt_int (len (errori cr)); newline;
             newline; "📊 STATISTICS:"; newline;
             "   ⏱️  Total time: "; total_time; newline;
             "   📁 Files copied: "; fmt_int (files_copied_total me); newline;
             "   ⚡ Average speed: "; format_1f (velocita_media cr);
             " files/minute"]) ;;
  ret cr.

(** [copy_photos(self)] *)
Definition copy_photos : M W CopyResult :=
  t0 <- now ;;
  me <- get_self ;;
  put_self {| dest_dir := dest_dir me; start_time := Some t0;
              files_copied_total := files_copied_total me;
              copy_times := copy_times me |} ;;
  iphone <- _find_iphone ;;
  match iphone with
  | None =>
      log "❌ iPhone not found." ;;
      ret (mkCopyResult [] [] [])
  | Some iphone =>
      internal <- _find_folder iphone "Internal Storage" ;;
      match internal with
      | None =>
          log "❌ Internal Storage not found." ;;
          ret (mkCopyResult [] [] [])
      | Some internal =>
          items <- Items (Some (GetFolder internal)) ;;
          let rolls := sorted_by_name (filter IsFolder items) in
          let total_rolls := len rolls in
          log (fstr ["📲 Starting copy of "; fmt_int total_rolls;
                     " folders…"]) ;;
          put_run {| res := mkCopyResult [] [] [];
                     total_files_in_rolls := 0; rolls_with_files := 0 |} ;;
          rolls_loop 1 total_rolls rolls ;;
          final_summary total_rolls
      end
  end.

End Engine.

End Fallible.

(** ** Vocabulary of the statements on this engine *)

(** The line [log] makes of a message in a world. *)
Definition log_line {W : Type} {E : Environment W} (msg : string) (w : W)
    : string :=
  fstr ["["; strftime_now w; "] "; msg].

(** The message of the handler of [_copy_file_mtp]. *)
Definition copy_error (e : exn) : string :=
  fstr ["❌ Error during copy: "; str_exn e].

(** The message of the handler of the loop of [copy_photos]. *)
Definition critical_error (roll : Item) (e : exn) : string :=
  fstr ["❌ Critical error "; Name roll; ": "; str_exn e].

(** The line [copy_photos] prints before it lists a roll. *)
Definition analyzing (idx total_rolls : Z) (roll : Item) : string :=
  fstr [newline; "📂 ["; fmt_int idx; "/"; fmt_int total_rolls;
        "] Analyzing folder: "; Name roll].

(** A method body that leaves the locals of [copy_photos] as they are,
    whether it returns or raises. *)
Definition keeps_run {W A : Type} (m : M W A) : Prop :=
  forall s, run (snd (m s)) = run s.

(** What one roll adds to [completate], [saltate] and [errori]. *)
Definition report : Type := list string * list string * list string.

Definition to_completate (o : report) : list string := fst (fst o).
Definition to_saltate (o : report) : list string := snd (fst o).
Definition to_errori (o : report) : list string := snd o.

(** The five reports a roll named [n] can get: one of the three lists; or
    [completate] or [errori] by its status, then [errori] again by the
    handler, when the estimate that follows raises. *)
Definition roll_outcome (n : string) (o : report) : Prop :=
  o = ([n], [], []) \/ o = ([], [n], []) \/ o = ([], [], [n])
  \/ o = ([n], [], [n]) \/ o = ([], [], [n; n]).

(** [l1] is [l2] with some of its elements left out, the order kept. *)
Inductive subsequence {A : Type} : list A -> list A -> Prop :=
| sub_nil : subsequence [] []
| sub_skip x l1 l2 : subsequence l1 l2 -> subsequence l1 (x :: l2)
| sub_keep x l1 l2 : subsequence l1 l2 -> subsequence (x :: l1) (x :: l2).

(** ** Two more sentences of the specification, as it words them *)

(** "Any exception of either strategy is converted to a false result and
    never propagated." *)
Definition strategy_errors_never_propagate : Prop :=
  forall (W : Type) (E : Environment W) (F : Faults W) (file_item : Item)
         (dest_path : string) (s : State W) e s1,
    copy_attempt file_item dest_path (time_time (world s)) s = (Raise e, s1) ->
    fst (Fallible._copy_file_mtp file_item dest_path s) = Ok false.

(** "Any value from 3600 on is rendered as its whole hours and the whole
    minutes left over." *)
Definition hours_are_truncated_at_any_size : Prop :=
  forall seconds : float,
    valid seconds = true -> is_finite seconds = true ->
    let v := to_Q seconds in
    (3600 <= v)%Q ->
    let hours := Qfloor (v / 3600) in
    let minutes := Qfloor ((v - inject_Z (3600 * hours)) / 60) in
    _format_time seconds
    = Ok (fstr [fmt_int hours; " hours and "; fmt_int minutes; " minutes"]).

(** ** Consoles for the simulated disk *)

Module SimFaults.

Import Sim.

(** Every byte of the string is below 128. *)
Fixpoint is_ascii (s : string) : bool :=
  match s with
  | EmptyString => true
  | String c rest => (nat_of_ascii c <? 128)%nat && is_ascii rest
  end.

(** A console and a disk that take every line. *)
Definition sound : Faults World :=
  {| print_raises := fun _ _ => None;
     append_raises := fun _ _ => None;
     makedirs_raises := fun _ _ => None |}.

(** A console whose encoding is ASCII: [print] of a line with a character
    outside it raises [UnicodeEncodeError], a [ValueError]. *)
Definition ascii_console : Faults World :=
  {| print_raises := fun line _ =>
       if is_ascii line then None
       else Some (ValueError "'ascii' codec can't encode character");
     append_raises := fun _ _ => None;
     makedirs_raises := fun _ _ => None |}.

(** A disk on which [log.txt] is in the folder [dir]: when the folder is
    not there, [open] raises [FileNotFoundError], an [OSError]. *)
Definition log_in (dir : string) : Faults World :=
  {| print_raises := fun _ _ => None;
     append_raises := fun _ w =>
       if mem dir (sim_paths w) then None
       else Some (OSError "[Errno 2] No such file or directory");
     makedirs_raises := fun _ _ => None |}.

End SimFaults.

(* ================================================================== *)
(** * The construction of the copier and the script

    [__init__], [_get_destination_folder], [__enter__], [__exit__] and the
    [with] statement of the script.  They run before and around the
    engine, on the same world, and meet what the engine does not: the
    environment variables, the file [config.json] and the COM runtime.
    As in the engine, [print] is taken to succeed. *)

(** A value that [json.load] returns; the items of a [dict] are in the
    order of insertion, each key once. *)
#[warnings="-register-all"]
Inductive json : Type :=
| JNull
| JBool (b : bool)
| JInt (n : Z)
| JFloat (x : float)
| JStr (s : string)
| JList (l : list json)
| JDict (items : list (string * json)).

(** [bool(v)] *)
Definition truthy (v : json) : bool :=
  match v with
  | JNull => false
  | JBool b => b
  | JInt n => negb (n =? 0)
  | JFloat x => negb (is_zero x)
  | JStr s => negb (s =? "")%string
  | JList l => negb (is_empty l)
  | JDict items => negb (is_empty items)
  end.

(** [type(v).__name__] *)
Definition type_name (v : json) : string :=
  match v with
  | JNull => "NoneType"
  | JBool _ => "bool"
  | JInt _ => "int"
  | JFloat _ => "float"
  | JStr _ => "str"
  | JList _ => "list"
  | JDict _ => "dict"
  end.

(** [d.get(key, default)] on the items of a [dict]. *)
Fixpoint dict_get (items : list (string * json)) (key : string)
    (default : json) : json :=
  match items with
  | [] => default
  | (k, v) :: rest =>
      if (k =? key)%string then v else dict_get rest key default
  end.

(** The exceptions met outside the engine; all derive from [Exception].
    [OtherOSError] is an [OSError] that is no [FileNotFoundError]
    ([PermissionError], ...); [Other] carries the exceptions of the
    engine's kind, among them the [ValueError] of a file that is not JSON. *)
Inductive host_exn : Type :=
| KeyError (key : string)
| FileNotFoundError (msg : string)
| OtherOSError (msg : string)
| Other (e : exn).

(** [str(e)] *)
Definition str_host_exn (e : host_exn) : string :=
  match e with
  | KeyError key => fstr ["'"; key; "'"]
  | FileNotFoundError msg | OtherOSError msg => msg
  | Other e => str_exn e
  end.

Inductive outcome (A : Type) : Type :=
| Done (a : A)
| Failed (e : host_exn).

Arguments Done {A} a.
Arguments Failed {A} e.

(** [config.get(key, default)]: only a [dict] has the method. *)
Definition py_get (config : json) (key : string) (default : json)
    : outcome json :=
  match config with
  | JDict items => Done (dict_get items key default)
  | v =>
      Failed (Other (AttributeError
                       (fstr ["'"; type_name v;
                              "' object has no attribute 'get'"])))
  end.

(** The dictionary written when there is no [config.json]. *)
Definition default_config : json :=
  JDict [("use_desktop", JBool true);
         ("custom_path", JStr "C:/Users/nome_utente/Pictures/iPhone")].

(** The calls made outside the engine, and the engine's own. *)
Inductive host_event : Type :=
| HvLoad (path : string)
| HvDump (path : string) (v : json)
| HvMakedirs (path : string)
| HvCoInitialize
| HvDispatch (prog_id : string)
| HvCoUninitialize
| HvEngine (ev : event).

(** What the script needs of the machine besides the engine's
    collaborators. *)
Class Host (W : Type) : Type := {
  (* os.environ.get(key): [None] makes [os.environ[key]] raise *)
  os_environ : string -> W -> option string;
  (* __file__ *)
  script_file : string;
  (* with open(path, 'r', encoding='utf-8') as f: json.load(f) *)
  load_json : string -> W -> outcome json;
  (* with open(path, 'w', encoding='utf-8') as f: json.dump(v, f, indent=2) *)
  dump_json : string -> json -> W -> outcome unit * W;
  (* os.makedirs(path, exist_ok=True) *)
  makedirs_exist_ok : string -> W -> outcome unit * W;
  (* pythoncom, win32com.client *)
  CoInitialize : W -> outcome unit * W;
  Dispatch : string -> W -> outcome unit * W;
  CoUninitialize : W -> outcome unit * W;
  (* str(v) of a value that is no str *)
  repr_json : json -> string
}.

(** A file written is the file read back. *)
Class StoresJson {W : Type} (H : Host W) : Prop := {
  dump_then_load : forall path v w w',
    dump_json path v w = (Done tt, w') -> load_json path w' = Done v
}.

(** The attributes of a copier after [__init__]; [has_shell] tells
    [self.shell] from [None]. *)
Record Object : Type := {
  desktop : string;
  log_file : string;
  has_shell : bool;
  engine : Copier
}.

Section Script.

Context {W : Type} {E : Environment W} {H : Host W}.

(** What the script can change before and around the engine. *)
Record Boot : Type := {
  hworld : W;
  hconsole : list string;
  hlog : list string;
  hcalls : list host_event
}.

Definition B (A : Type) : Type := Boot -> outcome A * Boot.

Definition bret {A} (a : A) : B A := fun b => (Done a, b).

Definition braise {A} (e : host_exn) : B A := fun b => (Failed e, b).

Definition bbind {A C} (m : B A) (k : A -> B C) : B C :=
  fun b =>
    match m b with
    | (Done a, b') => k a b'
    | (Failed e, b') => (Failed e, b')
    end.

(** [try: m  except ... as e: h e] *)
Definition btry {A} (m : B A) (h : host_exn -> B A) : B A :=
  fun b =>
    match m b with
    | (Done a, b') => (Done a, b')
    | (Failed e, b') => h e b'
    end.

Definition blift {A} (r : outcome A) : B A := fun b => (r, b).

Notation "x <- m ;; k" := (bbind m (fun x => k))
  (at level 61, m at next level, right associativity).
Notation "m ;; k" := (bbind m (fun _ => k))
  (at level 61, right associativity).

(** A call that may raise and may change the machine. *)
Definition host_call {A} (ev : host_event) (op : W -> outcome A * W) : B A :=
  fun b =>
    let '(r, w) := op (hworld b) in
    (r, {| hworld := w; hconsole := hconsole b; hlog := hlog b;
           hcalls := hcalls b ++ [ev] |}).

(** [print(line)] *)
Definition hprint (line : string) : B unit :=
  fun b =>
    (Done tt, {| hworld := hworld b; hconsole := hconsole b ++ [line];
                 hlog := hlog b; hcalls := hcalls b |}).

(** [os.path.exists(path)] *)
Definition bexists (path : string) : B bool :=
  fun b => (Done (os_path_exists path (hworld b)), b).

(** [with open(path, 'r', encoding='utf-8') as f: config = json.load(f)] *)
Definition load (path : string) : B json :=
  host_call (HvLoad path) (fun w => (load_json path w, w)).

(** [str(v)] in an f-string. *)
Definition py_str (v : json) : string :=
  match v with
  | JStr s => s
  | v => repr_json v
  end.

(** The [try] block of [_get_destination_folder].  [os.path.dirname]
    takes a [str] and raises [TypeError] on any other value that JSON
    gives; it is reached only when [custom_path] is true. *)
Definition read_config (desktop config_path : string) : B string :=
  config <- load config_path ;;
  use_desktop <- blift (py_get config "use_desktop" (JBool true)) ;;
  if truthy use_desktop then bret (os_path_join desktop "photo_iphone")
  else
    custom_path <- blift (py_get config "custom_path" (JStr "")) ;;
    valid <- (if truthy custom_path then
                match custom_path with
                | JStr p => bexists (os_path_dirname p)
                | v =>
                    braise (Other (TypeError
                      (fstr ["expected str, bytes or os.PathLike object, not ";
                             type_name v])))
                end
              else bret false) ;;
    match valid, custom_path with
    | true, JStr p => bret p
    | _, _ =>
        hprint (fstr ["⚠️ Invalid custom path: "; py_str custom_path]) ;;
        hprint "   Using Desktop as fallback." ;;
        bret (os_path_join desktop "photo_iphone")
    end.

(** [_get_destination_folder(self)]; it reads [self.desktop]. *)
Definition _get_destination_folder (desktop : string) : B string :=
  let config_path :=
    os_path_join (os_path_dirname script_file) "config.json" in
  btry (read_config desktop config_path)
    (fun e =>
       match e with
       | FileNotFoundError _ =>
           host_call (HvDump config_path default_config)
                     (dump_json config_path default_config) ;;
           bret (os_path_join desktop "photo_iphone")
       | _ =>
           hprint (fstr ["⚠️ Error reading config: "; str_host_exn e]) ;;
           bret (os_path_join desktop "photo_iphone")
       end).

(** [os.environ[key]] *)
Definition environ (key : string) : B string :=
  fun b =>
    match os_environ key (hworld b) with
    | Some v => (Done v, b)
    | None => (Failed (KeyError key), b)
    end.

(** [__init__(self, dest_dir=None)]; [dest_dir or ...] takes an empty
    string as it takes [None]. *)
Definition __init__ (dest_dir : option string) : B Object :=
  home <- environ "USERPROFILE" ;;
  let desktop := os_path_join home "Desktop" in
  dest <- match dest_dir with
          | Some d =>
              if negb (d =? "")%string then bret d
              else _get_destination_folder desktop
          | None => _get_destination_folder desktop
          end ;;
  bret {| desktop := desktop;
          log_file := os_path_join dest "log.txt";
          has_shell := false;
          engine := {| dest_dir := dest; start_time := None;
                       files_copied_total := 0; copy_times := [] |} |}.

(** [__enter__(self)] *)
Definition __enter__ (o : Object) : B Object :=
  host_call (HvMakedirs (dest_dir (engine o)))
            (makedirs_exist_ok (dest_dir (engine o))) ;;
  host_call HvCoInitialize CoInitialize ;;
  host_call (HvDispatch "Shell.Application") (Dispatch "Shell.Application") ;;
  bret {| desktop := desktop o; log_file := log_file o; has_shell := true;
          engine := engine o |}.

(** A method of the engine run on the object [me]; its calls join the
    calls of the script. *)
Definition in_engine {A} (me : Copier) (m : M W A) : B A :=
  fun b =>
    let s := {| world := hworld b; self := me; console := hconsole b;
                log_txt := hlog b;
                run := {| res := mkCopyResult [] [] [];
                          total_files_in_rolls := 0;
                          rolls_with_files := 0 |};
                trace := [] |} in
    let '(r, s') := m s in
    (match r with Ok a => Done a | Raise e => Failed (Other e) end,
     {| hworld := world s'; hconsole := console s'; hlog := log_txt s';
        hcalls := hcalls b ++ map HvEngine (trace s') |}).

(** [__exit__(self, exc_type, exc_val, exc_tb)]; it returns [None]. *)
Definition __exit__ (o : Object) : B unit :=
  in_engine (engine o) _clear_clipboard ;;
  host_call HvCoUninitialize CoUninitialize.

(** The script: [with IPhoneMTPCopier() as copier: copier.copy_photos()].
    [__exit__] runs once [__enter__] has returned, whether the body
    returned or raised; as it returns [None] the exception of the body is
    raised again, unless [__exit__] raises one itself. *)
Definition main : B unit :=
  fun b =>
    match __init__ None b with
    | (Failed e, b1) => (Failed e, b1)
    | (Done o, b1) =>
        match __enter__ o b1 with
        | (Failed e, b2) => (Failed e, b2)
        | (Done copier, b2) =>
            let '(r, b3) := in_engine (engine copier) copy_photos b2 in
            match __exit__ copier b3 with
            | (Failed e', b4) => (Failed e', b4)
            | (Done _, b4) =>
                (match r with Done _ => Done tt | Failed e => Failed e end,
                 b4)
            end
        end
    end.

(** The folder that a loaded configuration names rightly, if it does:
    the configuration is a [dict] whose [use_desktop] is false and whose
    [custom_path] is a string, not empty, with a parent that exists. *)
Definition custom_choice (w : W) (config : outcome json) : option string :=
  match config with
  | Done (JDict items) =>
      if truthy (dict_get items "use_desktop" (JBool true)) then None
      else
        match dict_get items "custom_path" (JStr "") with
        | JStr p =>
            if negb (p =? "")%string
               && os_path_exists (os_path_dirname p) w
            then Some p else None
        | _ => None
        end
  | _ => None
  end.

End Script.

Arguments Boot W : clear implicits.
Arguments B W A : clear implicits.

Definition is_uninitialize (ev : host_event) : bool :=
  match ev with HvCoUninitialize => true | _ => false end.

Definition is_engine_call (ev : host_event) : bool :=
  match ev with HvEngine _ => true | _ => false end.

(* ================================================================== *)
(** * A simulated machine

    The simulated disk and device, with the JSON files that exist, the
    user's profile and a COM runtime that can be made to fail. *)

Module SimHost.

Import Sim.

Record Machine : Type := {
  disk : Sim.World;
  json_files : list (string * json);
  profile : option string;
  write_protected : bool;
  shell_registered : bool
}.

Definition with_disk (d : Sim.World) (m : Machine) : Machine :=
  {| disk := d; json_files := json_files m; profile := profile m;
     write_protected := write_protected m;
     shell_registered := shell_registered m |}.

Definition with_json_files (l : list (string * json)) (m : Machine)
    : Machine :=
  {| disk := disk m; json_files := l; profile := profile m;
     write_protected := write_protected m;
     shell_registered := shell_registered m |}.

Definition on_disk {A} (op : Sim.World -> A * Sim.World) (m : Machine)
    : A * Machine :=
  let '(a, d) := op (disk m) in (a, with_disk d m).

#[export] Instance env : Environment Machine := {
  shell_Namespace d := on_disk (shell_Namespace d);
  folder_Items f := on_disk (folder_Items f);
  folder_CopyHere dst src o := on_disk (folder_CopyHere dst src o);
  item_InvokeVerbEx it verb := on_disk (item_InvokeVerbEx it verb);
  OpenClipboard := on_disk OpenClipboard;
  EmptyClipboard := on_disk EmptyClipboard;
  CloseClipboard := on_disk CloseClipboard;
  os_path_exists p m := os_path_exists p (disk m);
  os_makedirs p m := with_disk (os_makedirs p (disk m)) m;
  os_path_join := Sim.join;
  os_path_dirname := Sim.dirname;
  time_time m := time_time (disk m);
  time_sleep d m := with_disk (time_sleep d (disk m)) m;
  strftime_now m := strftime_now (disk m);
  str_lower := Sim.lower;
  format_1f := Sim.fmt_1f
}.

Definition repr (v : json) : string :=
  match v with
  | JNull => "None"
  | JBool b => if b then "True" else "False"
  | JInt n => fmt_int n
  | JFloat x => Sim.fmt_1f x
  | JStr s => fstr ["'"; s; "'"]
  | JList _ => "[...]"
  | JDict _ => "{...}"
  end.

#[export] Instance host : Host Machine := {
  os_environ key m :=
    if (key =? "USERPROFILE")%string then profile m else None;
  script_file := "C:/app/main.py";
  load_json path m :=
    match find (fun entry => (fst entry =? path)%string) (json_files m) with
    | Some entry => Done (snd entry)
    | None => Failed (FileNotFoundError "No such file or directory")
    end;
  dump_json path v m :=
    if write_protected m
    then (Failed (OtherOSError "Permission denied"), m)
    else (Done tt, with_json_files ((path, v) :: json_files m) m);
  makedirs_exist_ok p m :=
    (Done tt, with_disk (Sim.with_paths (p :: Sim.sim_paths (disk m)) (disk m)) m);
  CoInitialize m := (Done tt, m);
  Dispatch _ m :=
    if shell_registered m then (Done tt, m)
    else (Failed (Other (ComError "Invalid class string")), m);
  CoUninitialize m := (Done tt, m);
  repr_json := repr
}.

(** A machine of a user with a desktop, the device of [Samples.desk]
    plugged in, and no [config.json]. *)
Definition fresh : Machine :=
  {| disk := Samples.desk; json_files := [];
     profile := Some "C:/Users/anna";
     write_protected := false; shell_registered := true |}.

(** The same with a [config.json] that names the folder [D/photos]. *)
Definition configured : Machine :=
  {| disk := Samples.desk;
     json_files := [("C:/app/config.json",
                     JDict [("use_desktop", JBool false);
                            ("custom_path", JStr "D/photos")])];
     profile := Some "C:/Users/anna";
     write_protected := false; shell_registered := true |}.

(** The same where [Shell.Application] cannot be dispatched. *)
Definition no_shell : Machine :=
  {| disk := Samples.desk; json_files := [];
     profile := Some "C:/Users/anna";
     write_protected := false; shell_registered := false |}.

Definition boot (m : Machine) : Boot Machine :=
  {| hworld := m; hconsole := []; hlog := []; hcalls := [] |}.

End SimHost.
(* ================================================================== *)
(** * The equations of the monad *)

Section Equations.
Context {W : Type} {E : Environment W}.

Lemma bind_ret {A B} (a : A) (k : A -> M W B) s : bind (ret a) k s = k a s.
Proof. reflexivity. Qed.

Lemma bind_raise {A B} (e : exn) (k : A -> M W B) s :
  bind (raise e) k s = (Raise e, s).
Proof. reflexivity. Qed.

Lemma bind_assoc {A B C} (m : M W A) (f : A -> M W B) (g : B -> M W C) s :
  bind (bind m f) g s = bind m (fun x => bind (f x) g) s.
Proof. unfold bind. destruct (m s) as [[a | e] s1]; reflexivity. Qed.

Lemma bind_ext {A B} (m : M W A) (k1 k2 : A -> M W B) s :
  (forall a s', k1 a s' = k2 a s') -> bind m k1 s = bind m k2 s.
Proof.
  intros H. unfold bind. destruct (m s) as [[a | e] s1]; [apply H | reflexivity].
Qed.

Lemma bind_if {A B} (b : bool) (m1 m2 : M W A) (k : A -> M W B) s :
  bind (if b then m1 else m2) k s = if b then bind m1 k s else bind m2 k s.
Proof. destruct b; reflexivity. Qed.

Lemma bind_log {A} msg (k : unit -> M W A) s :
  bind (log msg) k s = k tt (snd (log msg s)).
Proof. reflexivity. Qed.

Lemma bind_print {A} msg (k : unit -> M W A) s :
  bind (print msg) k s = k tt (snd (print msg s)).
Proof. reflexivity. Qed.

Lemma bind_exists {A} p (k : bool -> M W A) s :
  bind (exists_ p) k s
  = k (os_path_exists p (world s)) (add_event (EvExists p) s).
Proof. reflexivity. Qed.

Lemma bind_act {A} ev op (k : unit -> M W A) s :
  bind (act ev op) k s = k tt (set_world (op (world s)) (add_event ev s)).
Proof. reflexivity. Qed.

Lemma bind_sleep {A} d (k : unit -> M W A) s :
  bind (sleep d) k s
  = k tt (set_world (time_sleep d (world s)) (add_event (EvSleep d) s)).
Proof. reflexivity. Qed.

Lemma bind_now {A} (k : float -> M W A) s :
  bind now k s = k (time_time (world s)) s.
Proof. reflexivity. Qed.

Lemma bind_get_self {A} (k : Copier -> M W A) s :
  bind get_self k s = k (self s) s.
Proof. reflexivity. Qed.

Lemma bind_put_self {A} c (k : unit -> M W A) s :
  bind (put_self c) k s = k tt (set_self c s).
Proof. reflexivity. Qed.

Lemma bind_get_run {A} (k : RunLocals -> M W A) s :
  bind get_run k s = k (run s) s.
Proof. reflexivity. Qed.

Lemma bind_put_run {A} r (k : unit -> M W A) s :
  bind (put_run r) k s = k tt (set_run r s).
Proof. reflexivity. Qed.

Lemma bind_call {A B} ev (op : W -> result A * W) (k : A -> M W B) s :
  bind (call ev op) k s
  = match op (world s) with
    | (Ok a, w) => k a (set_world w (add_event ev s))
    | (Raise e, w) => (Raise e, set_world w (add_event ev s))
    end.
Proof.
  unfold bind, call. destruct (op (world s)) as [[a | e] w]; reflexivity.
Qed.

Lemma bind_lift {A B} (r : result A) (k : A -> M W B) s :
  bind (lift r) k s = match r with Ok a => k a s | Raise e => (Raise e, s) end.
Proof. destruct r; reflexivity. Qed.

End Equations.

Ltac mstep :=
  repeat first
    [ rewrite bind_assoc | rewrite bind_ret | rewrite bind_raise
    | rewrite bind_log | rewrite bind_print | rewrite bind_exists
    | rewrite bind_act | rewrite bind_sleep | rewrite bind_now
    | rewrite bind_get_self | rewrite bind_put_self
    | rewrite bind_get_run | rewrite bind_put_run | rewrite bind_if ].

Section Totality.
Context {W : Type} {E : Environment W}.

Lemma copy_file_returns (file_item : Item) (dest_path : string) (s : State W) :
  exists b s', _copy_file_mtp file_item dest_path s = (Ok b, s').
Proof.
  unfold _copy_file_mtp. rewrite bind_now. unfold try_except.
  destruct (copy_attempt file_item dest_path (time_time (world s)) s)
    as [[b | e] s1]; [eauto |].
  rewrite bind_log. eexists _, _. reflexivity.
Qed.

Lemma process_file_returns roll dst n idx f c (s : State W) :
  exists c' s',
    process_file roll dst n idx f c s = (Ok c', s')
    /\ handled c' = handled c + 1
    /\ files_copied c <= files_copied c'
    /\ files_skipped c <= files_skipped c'
    /\ files_failed c <= files_failed c'.
Proof.
  unfold process_file. rewrite bind_exists.
  destruct (os_path_exists _ _).
  - rewrite bind_log. eexists _, _. split; [reflexivity |].
    unfold handled; cbn [files_copied files_skipped files_failed]. lia.
  - destruct (copy_file_returns f (os_path_join dst (Name f))
                (add_event (EvExists (os_path_join dst (Name f))) s))
      as (b & s1 & Hb).
    unfold bind at 1. rewrite Hb.
    destruct b; rewrite bind_log; eexists _, _; (split; [reflexivity |]);
      unfold handled; cbn [files_copied files_skipped files_failed]; lia.
Qed.

Lemma process_files_returns roll dst n files : forall idx c (s : State W),
  exists c' s',
    process_files roll dst n idx files c s = (Ok c', s')
    /\ handled c' = handled c + len files
    /\ files_copied c <= files_copied c'
    /\ files_skipped c <= files_skipped c'
    /\ files_failed c <= files_failed c'.
Proof.
  induction files as [| f rest IH]; intros idx c s.
  - exists c, s. unfold handled, len; cbn. repeat split; lia.
  - cbn [process_files]. unfold bind.
    destruct (process_file_returns roll dst n idx f c s)
      as (c1 & s1 & H1 & Hsum1 & Hc1 & Hk1 & Hf1).
    rewrite H1.
    destruct (IH (idx + 1) c1 s1) as (c2 & s2 & H2 & Hsum2 & Hc2 & Hk2 & Hf2).
    exists c2, s2. rewrite H2. unfold len in *. cbn [length].
    repeat split; lia.
Qed.

Lemma roll_scan_returns roll roll_idx total_rolls files (s : State W) :
  exists c s',
    roll_scan roll roll_idx total_rolls files s = (Ok c, s')
    /\ handled c = len files
    /\ 0 <= files_copied c /\ 0 <= files_skipped c /\ 0 <= files_failed c.
Proof.
  unfold roll_scan. rewrite bind_get_self, bind_exists.
  destruct (os_path_exists _ _); cbn [negb]; mstep.
  all: match goal with |- context [process_files ?r ?d ?n ?i ?fs ?c ?st] =>
      destruct (process_files_returns r d n fs i c st)
        as (c' & s' & H & Hsum & Hc & Hk & Hf) end;
    exists c', s'; rewrite H; unfold handled in *;
    cbn [files_copied files_skipped files_failed] in *;
    repeat split; lia.
Qed.

Lemma roll_status_returns roll roll_idx total_rolls n c (s : State W) :
  exists status s',
    roll_status roll roll_idx total_rolls n c s = (Ok status, s')
    /\ (0 < files_failed c -> status = "errore")
    /\ (files_failed c <= 0 -> files_copied c = 0 /\ files_skipped c = n ->
        status = "saltata")
    /\ (files_failed c <= 0 -> ~ (files_copied c = 0 /\ files_skipped c = n) ->
        status = "completata").
Proof.
  unfold roll_status.
  destruct (Z.gtb_spec (files_failed c) 0) as [Hf | Hf].
  - rewrite bind_log. eexists _, _. split; [reflexivity |].
    repeat split; intros; try reflexivity; lia.
  - destruct (Z.eqb_spec (files_copied c) 0) as [Hc | Hc];
      [destruct (Z.eqb_spec (files_skipped c) n) as [Hk | Hk] |];
      cbn [andb]; rewrite bind_log; eexists _, _; (split; [reflexivity |]);
      repeat split; intros; try reflexivity; try lia; tauto.
Qed.
End Totality.

Section Rolls.
Context {W : Type} {E : Environment W}.

Lemma process_roll_returns roll roll_idx total_rolls files (s : State W) :
  exists status s', _process_roll roll roll_idx total_rolls files s = (Ok status, s').
Proof.
  unfold _process_roll, bind.
  destruct (roll_scan_returns roll roll_idx total_rolls files s)
    as (c & s1 & H1 & _).
  rewrite H1.
  destruct (roll_status_returns roll roll_idx total_rolls (len files) c s1)
    as (status & s2 & H2 & _).
  eauto.
Qed.

Lemma rolls_loop_returns rolls : forall idx total_rolls (s : State W),
  exists s', rolls_loop idx total_rolls rolls s = (Ok tt, s').
Proof.
  induction rolls as [| roll rest IH]; intros idx total_rolls s.
  - exists s. reflexivity.
  - cbn [rolls_loop]. unfold bind at 1, try_except.
    destruct (roll_body idx total_rolls roll s) as [[[] | e] s1].
    + apply IH.
    + rewrite bind_log. unfold append_errori. rewrite bind_get_run.
      unfold put_run. apply IH.
Qed.

(** One turn of the loop gives the file exactly one of the three outcomes. *)
Lemma process_file_one_outcome roll dst n idx f c (s : State W) :
  exists c' s',
    process_file roll dst n idx f c s = (Ok c', s')
    /\ (   (files_copied c' = files_copied c + 1
            /\ files_skipped c' = files_skipped c
            /\ files_failed c' = files_failed c)
        \/ (files_copied c' = files_copied c
            /\ files_skipped c' = files_skipped c + 1
            /\ files_failed c' = files_failed c)
        \/ (files_copied c' = files_copied c
            /\ files_skipped c' = files_skipped c
            /\ files_failed c' = files_failed c + 1)).
Proof.
  unfold process_file. rewrite bind_exists.
  destruct (os_path_exists _ _).
  - rewrite bind_log. eexists _, _. split; [reflexivity |].
    right; left. cbn [files_copied files_skipped files_failed]. lia.
  - destruct (copy_file_returns f (os_path_join dst (Name f))
                (add_event (EvExists (os_path_join dst (Name f))) s))
      as (b & s1 & Hb).
    unfold bind at 1. rewrite Hb.
    destruct b; rewrite bind_log; eexists _, _; (split; [reflexivity |]);
      cbn [files_copied files_skipped files_failed]; [left | right; right]; lia.
Qed.

(** C9: after the loop of [_process_roll] the three counters add up to the
    number of files of the listing, and each turn of the loop adds one to
    exactly one of them. *)
Theorem counts_partition_listing roll roll_idx total_rolls source_files
    (s : State W) :
  (exists c s',
     roll_scan roll roll_idx total_rolls source_files s = (Ok c, s')
     /\ files_copied c + files_skipped c + files_failed c = len source_files
     /\ 0 <= files_copied c /\ 0 <= files_skipped c /\ 0 <= files_failed c)
  /\ (forall dst n idx f c s0,
        exists c' s',
          process_file roll dst n idx f c s0 = (Ok c', s')
          /\ (   (files_copied c' = files_copied c + 1
                  /\ files_skipped c' = files_skipped c
                  /\ files_failed c' = files_failed c)
              \/ (files_copied c' = files_copied c
                  /\ files_skipped c' = files_skipped c + 1
                  /\ files_failed c' = files_failed c)
              \/ (files_copied c' = files_copied c
                  /\ files_skipped c' = files_skipped c
                  /\ files_failed c' = files_failed c + 1))).
Proof.
  split.
  - destruct (roll_scan_returns roll roll_idx total_rolls source_files s)
      as (c & s' & H & Hsum & Hc & Hk & Hf).
    exists c, s'. unfold handled in Hsum. auto.
  - intros. apply process_file_one_outcome.
Qed.

(** C3: the value [_process_roll] returns is fixed by the counters its loop
    ends with: ["errore"] as soon as one file failed, whatever the other
    two counters; else ["saltata"] when nothing was copied and every file
    was skipped; else ["completata"]. *)
Theorem classification_precedence roll roll_idx total_rolls source_files
    (s : State W) :
  exists c s1 status s2,
    roll_scan roll roll_idx total_rolls source_files s = (Ok c, s1)
    /\ _process_roll roll roll_idx total_rolls source_files s = (Ok status, s2)
    /\ 0 <= files_failed c
    /\ (files_failed c > 0 -> status = "errore")
    /\ (files_failed c = 0 ->
        files_copied c = 0 /\ files_skipped c = len source_files ->
        status = "saltata")
    /\ (files_failed c = 0 ->
        ~ (files_copied c = 0 /\ files_skipped c = len source_files) ->
        status = "completata").
Proof.
  destruct (roll_scan_returns roll roll_idx total_rolls source_files s)
    as (c & s1 & H1 & _ & _ & _ & Hf).
  destruct (roll_status_returns roll roll_idx total_rolls (len source_files) c s1)
    as (status & s2 & H2 & Herr & Hsal & Hcom).
  exists c, s1, status, s2. unfold _process_roll, bind. rewrite H1.
  repeat split; auto.
  - intros. apply Herr. lia.
  - intros. apply Hsal; auto. lia.
  - intros. apply Hcom; auto. lia.
Qed.


End Rolls.

Section Fallback.
Context {W : Type} {E : Environment W}.

Lemma copy_attempt_split file_item dest_path t (s : State W) :
  copy_attempt file_item dest_path t s
  = bind (primary_phase file_item dest_path t)
      (fun r => if snd r then ret true
                else fallback_copy (fst r) file_item dest_path t) s.
Proof.
  unfold copy_attempt, primary_phase, bind.
  destruct (call _ _ s) as [[df | e] s1]; [| reflexivity].
  destruct (primary_copy df file_item dest_path t s1) as [[done | e] s2];
    reflexivity.
Qed.

Ltac run_env :=
  repeat (cbn [world self trace set_world set_self add_event fst snd];
          match goal with
          | |- context [match ?op ?w with (_, _) => _ end] =>
              destruct (op w) as [[[] | ?] ?]
          | |- context [if os_path_exists ?p ?w then _ else _] =>
              destruct (os_path_exists p w) eqn:?
          end).

Lemma fallback_copy_calls folder file_item dest_path t (s : State W) :
  exists r s' calls,
    fallback_copy (Some folder) file_item dest_path t s = (r, s')
    /\ trace s' = (trace s ++ calls)%list
    /\ count is_clear calls = 1%nat
    /\ count (is_verb "copy") calls = 1%nat
    /\ (count (is_verb "paste") calls <= 1)%nat
    /\ count is_copyhere calls = 0%nat
    /\ (forall b, r = Ok b ->
          count (is_verb "paste") calls = 1%nat
          /\ os_path_exists dest_path (world s') = b).
Proof.
  unfold fallback_copy, _clear_clipboard, try_except, record_copy.
  unfold bind, call, sleep, act, exists_, now, get_self, put_self, ret, raise.
  run_env.
  all: eexists _, _, _; split; [reflexivity |];
    cbn [world self trace set_world set_self add_event fst snd];
    rewrite <- ?app_assoc; split; [reflexivity |];
    cbn; repeat apply conj; try lia; intros b' Hb; inversion Hb; subst; auto.
Qed.
End Fallback.

Section FallbackOnce.
Context {W : Type} {E : Environment W}.

Ltac run_env' :=
  repeat (cbn [world self trace set_world set_self add_event fst snd];
          match goal with
          | |- context [match ?x with Some _ => _ | None => _ end] =>
              is_var x; destruct x
          | |- context [match ?op ?w with (_, _) => _ end] =>
              match type of w with W => destruct (op w) as [[? | ?] ?] end
          | |- context [if os_path_exists ?p ?w then _ else _] =>
              destruct (os_path_exists p w) eqn:?
          end).

Lemma count_app p (l1 l2 : list event) :
  count p (l1 ++ l2) = (count p l1 + count p l2)%nat.
Proof. unfold count. rewrite filter_app, length_app. reflexivity. Qed.

Lemma primary_phase_calls file_item dest_path t (s : State W) :
  exists r s1 calls,
    primary_phase file_item dest_path t s = (r, s1)
    /\ trace s1 = (trace s ++ calls)%list
    /\ count is_clear calls = 0%nat
    /\ count (is_verb "copy") calls = 0%nat
    /\ count (is_verb "paste") calls = 0%nat
    /\ (forall df, r = Ok (df, true) ->
          os_path_exists dest_path (world s1) = true)
    /\ (forall folder, r = Ok (Some folder, false) ->
          count is_copyhere calls = 1%nat
          /\ os_path_exists dest_path (world s1) = false).
Proof.
  unfold primary_phase, primary_copy, record_copy.
  unfold bind, call, sleep, act, exists_, now, get_self, put_self, ret, raise.
  run_env'.
  all: eexists _, _, _; split; [reflexivity |];
    cbn [world self trace set_world set_self add_event fst snd];
    rewrite <- ?app_assoc; split; [reflexivity |];
    cbn; repeat apply conj; try lia; try congruence;
    try (intros ? Hr; inversion Hr; subst; auto).
  all: try (symmetry; apply app_nil_r).
Qed.

End FallbackOnce.

Section Steady.
Context {W : Type} {E : Environment W} {P : Persistent E}.

Lemma steady_ret {A} (a : A) : steady (ret a).
Proof. intros s. split; auto. Qed.

Lemma steady_raise {A} e : steady (@raise W A e).
Proof. intros s. split; auto. Qed.

Lemma steady_bind {A B} (m : M W A) (k : A -> M W B) :
  steady m -> (forall a, steady (k a)) -> steady (bind m k).
Proof.
  intros Hm Hk s. unfold bind. destruct (Hm s) as [Hd Hp].
  destruct (m s) as [[a | e] s1]; cbn [snd] in *.
  - destruct (Hk a s1) as [Hd' Hp']. split; [congruence | auto].
  - split; auto.
Qed.

Lemma steady_try {A} (m : M W A) (h : exn -> M W A) :
  steady m -> (forall e, steady (h e)) -> steady (try_except m h).
Proof.
  intros Hm Hh s. unfold try_except. destruct (Hm s) as [Hd Hp].
  destruct (m s) as [[a | e] s1]; cbn [snd] in *.
  - split; auto.
  - destruct (Hh e s1) as [Hd' Hp']. split; [congruence | auto].
Qed.

Lemma steady_call {A} ev (op : W -> result A * W) :
  (forall w p, os_path_exists p w = true ->
               os_path_exists p (snd (op w)) = true) ->
  steady (call ev op).
Proof.
  intros Hop s. unfold call. specialize (Hop (world s)).
  destruct (op (world s)) as [r w]. split; [reflexivity | exact Hop].
Qed.

Lemma steady_log msg : steady (log msg).
Proof. intros s. split; auto. Qed.

Lemma steady_exists p : steady (exists_ p).
Proof. intros s. split; auto. Qed.

Lemma steady_sleep d : steady (sleep d).
Proof. intros s. split; [reflexivity |]. intros p. apply keep_sleep. Qed.

Lemma steady_now : steady now.
Proof. intros s. split; auto. Qed.

Lemma steady_record_copy t : steady (record_copy t).
Proof. intros s. split; auto. Qed.

Lemma steady_clear_clipboard : steady _clear_clipboard.
Proof.
  unfold _clear_clipboard. apply steady_try; [| intros; apply steady_ret].
  repeat (apply steady_bind; [| intros]); apply steady_call.
  - apply keep_OpenClipboard.
  - apply keep_EmptyClipboard.
  - apply keep_CloseClipboard.
Qed.

Lemma steady_if {A} (b : bool) (m1 m2 : M W A) :
  steady m1 -> steady m2 -> steady (if b then m1 else m2).
Proof. destruct b; auto. Qed.

Lemma steady_copy_file file_item dest_path :
  steady (_copy_file_mtp file_item dest_path).
Proof.
  unfold _copy_file_mtp.
  apply steady_bind; [apply steady_now | intros t].
  apply steady_try.
  - unfold copy_attempt.
    apply steady_bind; [apply steady_call; intros; now apply keep_Namespace |].
    intros df. apply steady_bind.
    + unfold primary_copy. destruct df; [| apply steady_ret].
      apply steady_bind;
        [apply steady_call; intros; now apply keep_CopyHere | intros _].
      apply steady_bind; [apply steady_sleep | intros _].
      apply steady_bind; [apply steady_exists | intros found].
      apply steady_if; [| apply steady_ret].
      apply steady_bind; [apply steady_record_copy | intros; apply steady_ret].
    + intros done. apply steady_if; [apply steady_ret |].
      unfold fallback_copy.
      apply steady_bind; [apply steady_clear_clipboard | intros _].
      apply steady_bind;
        [apply steady_call; intros; now apply keep_InvokeVerbEx | intros _].
      apply steady_bind;
        [destruct df; [apply steady_ret | apply steady_raise] | intros target].
      apply steady_bind;
        [apply steady_call; intros; now apply keep_InvokeVerbEx | intros _].
      apply steady_bind; [apply steady_sleep | intros _].
      apply steady_bind; [apply steady_exists | intros found].
      apply steady_if; [| apply steady_ret].
      apply steady_bind; [apply steady_record_copy | intros; apply steady_ret].
  - intros e. apply steady_bind; [apply steady_log | intros; apply steady_ret].
Qed.

Lemma steady_process_file roll dst n idx f c :
  steady (process_file roll dst n idx f c).
Proof.
  unfold process_file.
  apply steady_bind; [apply steady_exists | intros found].
  apply steady_if.
  - apply steady_bind; [apply steady_log | intros; apply steady_ret].
  - apply steady_bind; [apply steady_copy_file | intros copied].
    apply steady_if;
      (apply steady_bind; [apply steady_log | intros; apply steady_ret]).
Qed.

Lemma steady_process_files roll dst n files : forall idx c,
  steady (process_files roll dst n idx files c).
Proof.
  induction files as [| f rest IH]; intros idx c; cbn [process_files].
  - apply steady_ret.
  - apply steady_bind; [apply steady_process_file | intros; apply IH].
Qed.

End Steady.

Section Skip.
Context {W : Type} {E : Environment W}.

Ltac run_env' :=
  repeat (cbn [world self trace set_world set_self add_event fst snd];
          match goal with
          | |- context [match ?x with Some _ => _ | None => _ end] =>
              is_var x; destruct x
          | |- context [match ?op ?w with (_, _) => _ end] =>
              match type of w with W => destruct (op w) as [[? | ?] ?] end
          | |- context [if os_path_exists ?p ?w then _ else _] =>
              destruct (os_path_exists p w) eqn:?
          end).

Lemma fallback_without_folder_raises file_item dest_path t (s : State W) :
  exists e s', fallback_copy None file_item dest_path t s = (Raise e, s').
Proof.
  unfold fallback_copy, _clear_clipboard, try_except.
  unfold bind, call, sleep, act, exists_, now, get_self, put_self, ret, raise.
  run_env'. all: eexists _, _; reflexivity.
Qed.

(** [_copy_file_mtp] answers [True] only on a destination it saw. *)
Lemma copy_true_means_present file_item dest_path (s s' : State W) :
  _copy_file_mtp file_item dest_path s = (Ok true, s') ->
  os_path_exists dest_path (world s') = true.
Proof.
  unfold _copy_file_mtp. rewrite bind_now. unfold try_except.
  rewrite copy_attempt_split. unfold bind at 1.
  destruct (primary_phase_calls file_item dest_path (time_time (world s)) s)
    as (r & s1 & pc & Hr & _ & _ & _ & _ & Hdone & _).
  rewrite Hr. destruct r as [[df done] | e]; cbn [fst snd].
  - destruct done.
    + intros H. inversion H; subst. apply (Hdone df eq_refl).
    + destruct df as [folder |].
      * destruct (fallback_copy_calls folder file_item dest_path
                    (time_time (world s)) s1)
          as (r3 & s3 & fc3 & H3 & _ & _ & _ & _ & _ & Fok).
        rewrite H3. destruct r3 as [b | e].
        -- intros H. inversion H; subst. apply (Fok true eq_refl).
        -- rewrite bind_log. intros H. inversion H.
      * destruct (fallback_without_folder_raises file_item dest_path
                    (time_time (world s)) s1) as (e & s2 & H2).
        rewrite H2. rewrite bind_log. intros H. inversion H.
  - rewrite bind_log. intros H. inversion H.
Qed.

(** What one turn of the loop does, by the existence of the destination. *)
Lemma process_file_cases roll dst n idx f c (s : State W) :
  let dest_file := os_path_join dst (Name f) in
  exists c' s',
    process_file roll dst n idx f c s = (Ok c', s')
    /\ (os_path_exists dest_file (world s) = true ->
          c' = {| files_copied := files_copied c;
                  files_skipped := files_skipped c + 1;
                  files_failed := files_failed c |}
          /\ world s' = world s /\ self s' = self s
          /\ trace s' = (trace s ++ [EvExists dest_file])%list)
    /\ (os_path_exists dest_file (world s) = false ->
          exists b s1,
            _copy_file_mtp f dest_file (add_event (EvExists dest_file) s)
            = (Ok b, s1)
            /\ world s' = world s1
            /\ c' = if b
                    then {| files_copied := files_copied c + 1;
                            files_skipped := files_skipped c;
                            files_failed := files_failed c |}
                    else {| files_copied := files_copied c;
                            files_skipped := files_skipped c;
                            files_failed := files_failed c + 1 |}).
Proof.
  intros dest_file. unfold process_file. fold dest_file.
  rewrite bind_exists.
  destruct (os_path_exists dest_file (world s)) eqn:Hex.
  - rewrite bind_log. eexists _, _. split; [reflexivity |].
    split; [| intros; congruence]. intros _. repeat split.
  - destruct (copy_file_returns f dest_file (add_event (EvExists dest_file) s))
      as (b & s1 & Hb).
    unfold bind at 1. rewrite Hb.
    destruct b; rewrite bind_log; eexists _, _; (split; [reflexivity |]);
      (split; [intros; congruence |]); intros _;
      eexists _, s1; repeat split.
Qed.

Lemma process_files_app roll dst n pre : forall post idx c (s : State W),
  process_files roll dst n idx (pre ++ post) c s
  = bind (process_files roll dst n idx pre c)
      (fun c1 => process_files roll dst n (idx + len pre) post c1) s.
Proof.
  induction pre as [| f pre IH]; intros post idx c s.
  - cbn [app process_files]. rewrite bind_ret.
    replace (idx + len (@nil Item)) with idx by (unfold len; cbn; lia).
    reflexivity.
  - cbn [app process_files]. rewrite bind_assoc. apply bind_ext.
    intros c1 s1. rewrite IH.
    replace (idx + 1 + len pre) with (idx + len (f :: pre))
      by (unfold len; cbn [length]; lia).
    reflexivity.
Qed.

(** C4: in every roll, the file at any place of the listing is counted as
    skipped exactly when its destination path exists at the moment it is
    checked; it is then passed over with that one existence check as the
    only call made (no copy is asked, the world is left as it was);
    otherwise it goes to [_copy_file_mtp]. *)
Theorem skipped_iff_destination_exists roll dst n pre f post idx c
    (s : State W) :
  let dest_file := os_path_join dst (Name f) in
  exists c1 s1 c2 s2,
    process_files roll dst n idx pre c s = (Ok c1, s1)
    /\ process_file roll dst n (idx + len pre) f c1 s1 = (Ok c2, s2)
    /\ process_files roll dst n idx (pre ++ f :: post) c s
       = process_files roll dst n (idx + len pre + 1) post c2 s2
    /\ (files_skipped c2 = files_skipped c1 + 1
        <-> os_path_exists dest_file (world s1) = true)
    /\ (os_path_exists dest_file (world s1) = true ->
          files_copied c2 = files_copied c1
          /\ files_failed c2 = files_failed c1
          /\ world s2 = world s1 /\ self s2 = self s1
          /\ trace s2 = (trace s1 ++ [EvExists dest_file])%list)
    /\ (os_path_exists dest_file (world s1) = false ->
          exists b s3,
            _copy_file_mtp f dest_file (add_event (EvExists dest_file) s1)
            = (Ok b, s3)
            /\ files_skipped c2 = files_skipped c1
            /\ files_copied c2 = files_copied c1 + (if b then 1 else 0)
            /\ files_failed c2 = files_failed c1 + (if b then 0 else 1)).
Proof.
  intros dest_file.
  destruct (process_files_returns roll dst n pre idx c s)
    as (c1 & s1 & H1 & _).
  destruct (process_file_cases roll dst n (idx + len pre) f c1 s1)
    as (c2 & s2 & H2 & Hyes & Hno).
  fold dest_file in Hyes, Hno.
  exists c1, s1, c2, s2. split; [exact H1 |]. split; [exact H2 |]. split.
  { rewrite process_files_app. unfold bind at 1. rewrite H1.
    cbn [process_files]. unfold bind at 1. rewrite H2. reflexivity. }
  split; [| split].
  - destruct (os_path_exists dest_file (world s1)) eqn:Hex.
    + destruct (Hyes eq_refl) as (-> & _). cbn. split; auto.
    + destruct (Hno eq_refl) as (b & s3 & _ & _ & ->).
      split; [| intros; congruence].
      destruct b; cbn; lia.
  - intros Hex. destruct (Hyes Hex) as (-> & Hw & Hs & Ht). cbn. auto.
  - intros Hex. destruct (Hno Hex) as (b & s3 & Hb & _ & ->).
    exists b, s3. split; [exact Hb |]. destruct b; cbn; lia.
Qed.

End Skip.

Section Idempotence.
Context {W : Type} {E : Environment W} {P : Persistent E}.

(** A pass with no new failure leaves every file of the listing present. *)
Lemma clean_pass_populates roll dst n files : forall idx c (s : State W) c' s',
  process_files roll dst n idx files c s = (Ok c', s') ->
  files_failed c' = files_failed c ->
  forall f, In f files ->
    os_path_exists (os_path_join dst (Name f)) (world s') = true.
Proof.
  induction files as [| g rest IH]; intros idx c s c' s' Hrun Hfail f Hin.
  - destruct Hin.
  - cbn [process_files] in Hrun. unfold bind in Hrun.
    destruct (process_file_returns roll dst n idx g c s)
      as (c1 & s1 & H1 & _ & _ & _ & Hmono1).
    destruct (process_file_cases roll dst n idx g c s)
      as (c1' & s1' & H1' & Hyes & Hno).
    rewrite H1 in H1'. inversion H1'; subst c1' s1'. clear H1'.
    rewrite H1 in Hrun.
    destruct (process_files_returns roll dst n rest (idx + 1) c1 s1)
      as (c2 & s2 & H2 & _ & _ & _ & Hmono2).
    rewrite H2 in Hrun. inversion Hrun; subst c2 s2. clear Hrun.
    assert (Hf1 : files_failed c1 = files_failed c) by lia.
    destruct Hin as [<- | Hin].
    + assert (Hpresent :
                os_path_exists (os_path_join dst (Name g)) (world s1) = true).
      { destruct (os_path_exists (os_path_join dst (Name g)) (world s)) eqn:Hex.
        - destruct (Hyes eq_refl) as (_ & -> & _). exact Hex.
        - destruct (Hno eq_refl) as (b & s3 & Hb & -> & Hc1).
          destruct b.
          + apply (copy_true_means_present _ _ _ _ Hb).
          + rewrite Hc1 in Hf1. cbn in Hf1. lia. }
      pose proof (steady_process_files roll dst n rest (idx + 1) c1 s1)
        as [_ Hkeep].
      rewrite H2 in Hkeep. apply Hkeep. exact Hpresent.
    + apply (IH (idx + 1) c1 s1 c' s' H2); [lia | exact Hin].
Qed.

(** Over a populated destination the loop only checks and skips. *)
Lemma populated_pass_skips roll dst n files : forall idx c (s : State W),
  (forall f, In f files ->
     os_path_exists (os_path_join dst (Name f)) (world s) = true) ->
  exists s',
    process_files roll dst n idx files c s
    = (Ok {| files_copied := files_copied c;
             files_skipped := files_skipped c + len files;
             files_failed := files_failed c |}, s')
    /\ world s' = world s /\ self s' = self s
    /\ trace s'
       = (trace s
          ++ map (fun f => EvExists (os_path_join dst (Name f))) files)%list.
Proof.
  induction files as [| g rest IH]; intros idx c s Hall.
  - exists s. cbn [process_files map]. unfold ret, len. cbn [length Z.of_nat].
    rewrite Z.add_0_r, app_nil_r. destruct c; auto.
  - cbn [process_files]. unfold bind.
    destruct (process_file_cases roll dst n idx g c s)
      as (c1 & s1 & H1 & Hyes & _).
    destruct (Hyes (Hall g (or_introl eq_refl))) as (-> & Hw & Hs & Ht).
    rewrite H1.
    destruct (IH (idx + 1)
                {| files_copied := files_copied c;
                   files_skipped := files_skipped c + 1;
                   files_failed := files_failed c |} s1)
      as (s2 & H2 & Hw2 & Hs2 & Ht2).
    { intros f Hf. rewrite Hw. apply Hall. right. exact Hf. }
    exists s2. rewrite H2. cbn [files_copied files_skipped files_failed].
    repeat split; try congruence.
    + unfold len. cbn [length]. rewrite Nat2Z.inj_succ.
      replace (files_skipped c + 1 + Z.of_nat (length rest))
        with (files_skipped c + Z.succ (Z.of_nat (length rest))) by lia.
      reflexivity.
    + rewrite Ht2, Ht, <- app_assoc. reflexivity.
Qed.

Lemma roll_status_keeps roll roll_idx total_rolls n c (s : State W) :
  world (snd (roll_status roll roll_idx total_rolls n c s)) = world s
  /\ self (snd (roll_status roll roll_idx total_rolls n c s)) = self s
  /\ trace (snd (roll_status roll roll_idx total_rolls n c s)) = trace s.
Proof.
  unfold roll_status.
  destruct (files_failed c >? 0); [rewrite bind_log; auto |].
  destruct (_ && _); rewrite bind_log; auto.
Qed.

(** The part of [roll_scan] before its loop. *)
Lemma roll_scan_unfold roll roll_idx total_rolls files (s : State W) :
  exists s0,
    roll_scan roll roll_idx total_rolls files s
    = process_files roll (os_path_join (dest_dir (self s)) (Name roll))
        (len files) 1 files
        {| files_copied := 0; files_skipped := 0; files_failed := 0 |} s0
    /\ self s0 = self s
    /\ (forall p, os_path_exists p (world s) = true ->
                  os_path_exists p (world s0) = true)
    /\ exists pre, trace s0 = (trace s ++ pre)%list
                   /\ count is_copyhere pre = 0%nat
                   /\ count is_clear pre = 0%nat
                   /\ (forall v, count (is_verb v) pre = 0%nat).
Proof.
  unfold roll_scan. rewrite bind_get_self, bind_exists.
  destruct (os_path_exists _ _); cbn [negb]; mstep.
  - eexists. split; [reflexivity |]. repeat split; auto.
    eexists [_]. split; [reflexivity |]. repeat split.
  - eexists. split; [reflexivity |]. repeat split; auto.
    + intros p Hp. cbn. apply keep_makedirs. exact Hp.
    + eexists [_; _]. split; [cbn; rewrite <- app_assoc; reflexivity |].
      repeat split.
Qed.

Lemma count_checks p dst (files : list Item) :
  (forall path, p (EvExists path) = false) ->
  count p (map (fun f => EvExists (os_path_join dst (Name f))) files) = 0%nat.
Proof.
  intros Hp. unfold count. induction files as [| f rest IH]; [reflexivity |].
  cbn [map filter]. rewrite Hp. exact IH.
Qed.

(** C8: after a run of [_process_roll] that met no failure, a second run on
    the same roll and listing, from the state the first one left, copies
    nothing, skips every file and returns ["saltata"]; it asks for no copy
    at all (no [CopyHere], no clipboard, no verb). *)
Theorem second_sync_skips_everything roll idx1 total1 idx2 total2
    source_files (s0 : State W) status1 s1 :
  _process_roll roll idx1 total1 source_files s0 = (Ok status1, s1) ->
  status1 <> "errore" ->
  exists c2 s2 s3 calls,
    roll_scan roll idx2 total2 source_files s1 = (Ok c2, s2)
    /\ files_copied c2 = 0
    /\ files_skipped c2 = len source_files
    /\ files_failed c2 = 0
    /\ _process_roll roll idx2 total2 source_files s1 = (Ok "saltata", s3)
    /\ trace s3 = (trace s1 ++ calls)%list
    /\ count is_copyhere calls = 0%nat
    /\ count is_clear calls = 0%nat
    /\ (forall verb, count (is_verb verb) calls = 0%nat)
    /\ files_copied_total (self s3) = files_copied_total (self s1).
Proof.
  intros Hrun1 Hclean.
  (* the first run *)
  unfold _process_roll in Hrun1. unfold bind in Hrun1.
  destruct (roll_scan_returns roll idx1 total1 source_files s0)
    as (c1 & sA & HA & _ & _ & _ & Hnonneg).
  rewrite HA in Hrun1.
  destruct (roll_status_returns roll idx1 total1 (len source_files) c1 sA)
    as (st & sB & HB & Herr & _).
  destruct (roll_status_keeps roll idx1 total1 (len source_files) c1 sA)
    as (Hw1 & Hself1 & _).
  rewrite HB in Hrun1, Hw1, Hself1. cbn [snd] in Hw1, Hself1.
  inversion Hrun1; subst st sB. clear Hrun1.
  assert (Hfailed : files_failed c1 = 0).
  { destruct (Z.lt_ge_cases 0 (files_failed c1)) as [Hpos | Hle]; [| lia].
    elim Hclean. apply Herr. exact Hpos. }
  destruct (roll_scan_unfold roll idx1 total1 source_files s0)
    as (sP & HP & HselfP & _ & _).
  rewrite HA in HP. symmetry in HP.
  set (dst := os_path_join (dest_dir (self s0)) (Name roll)) in *.
  assert (Hpop : forall f, In f source_files ->
                   os_path_exists (os_path_join dst (Name f)) (world s1) = true).
  { intros f Hf. rewrite Hw1.
    apply (clean_pass_populates _ _ _ _ _ _ _ _ _ HP); [exact Hfailed | exact Hf]. }
  assert (Hdest : dest_dir (self s1) = dest_dir (self s0)).
  { rewrite Hself1, <- HselfP.
    pose proof (steady_process_files roll dst (len source_files) source_files 1
                  {| files_copied := 0; files_skipped := 0; files_failed := 0 |}
                  sP) as [Hd _].
    rewrite HP in Hd. exact Hd. }
  (* the second run *)
  destruct (roll_scan_unfold roll idx2 total2 source_files s1)
    as (sQ & HQ & HselfQ & HkeepQ & pre & HtrQ & Qch & Qcl & Qvb).
  rewrite Hdest in HQ. fold dst in HQ.
  destruct (populated_pass_skips roll dst (len source_files) source_files 1
              {| files_copied := 0; files_skipped := 0; files_failed := 0 |} sQ)
    as (s2 & H2 & Hw2 & Hself2 & Htr2).
  { intros f Hf. apply HkeepQ. apply Hpop. exact Hf. }
  cbn [files_copied files_skipped files_failed] in H2.
  rewrite H2 in HQ.
  eexists _, s2, _,
    (pre ++ map (fun f => EvExists (os_path_join dst (Name f))) source_files)%list.
  split; [exact HQ |].
  cbn [files_copied files_skipped files_failed].
  split; [reflexivity |]. split; [lia |]. split; [reflexivity |].
  split.
  { unfold _process_roll, bind. rewrite HQ. unfold roll_status.
    cbn [files_copied files_skipped files_failed].
    rewrite Z.add_0_l, !Z.eqb_refl. cbn [Z.gtb Z.compare andb].
    rewrite bind_log. reflexivity. }
  cbn [snd log trace self].
  split; [rewrite Htr2, HtrQ, <- app_assoc; reflexivity |].
  rewrite !count_app, Qch, Qcl.
  rewrite !count_checks by reflexivity.
  repeat split.
  - intros verb. rewrite count_app, Qvb, count_checks by reflexivity.
    reflexivity.
  - rewrite Hself2, HselfQ. reflexivity.
Qed.

End Idempotence.

Section Run.
Context {W : Type} {E : Environment W}.

Lemma find_iphone_ok (s s1 : State W) r :
  _find_iphone s = (Ok r, s1) ->
  exists computer,
    trace s1 = (trace s ++ [EvNamespace (CSIDL 17); EvItems computer])%list
    /\ self s1 = self s.
Proof.
  unfold _find_iphone. rewrite bind_call.
  destruct (shell_Namespace (CSIDL 17) (world s)) as [[[computer |] | e] w];
    try (intros H; inversion H; fail).
  unfold Items. rewrite bind_call. cbn [world set_world add_event].
  destruct (folder_Items computer w) as [[items | e] w'];
    intros H; inversion H; subst.
  exists computer. cbn. rewrite <- app_assoc. auto.
Qed.

Lemma find_folder_ok parent name (s s1 : State W) r :
  _find_folder parent name s = (Ok r, s1) ->
  trace s1 = (trace s ++ [EvItems (GetFolder parent)])%list
  /\ self s1 = self s.
Proof.
  unfold _find_folder, Items. rewrite bind_call.
  destruct (folder_Items (GetFolder parent) (world s)) as [[items | e] w];
    intros H; inversion H; subst. cbn. auto.
Qed.

End Run.

(* ================================================================== *)
(** * Facts on binary64 floats *)

Section FloatFacts.

Lemma digits2_pos_bounds (m : positive) :
  2 ^ (Zpos (digits2_pos m) - 1) <= Zpos m < 2 ^ Zpos (digits2_pos m).
Proof.
  induction m as [m IH | m IH |]; cbn [digits2_pos].
  - rewrite Pos2Z.inj_succ.
    replace (Z.succ (Zpos (digits2_pos m)) - 1) with (Z.succ (Zpos (digits2_pos m) - 1)) by lia.
    rewrite (Z.pow_succ_r 2 (Zpos (digits2_pos m))) by lia.
    rewrite (Z.pow_succ_r 2 (Zpos (digits2_pos m) - 1)) by lia.
    rewrite (Pos2Z.inj_xI m). lia.
  - rewrite Pos2Z.inj_succ.
    replace (Z.succ (Zpos (digits2_pos m)) - 1) with (Z.succ (Zpos (digits2_pos m) - 1)) by lia.
    rewrite (Z.pow_succ_r 2 (Zpos (digits2_pos m))) by lia.
    rewrite (Z.pow_succ_r 2 (Zpos (digits2_pos m) - 1)) by lia.
    rewrite (Pos2Z.inj_xO m). lia.
  - cbn. lia.
Qed.

Lemma iter_xO_value (m k : positive) :
  Zpos (Pos.iter xO m k) = Zpos m * 2 ^ Zpos k.
Proof.
  apply (Pos.iter_ind _ xO m (fun k r => Zpos r = Zpos m * 2 ^ Zpos k)).
  - rewrite (Pos2Z.inj_xO m). lia.
  - intros p a Ha. rewrite (Pos2Z.inj_xO a), Ha, Pos2Z.inj_succ, Z.pow_succ_r by lia.
    lia.
Qed.

Lemma iter_xO_digits (m k : positive) :
  Zpos (digits2_pos (Pos.iter xO m k)) = Zpos (digits2_pos m) + Zpos k.
Proof.
  apply (Pos.iter_ind _ xO m
           (fun k r => Zpos (digits2_pos r) = Zpos (digits2_pos m) + Zpos k)).
  - cbn [digits2_pos]. lia.
  - intros p a Ha. cbn [digits2_pos]. lia.
Qed.

Lemma valid_finite s m e :
  valid (S754_finite s m e) = true ->
  -1074 <= e <= 971 /\ Zpos m < 2 ^ 53 /\ (-1074 < e -> 2 ^ 52 <= Zpos m).
Proof.
  unfold valid, valid_binary, bounded, canonical_mantissa, fexp, emin, prec, emax.
  intros H. apply andb_prop in H. destruct H as [Hc He].
  apply Z.eqb_eq in Hc. apply Z.leb_le in He.
  pose proof (digits2_pos_bounds m) as [Hlo Hhi].
  set (d := Zpos (digits2_pos m)) in *.
  assert (Hd : d <= 53) by lia.
  repeat split; try lia.
  - apply Z.lt_le_trans with (2 ^ d); [exact Hhi |].
    apply Z.pow_le_mono_r; lia.
  - intros Hn. assert (d = 53) as Hd53 by lia. rewrite Hd53 in Hlo. exact Hlo.
Qed.

Lemma pow2_pos (n : Z) : 0 < 2 ^ n \/ n < 0.
Proof.
  destruct (Z.lt_ge_cases n 0); [right; assumption | left].
  apply Z.pow_pos_nonneg; lia.
Qed.

Lemma pow2_split (a b : Z) : 0 <= a -> 0 <= b -> 2 ^ (a + b) = 2 ^ a * 2 ^ b.
Proof. intros. apply Z.pow_add_r; assumption. Qed.

(** Comparison with a positive normal constant. *)
Lemma flt_constant (x : float) (mc : positive) (ec : Z) :
  valid x = true -> is_finite x = true ->
  2 ^ 52 <= Zpos mc < 2 ^ 53 -> -1074 <= ec ->
  flt x (S754_finite false mc ec) = true
  <-> scaled x < scaled (S754_finite false mc ec).
Proof.
  intros Hv Hf Hmc Hec. unfold flt, SFltb.
  assert (Hc : 0 < Zpos mc * 2 ^ (ec + 1074)).
  { apply Z.mul_pos_pos; [lia | apply Z.pow_pos_nonneg; lia]. }
  destruct x as [s | s | | s m e]; try discriminate Hf; cbn [SFcompare scaled cond_Zopp].
  - split; [intros _; exact Hc | reflexivity].
  - apply valid_finite in Hv. destruct Hv as ((Hlo & Hhi) & Hm & Hnorm).
    assert (Hp : 0 < 2 ^ (e + 1074)) by (apply Z.pow_pos_nonneg; lia).
    destruct s; cbn [cond_Zopp].
    + split; [intros _ | reflexivity].
      assert (0 < Zpos m * 2 ^ (e + 1074)) by (apply Z.mul_pos_pos; lia).
      rewrite Z.mul_opp_l. lia.
    + destruct (Z.compare_spec e ec) as [-> | Hlt | Hgt].
      * change (Pos.compare_cont Eq m mc) with (Pos.compare m mc).
        destruct (Pos.compare_spec m mc) as [-> | Hl | Hg].
        -- split; [discriminate | lia].
        -- split; [intros _ | reflexivity].
           apply Zmult_lt_compat_r; [exact Hp | lia].
        -- split; [discriminate |]. intros H. exfalso.
           apply Zmult_lt_reg_r in H; [lia | exact Hp].
      * split; [intros _ | reflexivity].
        replace (ec + 1074) with ((e + 1074) + (ec - e)) by lia.
        rewrite (pow2_split (e + 1074) (ec - e)) by lia.
        assert (Hq : 2 <= 2 ^ (ec - e)).
        { change 2 with (2 ^ 1) at 1. apply Z.pow_le_mono_r; lia. }
        assert (H1 : Zpos m * 2 ^ (e + 1074) < 2 ^ 53 * 2 ^ (e + 1074))
          by (apply Zmult_lt_compat_r; assumption).
        assert (H2 : 2 ^ (e + 1074) * 2 <= 2 ^ (e + 1074) * 2 ^ (ec - e))
          by (apply Z.mul_le_mono_nonneg_l; lia).
        assert (H3 : Zpos mc * (2 ^ (e + 1074) * 2)
                     <= Zpos mc * (2 ^ (e + 1074) * 2 ^ (ec - e)))
          by (apply Z.mul_le_mono_nonneg_l; lia).
        change (2 ^ 53) with (2 * 2 ^ 52) in H1.
        assert (H4 : 2 ^ 52 * 2 ^ (e + 1074) <= Zpos mc * 2 ^ (e + 1074))
          by (apply Z.mul_le_mono_nonneg_r; lia).
        lia.
      * split; [discriminate |]. intros H. exfalso.
        specialize (Hnorm ltac:(lia)).
        replace (e + 1074) with ((ec + 1074) + (e - ec)) in H by lia.
        rewrite (pow2_split (ec + 1074) (e - ec)) in H by lia.
        assert (Hq : 2 <= 2 ^ (e - ec)).
        { change 2 with (2 ^ 1) at 1. apply Z.pow_le_mono_r; lia. }
        assert (Hpc : 0 < 2 ^ (ec + 1074)) by (apply Z.pow_pos_nonneg; lia).
        assert (H1 : Zpos mc * 2 ^ (ec + 1074) < 2 ^ 53 * 2 ^ (ec + 1074))
          by (apply Zmult_lt_compat_r; lia).
        assert (H2 : 2 ^ (ec + 1074) * 2 <= 2 ^ (ec + 1074) * 2 ^ (e - ec))
          by (apply Z.mul_le_mono_nonneg_l; lia).
        assert (H3 : Zpos m * (2 ^ (ec + 1074) * 2)
                     <= Zpos m * (2 ^ (ec + 1074) * 2 ^ (e - ec)))
          by (apply Z.mul_le_mono_nonneg_l; lia).
        change (2 ^ 53) with (2 * 2 ^ 52) in H1.
        assert (H4 : 2 ^ 52 * 2 ^ (ec + 1074) <= Zpos m * 2 ^ (ec + 1074))
          by (apply Z.mul_le_mono_nonneg_r; lia).
        lia.
Qed.

Lemma shiftl_scaled (m : positive) (e : Z) :
  -1074 <= e -> Z.shiftl (Zpos m) e = (Zpos m * 2 ^ (e + 1074)) / 2 ^ 1074.
Proof.
  intros He. destruct (Z.lt_ge_cases e 0) as [Hneg | Hpos].
  - rewrite <- Z.shiftr_opp_r, Z.shiftr_div_pow2 by lia.
    replace (2 ^ 1074) with (2 ^ (- e) * 2 ^ (e + 1074)).
    + rewrite Z.div_mul_cancel_r; [reflexivity | |];
        apply Z.pow_nonzero; lia.
    + rewrite <- pow2_split by lia. f_equal. lia.
  - rewrite Z.shiftl_mul_pow2 by lia. rewrite (pow2_split e 1074) by lia.
    rewrite Z.mul_assoc, Z.div_mul; [reflexivity | apply Z.pow_nonzero; lia].
Qed.

(** [int(x)] is the value of [x] with its fraction dropped. *)
Lemma py_int_scaled (x : float) :
  is_finite x = true -> low_ok x ->
  py_int x = Ok (Z.quot (scaled x) (2 ^ 1074)).
Proof.
  intros Hf Hlow. destruct x as [s | s | | s m e]; try discriminate Hf;
    cbn [py_int scaled].
  - reflexivity.
  - cbn [low_ok] in Hlow. rewrite shiftl_scaled by exact Hlow.
    assert (Hp : 0 < 2 ^ (e + 1074)) by (apply Z.pow_pos_nonneg; lia).
    destruct s; cbn [cond_Zopp].
    + rewrite Z.mul_opp_l, Z.quot_opp_l by (apply Z.pow_nonzero; lia).
      rewrite Z.quot_div_nonneg; [reflexivity | nia | apply Z.pow_pos_nonneg; lia].
    + rewrite Z.quot_div_nonneg; [reflexivity | nia | apply Z.pow_pos_nonneg; lia].
Qed.

Lemma align_scaled sx mx ex sy my ey :
  -1074 <= ex -> -1074 <= ey ->
  let '(X, Y, e0) := align sx mx ex sy my ey in
  -1074 <= e0
  /\ X * 2 ^ (e0 + 1074) = scaled (S754_finite sx mx ex)
  /\ Y * 2 ^ (e0 + 1074) = scaled (S754_finite sy my ey).
Proof.
  intros Hx Hy. unfold align. cbn [scaled].
  split; [lia |].
  split; rewrite <- Z.mul_assoc, <- pow2_split by lia; f_equal; f_equal; lia.
Qed.

(** Rounding a mantissa that is already canonical changes nothing. *)
Lemma round_aux_canonical s (mz : positive) (t : Z) :
  canonical_mantissa prec emax mz t = true -> t <= 971 ->
  binary_round_aux prec emax s (Zpos mz) t loc_Exact = S754_finite s mz t.
Proof.
  unfold canonical_mantissa. intros Hc Ht. apply Z.eqb_eq in Hc.
  unfold binary_round_aux, shr_fexp. cbn [Zdigits2 shr_record_of_loc].
  rewrite Hc, Z.sub_diag. cbn [shr shr_m loc_of_shr_record round_nearest_even Zdigits2 shr_record_of_loc].
  rewrite Hc, Z.sub_diag. cbn [shr shr_m].
  replace (t <=? emax - prec) with true; [reflexivity |].
  symmetry. apply Z.leb_le. unfold emax, prec. lia.
Qed.

Lemma binary_round_exact s (R : positive) (e0 : Z) :
  Zpos (digits2_pos R) <= 53 -> -1074 <= e0 <= 971 ->
  exists m' e',
    binary_round prec emax s R e0 = S754_finite s m' e'
    /\ valid (S754_finite s m' e') = true
    /\ -1074 <= e'
    /\ Zpos m' * 2 ^ (e' + 1074) = Zpos R * 2 ^ (e0 + 1074).
Proof.
  intros Hd He. unfold binary_round, shl_align.
  set (t := fexp prec emax (Zpos (digits2_pos R) + e0)).
  assert (Ht : t = Z.max (Zpos (digits2_pos R) + e0 - 53) (-1074)) by reflexivity.
  destruct (t - e0) as [| k | k] eqn:Hk; try lia.
  - assert (t = e0) as Hte by lia.
    assert (Hc : canonical_mantissa prec emax R e0 = true).
    { unfold canonical_mantissa. fold t. apply Z.eqb_eq. exact Hte. }
    exists R, e0. split; [| split; [| split; [lia | reflexivity]]].
    + apply round_aux_canonical; [exact Hc | lia].
    + unfold valid, valid_binary, bounded. rewrite Hc. cbn [andb].
      apply Z.leb_le. unfold emax, prec. lia.
  - assert (Hc : canonical_mantissa prec emax (Pos.iter xO R k) t = true).
    { unfold canonical_mantissa. apply Z.eqb_eq.
      rewrite iter_xO_digits.
      replace (Zpos (digits2_pos R) + Zpos k + t)
        with (Zpos (digits2_pos R) + e0) by lia.
      reflexivity. }
    exists (Pos.iter xO R k), t. split; [| split; [| split; [lia |]]].
    + apply round_aux_canonical; [exact Hc | lia].
    + unfold valid, valid_binary, bounded. rewrite Hc. cbn [andb].
      apply Z.leb_le. unfold emax, prec. lia.
    + rewrite iter_xO_value, <- Z.mul_assoc, <- pow2_split by lia.
      f_equal. f_equal. lia.
Qed.

Lemma digits_le_53 (R : positive) : Zpos R < 2 ^ 53 -> Zpos (digits2_pos R) <= 53.
Proof.
  intros H. pose proof (digits2_pos_bounds R) as [Hlo _].
  destruct (Z.le_gt_cases (Zpos (digits2_pos R)) 53) as [Hle | Hgt]; [exact Hle |].
  exfalso.
  assert (2 ^ 53 <= 2 ^ (Zpos (digits2_pos R) - 1))
    by (apply Z.pow_le_mono_r; lia).
  lia.
Qed.

(** A whole number of units below [2^53] is represented exactly. *)
Lemma binary_normalize_exact (n e0 : Z) (sz : bool) :
  0 <= n < 2 ^ 53 -> -1074 <= e0 <= 971 ->
  let r := binary_normalize prec emax n e0 sz in
  is_finite r = true /\ valid r = true /\ scaled r = n * 2 ^ (e0 + 1074).
Proof.
  intros Hn He. destruct n as [| R | R]; cbn [binary_normalize]; [| | lia].
  - cbn. auto.
  - destruct (binary_round_exact false R e0) as (m' & e' & Hr & Hv & Hlow & Hval);
      [apply digits_le_53; lia | exact He |].
    rewrite Hr. cbn [is_finite scaled cond_Zopp]. auto.
Qed.

Lemma digits_unique (m : positive) (a : Z) :
  2 ^ (a - 1) <= Zpos m < 2 ^ a -> Zpos (digits2_pos m) = a.
Proof.
  intros [Hlo Hhi]. pose proof (digits2_pos_bounds m) as [Dlo Dhi].
  set (d := Zpos (digits2_pos m)) in *.
  assert (Hd : 0 < d) by (unfold d; lia).
  assert (Ha : 0 < a).
  { destruct (Z.lt_ge_cases 0 a) as [H | H]; [exact H | exfalso].
    destruct (Z.eq_dec a 0) as [-> | Hn].
    - change (2 ^ 0) with 1 in Hhi. lia.
    - rewrite (Z.pow_neg_r 2 a) in Hhi by lia. lia. }
  destruct (Z.lt_trichotomy d a) as [Hlt | [Heq | Hgt]]; [exfalso | exact Heq | exfalso].
  - assert (2 ^ d <= 2 ^ (a - 1)) by (apply Z.pow_le_mono_r; lia). lia.
  - assert (2 ^ a <= 2 ^ (d - 1)) by (apply Z.pow_le_mono_r; lia). lia.
Qed.

Lemma valid_normal_digits s m e :
  valid (S754_finite s m e) = true -> 2 ^ 52 <= Zpos m ->
  Zpos (digits2_pos m) = 53.
Proof.
  intros Hv Hm. apply valid_finite in Hv. destruct Hv as (_ & Hhi & _).
  apply digits_unique. change (53 - 1) with 52. lia.
Qed.

(** Halving an even record keeps it exact. *)
Lemma shr_1_double (a : Z) :
  0 <= a ->
  shr_1 {| shr_m := 2 * a; shr_r := false; shr_s := false |}
  = {| shr_m := a; shr_r := false; shr_s := false |}.
Proof. intros Ha. destruct a as [| p | p]; [reflexivity | reflexivity | lia]. Qed.

Lemma iter_shr_exact (k : positive) : forall w : Z,
  0 <= w ->
  iter_pos shr_1 k {| shr_m := w * 2 ^ Zpos k; shr_r := false; shr_s := false |}
  = {| shr_m := w; shr_r := false; shr_s := false |}.
Proof.
  induction k as [k IH | k IH |]; intros w Hw; cbn [iter_pos].
  - assert (Hp : 0 < 2 ^ Zpos k) by (apply Z.pow_pos_nonneg; lia).
    replace (w * 2 ^ Zpos k~1) with (2 * (w * 2 ^ Zpos k * 2 ^ Zpos k)).
    + rewrite shr_1_double by nia.
      rewrite (IH (w * 2 ^ Zpos k)) by nia. apply IH. exact Hw.
    + rewrite (Pos2Z.inj_xI k).
      rewrite (pow2_split (2 * Zpos k) 1), (Z.mul_comm 2 (Zpos k)) by lia.
      replace (Zpos k * 2) with (Zpos k + Zpos k) by lia.
      rewrite (pow2_split (Zpos k) (Zpos k)) by lia.
      change (2 ^ 1) with 2. lia.
  - assert (Hp : 0 < 2 ^ Zpos k) by (apply Z.pow_pos_nonneg; lia).
    replace (w * 2 ^ Zpos k~0) with (w * 2 ^ Zpos k * 2 ^ Zpos k).
    + rewrite (IH (w * 2 ^ Zpos k)) by nia. apply IH. exact Hw.
    + rewrite (Pos2Z.inj_xO k).
      replace (2 * Zpos k) with (Zpos k + Zpos k) by lia.
      rewrite (pow2_split (Zpos k) (Zpos k)) by lia. lia.
  - change (2 ^ 1) with 2. rewrite Z.mul_comm. apply shr_1_double. exact Hw.
Qed.

(** Rounding a mantissa with [k] more digits than fit, the last [k] of
    them zero, drops these and is exact. *)
Lemma round_aux_shift s (w : positive) (k ez : Z) :
  0 <= k ->
  canonical_mantissa prec emax w (ez + k) = true -> ez + k <= 971 ->
  binary_round_aux prec emax s (Zpos w * 2 ^ k) ez loc_Exact
  = S754_finite s w (ez + k).
Proof.
  intros Hk Hc He.
  destruct k as [| kp | kp]; [| | lia].
  - change (2 ^ 0) with 1. rewrite Z.mul_1_r, Z.add_0_r in *.
    apply round_aux_canonical; assumption.
  - rewrite <- iter_xO_value.
    pose proof Hc as Hc'. unfold canonical_mantissa in Hc'. apply Z.eqb_eq in Hc'.
    unfold binary_round_aux, shr_fexp. cbn [Zdigits2 shr_record_of_loc].
    rewrite iter_xO_digits.
    replace (Zpos (digits2_pos w) + Zpos kp + ez)
      with (Zpos (digits2_pos w) + (ez + Zpos kp)) by lia.
    rewrite Hc'.
    replace (ez + Zpos kp - ez) with (Zpos kp) by lia.
    cbn [shr]. rewrite iter_xO_value, iter_shr_exact by lia.
    cbn [shr_m loc_of_shr_record round_nearest_even Zdigits2 shr_record_of_loc].
    rewrite Hc', Z.sub_diag. cbn [shr shr_m].
    replace (ez + Zpos kp <=? emax - prec) with true; [reflexivity |].
    symmetry. apply Z.leb_le. unfold emax, prec. lia.
Qed.

(** A mantissa [v * 2^j] with [v] below [2^53], large enough to be normal,
    rounds exactly. *)
Lemma round_aux_exact s (n : positive) (v j ez : Z) :
  Zpos n = v * 2 ^ j -> 0 <= j -> 0 < v < 2 ^ 53 -> 2 ^ 52 <= Zpos n ->
  -1074 <= ez -> ez + j <= 971 ->
  exists w e',
    binary_round_aux prec emax s (Zpos n) ez loc_Exact = S754_finite s w e'
    /\ valid (S754_finite s w e') = true
    /\ ez <= e'
    /\ Zpos w * 2 ^ (e' + 1074) = Zpos n * 2 ^ (ez + 1074).
Proof.
  intros Hn Hj Hv Hbig Hez Hej.
  pose proof (digits2_pos_bounds n) as [Dlo Dhi].
  set (d := Zpos (digits2_pos n)) in *.
  assert (Hd : 53 <= d).
  { destruct (Z.le_gt_cases 53 d) as [H | H]; [exact H | exfalso].
    assert (2 ^ d <= 2 ^ 52) by (apply Z.pow_le_mono_r; lia). lia. }
  assert (Hpj : 0 < 2 ^ j) by (apply Z.pow_pos_nonneg; lia).
  assert (Hdj : d - 53 <= j).
  { destruct (Z.le_gt_cases (d - 53) j) as [H | H]; [exact H | exfalso].
    assert (2 ^ (53 + j) <= 2 ^ (d - 1)) by (apply Z.pow_le_mono_r; lia).
    rewrite (pow2_split 53 j) in H0 by lia. nia. }
  set (k := d - 53).
  assert (Hsplit : 2 ^ j = 2 ^ (j - k) * 2 ^ k).
  { rewrite <- pow2_split by (unfold k; lia). f_equal. lia. }
  assert (Hpk : 0 < 2 ^ k) by (apply Z.pow_pos_nonneg; unfold k; lia).
  assert (Hpjk : 0 < 2 ^ (j - k)) by (apply Z.pow_pos_nonneg; unfold k; lia).
  assert (Hw : 0 < v * 2 ^ (j - k)) by nia.
  destruct (v * 2 ^ (j - k)) as [| w | w] eqn:Ew; try lia.
  assert (Hnw : Zpos n = Zpos w * 2 ^ k).
  { rewrite Hn, Hsplit, Z.mul_assoc, Ew. reflexivity. }
  assert (Hdw : Zpos (digits2_pos w) = 53).
  { apply digits_unique. change (53 - 1) with 52. split.
    - apply Z.mul_le_mono_pos_r with (2 ^ k); [exact Hpk |].
      rewrite <- Hnw, <- pow2_split by (unfold k; lia).
      replace (52 + k) with (d - 1) by (unfold k; lia). exact Dlo.
    - apply Z.mul_lt_mono_pos_r with (2 ^ k); [exact Hpk |].
      rewrite <- Hnw, <- pow2_split by (unfold k; lia).
      replace (53 + k) with d by (unfold k; lia). exact Dhi. }
  assert (Hcan : canonical_mantissa prec emax w (ez + k) = true).
  { unfold canonical_mantissa, fexp, emin, prec, emax. apply Z.eqb_eq.
    rewrite Hdw. unfold k. lia. }
  exists w, (ez + k). rewrite Hnw.
  rewrite round_aux_shift; [| unfold k; lia | exact Hcan | unfold k; lia].
  split; [reflexivity |]. split.
  - unfold valid, valid_binary, bounded. rewrite Hcan. cbn [andb].
    apply Z.leb_le. unfold emax, prec, k. lia.
  - split; [unfold k; lia |].
    replace (ez + k + 1074) with (k + (ez + 1074)) by lia.
    rewrite (pow2_split k (ez + 1074)) by (unfold k; lia). lia.
Qed.

Lemma valid_low_ok (x : float) : valid x = true -> low_ok x.
Proof.
  destruct x as [s | s | | s m e]; cbn [low_ok]; auto.
  intros H. apply valid_finite in H. lia.
Qed.

Lemma scaled_constant_pos (mc : positive) (ec : Z) :
  -1074 <= ec -> 0 < scaled (S754_finite false mc ec).
Proof.
  intros. cbn [scaled cond_Zopp].
  apply Z.mul_pos_pos; [lia | apply Z.pow_pos_nonneg; lia].
Qed.

(** A mantissa [v * 2^j] with [v] below [2^53] is normalised exactly,
    however long it is. *)
Lemma binary_normalize_shift (n v j ez : Z) (sz : bool) :
  n = v * 2 ^ j -> 0 <= j -> 0 <= v < 2 ^ 53 ->
  -1074 <= ez -> ez + j <= 971 ->
  let r := binary_normalize prec emax n ez sz in
  is_finite r = true /\ valid r = true /\ scaled r = n * 2 ^ (ez + 1074).
Proof.
  intros Hn Hj Hv Hez Hej.
  assert (Hpj : 0 < 2 ^ j) by (apply Z.pow_pos_nonneg; lia).
  destruct (Z.lt_ge_cases n (2 ^ 53)) as [Hsmall | Hbig].
  - apply binary_normalize_exact; [nia | lia].
  - assert (H53 : 2 ^ 52 < 2 ^ 53) by (apply Z.pow_lt_mono_r; lia).
    destruct n as [| np | np]; [lia | | lia].
    cbn [binary_normalize]. unfold binary_round, shl_align.
    pose proof (digits2_pos_bounds np) as [Dlo Dhi].
    assert (Hd : 53 < Zpos (digits2_pos np)).
    { destruct (Z.lt_ge_cases 53 (Zpos (digits2_pos np))) as [H | H];
        [exact H | exfalso].
      assert (2 ^ Zpos (digits2_pos np) <= 2 ^ 53)
        by (apply Z.pow_le_mono_r; lia).
      lia. }
    assert (Ht : fexp prec emax (Zpos (digits2_pos np) + ez)
                 = Zpos (digits2_pos np) + ez - 53).
    { unfold fexp, emin, prec, emax. lia. }
    rewrite Ht.
    destruct (Zpos (digits2_pos np) + ez - 53 - ez) as [| k | k] eqn:Hk;
      [lia | | lia].
    destruct (round_aux_exact false np v j ez) as (w & e' & Hr & Hval & _ & Hs);
      try assumption; try lia.
    rewrite Hr. cbn [is_finite scaled cond_Zopp]. auto.
Qed.

Lemma shl_align_value (m : positive) (e ez : Z) :
  ez <= e -> Zpos (fst (shl_align m e ez)) = Zpos m * 2 ^ (e - ez).
Proof.
  intros H. unfold shl_align.
  destruct (ez - e) as [| k | k] eqn:Hk; cbn [fst]; [| lia |].
  - replace (e - ez) with 0 by lia. change (2 ^ 0) with 1. lia.
  - unfold shift_pos. rewrite iter_xO_value. f_equal. f_equal. lia.
Qed.

(** The difference of two positive floats that is a whole multiple of the
    unit of a 53-bit integer is exact. *)
Lemma fsub_exact (mx : positive) (ex : Z) (my : positive) (ey v : Z) :
  -1074 <= ex <= 0 -> -1074 <= ey ->
  0 <= v < 2 ^ 53 ->
  scaled (S754_finite false mx ex) - scaled (S754_finite false my ey)
  = v * 2 ^ 1074 ->
  let d := fsub (S754_finite false mx ex) (S754_finite false my ey) in
  is_finite d = true /\ valid d = true /\ scaled d = v * 2 ^ 1074.
Proof.
  intros Hex Hey Hv Hs. unfold fsub, SFsub. cbn [cond_Zopp].
  set (ez := Z.min ex ey).
  rewrite !shl_align_value by (unfold ez; lia).
  cbn [scaled cond_Zopp] in Hs.
  assert (Hp : 0 < 2 ^ (ez + 1074)) by (apply Z.pow_pos_nonneg; unfold ez; lia).
  assert (Hn : (Zpos mx * 2 ^ (ex - ez) - Zpos my * 2 ^ (ey - ez))
               * 2 ^ (ez + 1074) = v * 2 ^ 1074).
  { rewrite Z.mul_sub_distr_r, <- !Z.mul_assoc, <- !pow2_split
      by (unfold ez; lia).
    replace (ex - ez + (ez + 1074)) with (ex + 1074) by lia.
    replace (ey - ez + (ez + 1074)) with (ey + 1074) by lia.
    exact Hs. }
  assert (Hn' : Zpos mx * 2 ^ (ex - ez) - Zpos my * 2 ^ (ey - ez)
                = v * 2 ^ (- ez)).
  { apply Z.mul_reg_r with (2 ^ (ez + 1074)); [lia |].
    rewrite Hn, <- Z.mul_assoc, <- pow2_split by (unfold ez; lia).
    f_equal. f_equal. lia. }
  destruct (binary_normalize_shift _ v (- ez) ez false Hn')
    as (F1 & F2 & F3); try (unfold ez; lia).
  split; [exact F1 |]. split; [exact F2 |]. rewrite F3. exact Hn.
Qed.

(** Two positive floats of the same value have the difference [+0.0]. *)
Lemma fsub_same_value (mx : positive) (ex : Z) (my : positive) (ey : Z) :
  -1074 <= ex -> -1074 <= ey ->
  scaled (S754_finite false mx ex) = scaled (S754_finite false my ey) ->
  fsub (S754_finite false mx ex) (S754_finite false my ey) = S754_zero false.
Proof.
  intros Hex Hey Hs. unfold fsub, SFsub. cbn [cond_Zopp].
  set (ez := Z.min ex ey).
  rewrite !shl_align_value by (unfold ez; lia).
  cbn [scaled cond_Zopp] in Hs.
  assert (Hp : 0 < 2 ^ (ez + 1074)) by (apply Z.pow_pos_nonneg; unfold ez; lia).
  assert (Hn : Zpos mx * 2 ^ (ex - ez) = Zpos my * 2 ^ (ey - ez)).
  { apply Z.mul_reg_r with (2 ^ (ez + 1074)); [lia |].
    rewrite <- !Z.mul_assoc, <- !pow2_split by (unfold ez; lia).
    replace (ex - ez + (ez + 1074)) with (ex + 1074) by lia.
    replace (ey - ez + (ez + 1074)) with (ey + 1074) by lia.
    exact Hs. }
  rewrite Hn, Z.sub_diag. reflexivity.
Qed.

Lemma new_location_zero (n : Z) : new_location n 0 = loc_Exact.
Proof.
  unfold new_location, new_location_even, new_location_odd.
  destruct (Z.even n); reflexivity.
Qed.

(** The quotient of [q * c] by [c], both normal and [q] below [2^53],
    is [q] exactly. *)
Lemma fdiv_exact (md : positive) (ed : Z) (mc : positive) (ec q : Z) :
  valid (S754_finite false md ed) = true -> 2 ^ 52 <= Zpos md ->
  valid (S754_finite false mc ec) = true -> 2 ^ 52 <= Zpos mc ->
  0 < q < 2 ^ 53 ->
  scaled (S754_finite false md ed) = q * scaled (S754_finite false mc ec) ->
  exists w e,
    fdiv (S754_finite false md ed) (S754_finite false mc ec)
    = S754_finite false w e
    /\ valid (S754_finite false w e) = true
    /\ scaled (S754_finite false w e) = q * 2 ^ 1074.
Proof.
  intros Vd Nd Vc Nc Hq Hs.
  pose proof (valid_normal_digits _ _ _ Vd Nd) as Dd.
  pose proof (valid_normal_digits _ _ _ Vc Nc) as Dc.
  pose proof (valid_finite _ _ _ Vd) as (Ed & Md & _).
  pose proof (valid_finite _ _ _ Vc) as (Ec & Mc & _).
  cbn [scaled cond_Zopp] in Hs.
  assert (P52 : 0 < 2 ^ 52) by (apply Z.pow_pos_nonneg; lia).
  assert (P53 : 2 ^ 53 = 2 * 2 ^ 52) by reflexivity.
  assert (Pc : 0 < 2 ^ (ec + 1074)) by (apply Z.pow_pos_nonneg; lia).
  assert (Pd : 0 < 2 ^ (ed + 1074)) by (apply Z.pow_pos_nonneg; lia).
  (* the exponents *)
  assert (Hge : ec <= ed).
  { destruct (Z.le_gt_cases ec ed) as [H | H]; [exact H | exfalso].
    assert (2 * 2 ^ (ed + 1074) <= 2 ^ (ec + 1074)).
    { replace (ec + 1074) with (1 + (ed + 1074) + (ec - ed - 1)) by lia.
      rewrite (pow2_split (1 + (ed + 1074)) (ec - ed - 1)) by lia.
      rewrite (pow2_split 1 (ed + 1074)) by lia. change (2 ^ 1) with 2.
      assert (0 < 2 ^ (ec - ed - 1)) by (apply Z.pow_pos_nonneg; lia). nia. }
    assert (Zpos md * 2 ^ (ed + 1074) < 2 ^ 52 * 2 ^ (ec + 1074)) by nia.
    assert (2 ^ 52 * 2 ^ (ec + 1074) <= Zpos mc * 2 ^ (ec + 1074))
      by (apply Z.mul_le_mono_nonneg_r; lia).
    assert (1 * (Zpos mc * 2 ^ (ec + 1074)) <= q * (Zpos mc * 2 ^ (ec + 1074)))
      by (apply Z.mul_le_mono_nonneg_r; lia).
    lia. }
  assert (Hs' : Zpos md * 2 ^ (ed - ec) = q * Zpos mc).
  { apply Z.mul_reg_r with (2 ^ (ec + 1074)); [lia |].
    rewrite <- !Z.mul_assoc, <- pow2_split by lia.
    replace (ed - ec + (ec + 1074)) with (ed + 1074) by lia. exact Hs. }
  assert (Hle : ed - ec <= 53).
  { destruct (Z.le_gt_cases (ed - ec) 53) as [H | H]; [exact H | exfalso].
    assert (2 ^ 54 <= 2 ^ (ed - ec)) by (apply Z.pow_le_mono_r; lia).
    change (2 ^ 54) with (4 * 2 ^ 52) in H0.
    assert (q * Zpos mc < 2 ^ 53 * 2 ^ 53) by nia.
    assert (2 ^ 52 * (4 * 2 ^ 52) <= Zpos md * 2 ^ (ed - ec)) by nia.
    rewrite P53 in H1. lia. }
  set (j := 53 - (ed - ec)).
  assert (Pj : 0 < 2 ^ j) by (apply Z.pow_pos_nonneg; unfold j; lia).
  assert (Hm' : Zpos md * 2 ^ 53 = q * 2 ^ j * Zpos mc).
  { replace 53 with ((ed - ec) + j) at 1 by (unfold j; lia).
    rewrite (pow2_split (ed - ec) j) by (unfold j; lia).
    rewrite Z.mul_assoc, Hs'. lia. }
  unfold fdiv, SFdiv, SFdiv_core_binary. cbn [Zdigits2 xorb].
  rewrite Dd, Dc.
  replace (Z.min (fexp prec emax (53 + ed - (53 + ec))) (ed - ec))
    with (ed - ec - 53) by (unfold fexp, emin, prec, emax; lia).
  replace (ed - ec - (ed - ec - 53)) with 53 by lia.
  rewrite Z.shiftl_mul_pow2 by lia.
  rewrite Hm'.
  pose proof (Z.div_eucl_eq (q * 2 ^ j * Zpos mc) (Zpos mc) ltac:(lia)) as Heq.
  pose proof (Z.mod_pos_bound (q * 2 ^ j * Zpos mc) (Zpos mc) ltac:(lia)) as Hb.
  assert (Hdiv : (q * 2 ^ j * Zpos mc) / Zpos mc = q * 2 ^ j)
    by (apply Z.div_mul; lia).
  assert (Hmod : (q * 2 ^ j * Zpos mc) mod Zpos mc = 0)
    by (apply Z.mod_mul; lia).
  unfold Z.div, Z.modulo in Hdiv, Hmod.
  destruct (Z.div_eucl (q * 2 ^ j * Zpos mc) (Zpos mc)) as [qq rr].
  subst qq rr. rewrite new_location_zero.
  assert (Hqz : 0 < q * 2 ^ j) by nia.
  destruct (q * 2 ^ j) as [| qz | qz] eqn:Eqz; [lia | | lia].
  destruct (round_aux_exact false qz q j (ed - ec - 53))
    as (w & e' & Hr & Hval & _ & Hsc).
  - symmetry. exact Eqz.
  - unfold j. lia.
  - lia.
  - assert (2 ^ 52 * 2 ^ 53 <= Zpos qz * Zpos mc) by (rewrite <- Hm'; nia).
    destruct (Z.le_gt_cases (2 ^ 52) (Zpos qz)) as [H1 | H1]; [exact H1 | exfalso].
    assert (Zpos qz * Zpos mc < 2 ^ 52 * 2 ^ 53) by nia. lia.
  - lia.
  - unfold j. lia.
  - exists w, e'. split; [exact Hr |]. split; [exact Hval |].
    cbn [scaled cond_Zopp]. rewrite Hsc, <- Eqz, <- Z.mul_assoc, <- pow2_split
      by (unfold j; lia).
    f_equal. f_equal. unfold j. lia.
Qed.

(** [math.fmod] of two positive floats is exact. *)
Lemma fmod_exact (mx : positive) (ex : Z) (mc : positive) (ec : Z) :
  valid (S754_finite false mx ex) = true ->
  valid (S754_finite false mc ec) = true ->
  let r := fmod (S754_finite false mx ex) (S754_finite false mc ec) in
  is_finite r = true /\ valid r = true
  /\ scaled r = scaled (S754_finite false mx ex)
                mod scaled (S754_finite false mc ec).
Proof.
  intros Vx Vc.
  pose proof (valid_finite _ _ _ Vx) as (Ex & Mx & _).
  pose proof (valid_finite _ _ _ Vc) as (Ec & Mc & _).
  pose proof (align_scaled false mx ex false mc ec ltac:(lia) ltac:(lia)) as Ha.
  unfold fmod. unfold align in *. cbn [cond_Zopp] in *.
  set (e0 := Z.min ex ec) in *.
  destruct Ha as (He0 & HX & HY).
  set (X := Zpos mx * 2 ^ (ex - e0)) in *.
  set (Y := Zpos mc * 2 ^ (ec - e0)) in *.
  assert (Hp : 0 < 2 ^ (e0 + 1074)) by (apply Z.pow_pos_nonneg; lia).
  assert (HX0 : 0 < X)
    by (apply Z.mul_pos_pos; [lia | apply Z.pow_pos_nonneg; unfold e0; lia]).
  assert (HY0 : 0 < Y)
    by (apply Z.mul_pos_pos; [lia | apply Z.pow_pos_nonneg; unfold e0; lia]).
  rewrite Z.rem_mod_nonneg by lia.
  pose proof (Z.mod_pos_bound X Y HY0) as Hb.
  assert (Hle : X mod Y <= X) by (apply Z.mod_le; lia).
  assert (Hsmall : X mod Y < 2 ^ 53).
  { destruct (Z.le_gt_cases ec ex) as [H | H].
    - assert (Y = Zpos mc).
      { unfold Y, e0. rewrite Z.min_r by lia. rewrite Z.sub_diag.
        change (2 ^ 0) with 1. lia. }
      lia.
    - assert (X = Zpos mx).
      { unfold X, e0. rewrite Z.min_l by lia. rewrite Z.sub_diag.
        change (2 ^ 0) with 1. lia. }
      lia. }
  destruct (binary_normalize_exact (X mod Y) e0 false) as (F1 & F2 & F3);
    [lia | unfold e0; lia |].
  split; [exact F1 |]. split; [exact F2 |].
  rewrite F3, <- HX, <- HY.
  rewrite Z.mul_mod_distr_r; [reflexivity | lia | lia].
Qed.

(** The floor of a float that is a positive whole number is itself. *)
Lemma ffloor_whole (w : positive) (e q : Z) :
  valid (S754_finite false w e) = true -> 0 < q < 2 ^ 53 ->
  scaled (S754_finite false w e) = q * 2 ^ 1074 ->
  exists mf ef,
    ffloor (S754_finite false w e) = S754_finite false mf ef
    /\ valid (S754_finite false mf ef) = true
    /\ scaled (S754_finite false mf ef) = q * 2 ^ 1074.
Proof.
  intros Vw Hq Hs.
  pose proof (valid_finite _ _ _ Vw) as (Ew & _ & _).
  unfold ffloor. destruct (0 <=? e).
  - exists w, e. auto.
  - cbn [cond_Zopp]. rewrite shiftl_scaled by lia.
    cbn [scaled cond_Zopp] in Hs. rewrite Hs.
    rewrite Z.div_mul by (apply Z.pow_nonzero; lia).
    destruct (Z.eqb_spec q 0) as [H0 | _]; [lia |].
    unfold of_Z. destruct q as [| qp | qp]; [lia | | lia].
    cbn [binary_normalize].
    destruct (binary_round_exact false qp 0) as (m' & e' & Hr & Hv & _ & Hval);
      [apply digits_le_53; lia | lia |].
    exists m', e'. rewrite Hr. split; [reflexivity |]. split; [exact Hv |].
    cbn [scaled cond_Zopp]. rewrite Hval. reflexivity.
Qed.

Lemma positive_finite (x : float) :
  is_finite x = true -> 0 < scaled x ->
  exists m e, x = S754_finite false m e.
Proof.
  intros Hf Hp. destruct x as [s | s | | s m e]; try discriminate Hf.
  - cbn in Hp. lia.
  - destruct s; [exfalso | eauto].
    cbn [scaled cond_Zopp] in Hp.
    destruct (pow2_pos (e + 1074)) as [H | H].
    + rewrite Z.mul_opp_l in Hp. nia.
    + rewrite (Z.pow_neg_r 2 (e + 1074)) in Hp by lia. lia.
Qed.

Lemma half_above_zero : flt (literal 5 10) (S754_zero false) = false.
Proof. vm_compute. reflexivity. Qed.

Lemma finite_zero_scaled (x : float) :
  is_finite x = true -> low_ok x -> scaled x = 0 -> exists s, x = S754_zero s.
Proof.
  intros Hf Hl Hs. destruct x as [s | s | | s m e]; try discriminate Hf.
  - eauto.
  - exfalso. cbn [low_ok] in Hl. cbn [scaled] in Hs.
    assert (0 < 2 ^ (e + 1074)) by (apply Z.pow_pos_nonneg; lia).
    destruct s; cbn [cond_Zopp] in Hs; nia.
Qed.

(** A float not below a normal one is normal. *)
Lemma normal_above (m : positive) (e : Z) (mc : positive) (ec : Z) :
  valid (S754_finite false m e) = true ->
  -1074 <= ec -> 2 ^ 52 <= Zpos mc ->
  scaled (S754_finite false mc ec) <= scaled (S754_finite false m e) ->
  2 ^ 52 <= Zpos m.
Proof.
  intros Vx Hec Hmc Hle.
  pose proof (valid_finite _ _ _ Vx) as (Ex & Mx & Nx).
  destruct (Z.eq_dec e (-1074)) as [-> | Hne]; [| apply Nx; lia].
  cbn [scaled cond_Zopp] in Hle. change (2 ^ (-1074 + 1074)) with 1 in Hle.
  assert (1 <= 2 ^ (ec + 1074)) by (apply Z.lt_pred_le, Z.pow_pos_nonneg; lia).
  nia.
Qed.

(** A float below [2^53] has no positive exponent. *)
Lemma small_exponent (m : positive) (e : Z) :
  valid (S754_finite false m e) = true ->
  scaled (S754_finite false m e) < 2 ^ 53 * 2 ^ 1074 -> e <= 0.
Proof.
  intros Vx Hlt.
  pose proof (valid_finite _ _ _ Vx) as (Ex & Mx & Nx).
  destruct (Z.le_gt_cases e 0) as [H | H]; [exact H | exfalso].
  cbn [scaled cond_Zopp] in Hlt.
  specialize (Nx ltac:(lia)).
  assert (2 * 2 ^ 1074 <= 2 ^ (e + 1074)).
  { change (2 * 2 ^ 1074) with (2 ^ 1075). apply Z.pow_le_mono_r; lia. }
  assert (0 < 2 ^ 1074) by (apply Z.pow_pos_nonneg; lia).
  change (2 ^ 53) with (2 * 2 ^ 52) in Hlt.
  assert (2 ^ 52 * 2 ^ (e + 1074) <= Zpos m * 2 ^ (e + 1074))
    by (apply Z.mul_le_mono_nonneg_r; lia).
  assert (2 ^ 52 * (2 * 2 ^ 1074) <= 2 ^ 52 * 2 ^ (e + 1074))
    by (apply Z.mul_le_mono_nonneg_l; lia).
  lia.
Qed.

(** The tail of CPython's [_float_div_mod] once the remainder [rm] and the
    quotient [dv] of [(x - rm) / c] are known. *)
Lemma div_mod_tail (x c rm dv r y : float) :
  fmod x c = rm -> fdiv (fsub x rm) c = dv ->
  (if negb (is_zero rm)
   then xorb (flt c (S754_zero false)) (flt rm (S754_zero false)) = false
        /\ r = rm
   else r = S754_zero (signbit c)) ->
  (if negb (is_zero dv)
   then fsub dv (ffloor dv) = S754_zero false /\ y = ffloor dv
   else y = S754_zero (signbit (fdiv x c))) ->
  float_div_mod x c = (y, r).
Proof.
  intros Hrm Hdv Hr Hy. unfold float_div_mod. rewrite Hrm, Hdv.
  destruct (negb (is_zero rm)).
  - destruct Hr as (-> & ->).
    destruct (negb (is_zero dv)).
    + destruct Hy as (-> & ->). rewrite half_above_zero. reflexivity.
    + rewrite Hy. reflexivity.
  - rewrite Hr.
    destruct (negb (is_zero dv)).
    + destruct Hy as (-> & ->). rewrite half_above_zero. reflexivity.
    + rewrite Hy. reflexivity.
Qed.

(** CPython's [float_divmod] for [0 <= x < 2^53] and a positive whole
    divisor [c]: the quotient and the remainder of the values, exactly. *)
Lemma float_div_mod_exact (x : float) (mc : positive) (ec C : Z) :
  valid x = true -> is_finite x = true ->
  valid (S754_finite false mc ec) = true -> 2 ^ 52 <= Zpos mc ->
  scaled (S754_finite false mc ec) = C * 2 ^ 1074 ->
  0 <= scaled x < 2 ^ 53 * 2 ^ 1074 ->
  exists y r,
    float_div_mod x (S754_finite false mc ec) = (y, r)
    /\ is_finite y = true /\ valid y = true
    /\ scaled y = scaled x / (C * 2 ^ 1074) * 2 ^ 1074
    /\ is_finite r = true /\ valid r = true
    /\ scaled r = scaled x mod (C * 2 ^ 1074).
Proof.
  intros Vx Fx Vc Nc Sc Hx.
  pose proof (valid_finite _ _ _ Vc) as (Ec & Mc & _).
  pose proof (scaled_constant_pos mc ec ltac:(lia)) as Cpos.
  set (c := S754_finite false mc ec) in *.
  set (K := 2 ^ 1074) in *.
  assert (HK : 0 < K) by (apply Z.pow_pos_nonneg; lia).
  assert (HC : 0 < C) by nia.
  destruct (Z.eq_dec (scaled x) 0) as [Hz | Hnz].
  - (* x is a zero *)
    destruct (finite_zero_scaled x Fx (valid_low_ok x Vx) Hz) as (s & ->).
    exists (S754_zero s), (S754_zero false).
    split; [destruct s; reflexivity |].
    cbn [scaled]. rewrite Z.div_0_l, Z.mod_0_l by lia.
    repeat split; reflexivity.
  - destruct (positive_finite x Fx ltac:(lia)) as (mx & ex & ->).
    pose proof (valid_finite _ _ _ Vx) as (Ex & Mx & Nx).
    pose proof (small_exponent mx ex Vx ltac:(lia)) as Ex0.
    set (x := S754_finite false mx ex) in *.
    set (N := scaled x) in *.
    pose proof (fmod_exact mx ex mc ec Vx Vc) as (Fr & Vr & Sr).
    fold x c N in Fr, Vr, Sr. rewrite Sc in Sr.
    pose proof (Z.mod_pos_bound N (C * K) ltac:(nia)) as Hb.
    pose proof (Z.div_mod N (C * K) ltac:(nia)) as Hdm.
    set (q := N / (C * K)) in *.
    assert (Hq0 : 0 <= q) by (apply Z.div_pos; nia).
    assert (HqC : q * C < 2 ^ 53).
    { destruct (Z.lt_ge_cases (q * C) (2 ^ 53)) as [H | H]; [exact H | exfalso].
      assert (2 ^ 53 * K <= q * C * K) by (apply Z.mul_le_mono_nonneg_r; lia).
      lia. }
    assert (Hq53 : q < 2 ^ 53).
    { destruct (Z.lt_ge_cases q (2 ^ 53)) as [H | H]; [exact H | exfalso].
      assert (q * 1 <= q * C) by (apply Z.mul_le_mono_nonneg_l; lia). lia. }
    remember (fmod x c) as rm eqn:Erm.
    (* the difference x - rm *)
    assert (Hd : is_finite (fsub x rm) = true /\ valid (fsub x rm) = true
                 /\ scaled (fsub x rm) = q * C * K).
    { destruct rm as [sr | sr | | sr mr er]; try discriminate Fr.
      - change (fsub x (S754_zero sr)) with x.
        cbn [scaled] in Sr. fold N. split; [exact Fx |]. split; [exact Vx |]. lia.
      - pose proof (valid_finite _ _ _ Vr) as (Er & _).
        assert (sr = false) as ->.
        { destruct sr; [exfalso | reflexivity].
          cbn [scaled cond_Zopp] in Sr.
          assert (0 < 2 ^ (er + 1074)) by (apply Z.pow_pos_nonneg; lia). nia. }
        apply fsub_exact; [lia | lia | nia |]. fold x N. rewrite Sr. lia. }
    destruct Hd as (Fd & Vd & Sd).
    remember (fsub x rm) as d eqn:Ed.
    (* the remainder after the sign adjustment *)
    assert (Hr : exists r,
               (if negb (is_zero rm)
                then xorb (flt c (S754_zero false)) (flt rm (S754_zero false))
                     = false /\ r = rm
                else r = S754_zero (signbit c))
               /\ is_finite r = true /\ valid r = true
               /\ scaled r = N mod (C * K)).
    { destruct rm as [sr | sr | | sr mr er]; try discriminate Fr.
      - exists (S754_zero false). cbn [is_zero negb scaled] in *.
        repeat split; first [reflexivity | exact Sr].
      - exists (S754_finite sr mr er). cbn [is_zero negb].
        assert (sr = false) as ->.
        { pose proof (valid_finite _ _ _ Vr) as (Er & _).
          destruct sr; [exfalso | reflexivity].
          cbn [scaled cond_Zopp] in Sr.
          assert (0 < 2 ^ (er + 1074)) by (apply Z.pow_pos_nonneg; lia). nia. }
        repeat split; first [reflexivity | exact Vr | exact Sr]. }
    destruct Hr as (r & Hr & Fr' & Vr' & Sr').
    (* the quotient *)
    assert (Hy : exists y,
               (if negb (is_zero (fdiv d c))
                then fsub (fdiv d c) (ffloor (fdiv d c)) = S754_zero false
                     /\ y = ffloor (fdiv d c)
                else y = S754_zero (signbit (fdiv x c)))
               /\ is_finite y = true /\ valid y = true
               /\ scaled y = q * K).
    { destruct (Z.eq_dec q 0) as [Hq | Hq].
      - rewrite Hq in Sd. change (0 * C * K) with 0 in Sd.
        destruct (finite_zero_scaled d Fd (valid_low_ok d Vd) Sd) as (sd & ->).
        exists (S754_zero (signbit (fdiv x c))). rewrite Hq.
        repeat split; reflexivity.
      - destruct (positive_finite d Fd ltac:(nia)) as (md & ed & ->).
        assert (Nd : 2 ^ 52 <= Zpos md).
        { apply (normal_above md ed mc ec Vd); [lia | exact Nc |].
          fold c. rewrite Sc, Sd.
          assert (1 * (C * K) <= q * (C * K))
            by (apply Z.mul_le_mono_nonneg_r; nia).
          lia. }
        destruct (fdiv_exact md ed mc ec q Vd Nd Vc Nc ltac:(lia))
          as (w & e & Hdv & Vdv & Sdv).
        { fold c. rewrite Sc, Sd. lia. }
        fold c in Hdv. rewrite Hdv. cbn [is_zero negb].
        destruct (ffloor_whole w e q Vdv ltac:(lia) Sdv)
          as (mf & ef & Hfl & Vfl & Sfl).
        exists (S754_finite false mf ef). rewrite Hfl.
        pose proof (valid_finite _ _ _ Vdv) as (Edv & _).
        pose proof (valid_finite _ _ _ Vfl) as (Efl & _).
        split; [split; [| reflexivity] |].
        + apply fsub_same_value; [lia | lia |]. rewrite Sdv, Sfl. reflexivity.
        + split; [reflexivity |]. split; [exact Vfl | exact Sfl]. }
    destruct Hy as (y & Hy & Fy & Vy & Sy).
    exists y, r. split.
    + apply (div_mod_tail x c rm (fdiv d c) r y);
        [symmetry; exact Erm | rewrite Ed; reflexivity | exact Hr | exact Hy].
    + auto 10.
Qed.

(** [x // c] for [0 <= x < 2^53] and a positive whole constant [c]: the
    floor of the quotient of the values. *)
Lemma floordiv_scaled (x : float) (mc : positive) (ec C : Z) :
  valid x = true -> is_finite x = true ->
  valid (S754_finite false mc ec) = true -> 2 ^ 52 <= Zpos mc ->
  scaled (S754_finite false mc ec) = C * 2 ^ 1074 ->
  0 <= scaled x < 2 ^ 53 * 2 ^ 1074 ->
  exists y,
    floordiv x (S754_finite false mc ec) = Ok y
    /\ is_finite y = true /\ valid y = true
    /\ scaled y = scaled x / (C * 2 ^ 1074) * 2 ^ 1074.
Proof.
  intros Vx Fx Vc Nc Sc Hx.
  destruct (float_div_mod_exact x mc ec C Vx Fx Vc Nc Sc Hx)
    as (y & r & Hdm & Fy & Vy & Sy & _).
  exists y. unfold floordiv. cbn [is_zero]. rewrite Hdm. auto.
Qed.

(** [x % c] under the same conditions: the remainder of the values. *)
Lemma modulo_scaled (x : float) (mc : positive) (ec C : Z) :
  valid x = true -> is_finite x = true ->
  valid (S754_finite false mc ec) = true -> 2 ^ 52 <= Zpos mc ->
  scaled (S754_finite false mc ec) = C * 2 ^ 1074 ->
  0 <= scaled x < 2 ^ 53 * 2 ^ 1074 ->
  exists r,
    modulo x (S754_finite false mc ec) = Ok r
    /\ is_finite r = true /\ valid r = true
    /\ scaled r = scaled x mod (C * 2 ^ 1074).
Proof.
  intros Vx Fx Vc Nc Sc Hx.
  destruct (float_div_mod_exact x mc ec C Vx Fx Vc Nc Sc Hx)
    as (y & r & Hdm & _ & _ & _ & Fr & Vr & Sr).
  exists r. unfold modulo. cbn [is_zero]. rewrite Hdm. auto.
Qed.

Lemma scaled_f60 : scaled f60 = 60 * 2 ^ 1074.
Proof. vm_compute. reflexivity. Qed.

Lemma scaled_f3600 : scaled f3600 = 3600 * 2 ^ 1074.
Proof. vm_compute. reflexivity. Qed.

Lemma valid_f60 : valid f60 = true.
Proof. vm_compute. reflexivity. Qed.

Lemma valid_f3600 : valid f3600 = true.
Proof. vm_compute. reflexivity. Qed.

Lemma mantissa_f60 : 2 ^ 52 <= 8444249301319680 < 2 ^ 53.
Proof. split; [apply Z.leb_le | apply Z.ltb_lt]; vm_compute; reflexivity. Qed.

Lemma mantissa_f3600 : 2 ^ 52 <= 7916483719987200 < 2 ^ 53.
Proof. split; [apply Z.leb_le | apply Z.ltb_lt]; vm_compute; reflexivity. Qed.

Lemma floordiv_f60 (x : float) :
  valid x = true -> is_finite x = true ->
  0 <= scaled x < 2 ^ 53 * 2 ^ 1074 ->
  exists y,
    floordiv x f60 = Ok y /\ is_finite y = true /\ valid y = true
    /\ scaled y = scaled x / (60 * 2 ^ 1074) * 2 ^ 1074.
Proof.
  intros Vx Fx Hx.
  exact (floordiv_scaled x _ _ 60 Vx Fx valid_f60 (proj1 mantissa_f60) scaled_f60 Hx).
Qed.

Lemma floordiv_f3600 (x : float) :
  valid x = true -> is_finite x = true ->
  0 <= scaled x < 2 ^ 53 * 2 ^ 1074 ->
  exists y,
    floordiv x f3600 = Ok y /\ is_finite y = true /\ valid y = true
    /\ scaled y = scaled x / (3600 * 2 ^ 1074) * 2 ^ 1074.
Proof.
  intros Vx Fx Hx.
  exact (floordiv_scaled x _ _ 3600 Vx Fx valid_f3600 (proj1 mantissa_f3600) scaled_f3600 Hx).
Qed.

Lemma modulo_f60 (x : float) :
  valid x = true -> is_finite x = true ->
  0 <= scaled x < 2 ^ 53 * 2 ^ 1074 ->
  exists r,
    modulo x f60 = Ok r /\ is_finite r = true /\ valid r = true
    /\ scaled r = scaled x mod (60 * 2 ^ 1074).
Proof.
  intros Vx Fx Hx.
  exact (modulo_scaled x _ _ 60 Vx Fx valid_f60 (proj1 mantissa_f60) scaled_f60 Hx).
Qed.

Lemma modulo_f3600 (x : float) :
  valid x = true -> is_finite x = true ->
  0 <= scaled x < 2 ^ 53 * 2 ^ 1074 ->
  exists r,
    modulo x f3600 = Ok r /\ is_finite r = true /\ valid r = true
    /\ scaled r = scaled x mod (3600 * 2 ^ 1074).
Proof.
  intros Vx Fx Hx.
  exact (modulo_scaled x _ _ 3600 Vx Fx valid_f3600 (proj1 mantissa_f3600) scaled_f3600 Hx).
Qed.

Lemma flt_f60 (x : float) :
  valid x = true -> is_finite x = true ->
  flt x f60 = true <-> scaled x < 60 * 2 ^ 1074.
Proof.
  intros Hv Hf. rewrite <- scaled_f60. unfold f60.
  apply flt_constant; [assumption | assumption | | lia].
  split; [apply Z.leb_le | apply Z.ltb_lt]; vm_compute; reflexivity.
Qed.

Lemma flt_f3600 (x : float) :
  valid x = true -> is_finite x = true ->
  flt x f3600 = true <-> scaled x < 3600 * 2 ^ 1074.
Proof.
  intros Hv Hf. rewrite <- scaled_f3600. unfold f3600.
  apply flt_constant; [assumption | assumption | | lia].
  split; [apply Z.leb_le | apply Z.ltb_lt]; vm_compute; reflexivity.
Qed.

Lemma py_int_floor (y : float) (q : Z) :
  is_finite y = true -> low_ok y -> scaled y = q * 2 ^ 1074 ->
  py_int y = Ok q.
Proof.
  intros Hf Hl Hs. rewrite (py_int_scaled y Hf Hl), Hs.
  rewrite Z.quot_mul; [reflexivity | apply Z.pow_nonzero; lia].
Qed.

Lemma not_true_false (b : bool) : ~ b = true -> b = false.
Proof. destruct b; [intros H; elim H; reflexivity | reflexivity]. Qed.

(** [//] and [%] on a few floats, with the results CPython prints: the
    quotient is floored, the remainder has the sign of the divisor, and
    [(2^53 + 2) // 3] shows the rounding of the intermediate steps. *)
Example floor_division_samples :
  floordiv (of_Z (-7)) (of_Z 2) = Ok (of_Z (-4))
  /\ modulo (of_Z (-7)) (of_Z 2) = Ok (of_Z 1)
  /\ modulo (of_Z 7) (of_Z (-2)) = Ok (of_Z (-1))
  /\ floordiv (of_Z 1) (literal 1 10) = Ok (of_Z 9)
  /\ floordiv (of_Z 9007199254740994) (of_Z 3) = Ok (of_Z 3002399751580330)
  /\ floordiv (of_Z 7325) f3600 = Ok (of_Z 2)
  /\ modulo (of_Z 7325) f3600 = Ok (of_Z 125)
  /\ floordiv (of_Z 1) (of_Z 0)
     = Raise (ZeroDivisionError "float floor division by zero").
Proof. repeat apply conj; vm_compute; reflexivity. Qed.

(** [_format_time] on a finite float, in units of [2^-1074]. *)
Lemma format_time_scaled (seconds : float) :
  valid seconds = true -> is_finite seconds = true ->
  let n := scaled seconds in
  let k := 2 ^ 1074 in
  (n < 60 * k ->
   _format_time seconds = Ok (fstr [fmt_int (Z.quot n k); " seconds"]))
  /\ (60 * k <= n < 3600 * k ->
      _format_time seconds
      = Ok (fstr [fmt_int (n / (60 * k)); " minutes and ";
                  fmt_int (n mod (60 * k) / k); " seconds"]))
  /\ (3600 * k <= n < 2 ^ 53 * k ->
      _format_time seconds
      = Ok (fstr [fmt_int (n / (3600 * k)); " hours and ";
                  fmt_int (n mod (3600 * k) / (60 * k)); " minutes"])).
Proof.
  intros Hv Hf n k.
  pose proof (flt_f60 seconds Hv Hf) as H60.
  pose proof (flt_f3600 seconds Hv Hf) as H3600.
  pose proof (valid_low_ok seconds Hv) as Hlow.
  pose proof (floordiv_f60 seconds Hv Hf) as D60.
  pose proof (floordiv_f3600 seconds Hv Hf) as D3600.
  pose proof (modulo_f60 seconds Hv Hf) as M60.
  pose proof (modulo_f3600 seconds Hv Hf) as M3600.
  fold n k in H60, H3600, D60, D3600, M60, M3600.
  assert (Hk : 0 < k) by (apply Z.pow_pos_nonneg; lia).
  assert (Hbig : 3600 * k < 2 ^ 53 * k)
    by (apply Z.mul_lt_mono_pos_r; [exact Hk | reflexivity]).
  unfold _format_time.
  repeat apply conj.
  - intros Hn. rewrite (proj2 H60 Hn).
    rewrite (py_int_scaled seconds Hf Hlow). reflexivity.
  - intros [Hlo Hhi].
    rewrite (not_true_false (flt seconds f60)) by (rewrite H60; lia).
    rewrite (proj2 H3600 Hhi).
    destruct D60 as (y & Hy & Fy & Vy & Sy); [lia |].
    rewrite Hy. cbn [bindR].
    rewrite (py_int_floor y _ Fy (valid_low_ok y Vy) Sy). cbn [bindR].
    destruct M60 as (r & Hr & Fr & Vr & Sr); [lia |].
    rewrite Hr. cbn [bindR].
    rewrite (py_int_scaled r Fr (valid_low_ok r Vr)), Sr. cbn [bindR].
    fold k. rewrite Z.quot_div_nonneg; [reflexivity | | lia].
    apply Z.mod_pos_bound. lia.
  - intros [Hlo Hhi].
    rewrite (not_true_false (flt seconds f60)) by (rewrite H60; lia).
    rewrite (not_true_false (flt seconds f3600)) by (rewrite H3600; lia).
    destruct D3600 as (y & Hy & Fy & Vy & Sy); [lia |].
    rewrite Hy. cbn [bindR].
    rewrite (py_int_floor y _ Fy (valid_low_ok y Vy) Sy). cbn [bindR].
    destruct M3600 as (r & Hr & Fr & Vr & Sr); [lia |].
    rewrite Hr. cbn [bindR].
    assert (Hmod : 0 <= n mod (3600 * k) < 3600 * k)
      by (apply Z.mod_pos_bound; lia).
    destruct (floordiv_f60 r Vr Fr) as (y2 & Hy2 & Fy2 & Vy2 & Sy2).
    { rewrite Sr. fold k. lia. }
    rewrite Sr in Sy2. fold k in Sy2.
    rewrite Hy2. cbn [bindR].
    rewrite (py_int_floor y2 _ Fy2 (valid_low_ok y2 Vy2) Sy2).
    reflexivity.
Qed.

Lemma unit_value : Zpos unit_ = 2 ^ 1074.
Proof. unfold unit_. rewrite Pos2Z.inj_pow. reflexivity. Qed.

Lemma to_Q_scaled (x : float) :
  low_ok x -> (to_Q x == scaled x # unit_)%Q.
Proof.
  intros Hlow. unfold Qeq. cbn [Qnum Qden]. rewrite unit_value.
  destruct x as [s | s | | s m e]; cbn [to_Q scaled Qnum Qden inject_Z];
    try reflexivity.
  cbn [low_ok] in Hlow.
  destruct e as [| p | p]; cbn [Qnum Qden inject_Z].
  - cbn [Z.add]. lia.
  - rewrite (pow2_split (Zpos p) 1074) by lia. lia.
  - rewrite Pos2Z.inj_pow.
    replace (2 ^ 1074) with (2 ^ (Zneg p + 1074) * 2 ^ Zpos p); [lia |].
    rewrite <- pow2_split by lia. f_equal. lia.
Qed.

Lemma Qtrunc_scaled (x : float) :
  low_ok x -> Qtrunc (to_Q x) = Z.quot (scaled x) (2 ^ 1074).
Proof.
  intros Hlow. unfold Qtrunc.
  destruct x as [s | s | | s m e]; cbn [to_Q scaled Qnum Qden inject_Z];
    try reflexivity.
  cbn [low_ok] in Hlow.
  assert (Hnz : forall n, 0 <= n -> 2 ^ n <> 0) by (intros; apply Z.pow_nonzero; lia).
  destruct e as [| p | p]; cbn [Qnum Qden inject_Z].
  - cbn [Z.add]. rewrite Z.quot_1_r, Z.quot_mul; [lia | apply Hnz; lia].
  - rewrite (pow2_split (Zpos p) 1074) by lia.
    rewrite Z.quot_1_r, Z.mul_assoc, Z.quot_mul; [reflexivity | apply Hnz; lia].
  - rewrite Pos2Z.inj_pow.
    replace (2 ^ 1074) with (2 ^ Zpos p * 2 ^ (Zneg p + 1074)).
    + rewrite Z.quot_mul_cancel_r; [reflexivity | apply Hnz; lia | apply Hnz; lia].
    + rewrite <- pow2_split by lia. f_equal. lia.
Qed.

Lemma lt_Q_scaled (x : float) (c : Z) :
  low_ok x -> (to_Q x < inject_Z c)%Q <-> scaled x < c * 2 ^ 1074.
Proof.
  intros Hlow. rewrite (to_Q_scaled x Hlow). unfold Qlt.
  cbn [Qnum Qden inject_Z]. rewrite unit_value. lia.
Qed.

Lemma le_Q_scaled (x : float) (c : Z) :
  low_ok x -> (inject_Z c <= to_Q x)%Q <-> c * 2 ^ 1074 <= scaled x.
Proof.
  intros Hlow. rewrite (to_Q_scaled x Hlow). unfold Qle.
  cbn [Qnum Qden inject_Z]. rewrite unit_value. lia.
Qed.

Lemma floor_div_Q (x : float) (a : Z) (c : positive) :
  low_ok x ->
  Qfloor ((to_Q x - inject_Z a) / inject_Z (Zpos c))
  = (scaled x - a * 2 ^ 1074) / (Zpos c * 2 ^ 1074).
Proof.
  intros Hlow. rewrite (to_Q_scaled x Hlow).
  unfold Qfloor, Qdiv, Qminus, Qplus, Qopp, Qmult, Qinv.
  cbn [Qnum Qden inject_Z]. rewrite !Pos2Z.inj_mul, unit_value.
  f_equal; lia.
Qed.

Lemma floor_sub_Q (x : float) (a : Z) :
  low_ok x ->
  Qfloor (to_Q x - inject_Z a) = (scaled x - a * 2 ^ 1074) / 2 ^ 1074.
Proof.
  intros Hlow. rewrite (to_Q_scaled x Hlow).
  unfold Qfloor, Qminus, Qplus, Qopp.
  cbn [Qnum Qden inject_Z]. rewrite !Pos2Z.inj_mul, unit_value.
  f_equal; lia.
Qed.

Lemma floor_quot_Q (x : float) (c : positive) :
  low_ok x ->
  Qfloor (to_Q x / inject_Z (Zpos c)) = scaled x / (Zpos c * 2 ^ 1074).
Proof.
  intros Hlow. rewrite (to_Q_scaled x Hlow).
  unfold Qfloor, Qdiv, Qmult, Qinv.
  cbn [Qnum Qden inject_Z]. rewrite !Pos2Z.inj_mul, unit_value.
  f_equal; lia.
Qed.


End FloatFacts.

(* ================================================================== *)
(** * The estimate *)

(** C2 (amended): [_calculate_eta] answers ["Calculating..."] whenever no
    sample is recorded or no roll is done, whatever its other inputs; with
    the one sample 2.0, 10 files per roll and one roll done of two, the
    estimated seconds are [1 * 10 * 2.0 * 1.2 = 24] and the string returned
    is ["24 seconds (approx)"]. *)
Theorem eta_unavailable_or_approximate :
  (forall self rolls_done total_rolls files_per_roll_avg,
     copy_times self = [] \/ rolls_done = 0 ->
     _calculate_eta self rolls_done total_rolls files_per_roll_avg
     = Ok "Calculating...")
  /\ fmul (fmul (fmul (of_Z 1) (of_Z 10)) (of_Z 2)) f1_2 = of_Z 24
  /\ _format_time (of_Z 24) = Ok "24 seconds"
  /\ _calculate_eta Samples.one_sample 1 2 (of_Z 10) = Ok "24 seconds (approx)".
Proof.
  split; [| repeat apply conj; vm_compute; reflexivity].
  intros self rolls_done total_rolls avg [Hnone | Hzero]; unfold _calculate_eta.
  - rewrite Hnone. reflexivity.
  - rewrite Hzero. cbn [Z.eqb]. rewrite orb_true_r. reflexivity.
Qed.

(** C2, as the specification words it, fails: the string returned is not
    the bare ["24 seconds"]. *)
Lemma eta_keeps_its_suffix :
  _calculate_eta Samples.one_sample 1 2 (of_Z 10) = Ok "24 seconds (approx)"
  /\ ~ eta_is_the_bare_time.
Proof.
  split; [vm_compute; reflexivity |].
  unfold eta_is_the_bare_time. vm_compute. discriminate.
Qed.

(* ================================================================== *)
(** * The simulated world keeps what it holds *)

Lemma sim_mem_cons (p x : string) (l : list string) :
  Sim.mem p l = true -> Sim.mem p (x :: l) = true.
Proof. unfold Sim.mem. cbn [existsb]. intros ->. apply orb_true_r. Qed.

Lemma sim_persistent : Persistent Sim.env.
Proof.
  split; cbn [os_path_exists shell_Namespace folder_CopyHere item_InvokeVerbEx
              OpenClipboard EmptyClipboard CloseClipboard os_makedirs
              time_sleep Sim.env].
  - intros [n | path] w p H; [exact H |].
    destruct (Sim.mem path (Sim.sim_paths w)); exact H.
  - intros dst src o w p H.
    destruct (Sim.mem (Name src) (Sim.sim_broken w)); [exact H |].
    destruct (Sim.mem (Name src) (Sim.sim_silent w)); [exact H |].
    cbn. apply sim_mem_cons. exact H.
  - intros it verb w p H.
    destruct (verb =? "copy")%string; [exact H |].
    destruct (verb =? "paste")%string; [| exact H].
    destruct (Sim.sim_clipboard w); [| exact H].
    destruct (Sim.sim_paste_works w); [| exact H].
    cbn. apply sim_mem_cons. exact H.
  - intros w p H. exact H.
  - intros w p H. exact H.
  - intros w p H. exact H.
  - intros q w p H. cbn. apply sim_mem_cons. exact H.
  - intros d w p H. exact H.
Qed.

(* ================================================================== *)
(** * The claims on sample worlds *)

Section OnSamples.

Import Sim Samples.

(** The end-to-end scenario of the specification: [Roll1] holds [a.jpg]
    and [b.jpg], the destination already has [a.jpg]. *)
Example end_to_end_scenario :
  exists r s,
    copy_photos (start "D" desk) = (Ok r, s)
    /\ completate r = ["Roll1"] /\ saltate r = [] /\ errori r = []
    /\ file_copiati r = 1.
Proof. eexists _, _. vm_compute. repeat split. Qed.

(** Five copied, three skipped, one failed: the roll is ["errore"]. *)
Example one_failure_decides :
  fst (roll_status roll1 1 1 9
         {| files_copied := 5; files_skipped := 3; files_failed := 1 |}
         (start "D" desk))
  = Ok "errore".
Proof. reflexivity. Qed.

(** C1, as the specification words it, fails: when [CopyHere] raises, the
    copy ends in [False] after two calls, neither of them of the fallback. *)
Lemma fallback_skipped_when_copyhere_raises :
  fst (_copy_file_mtp b_jpg "D/Roll1/b.jpg" (start "D" broken)) = Ok false
  /\ trace (snd (_copy_file_mtp b_jpg "D/Roll1/b.jpg" (start "D" broken)))
     = [EvNamespace (Dir "D/Roll1");
        EvCopyHere (GetFolder {| Name := "D/Roll1"; IsFolder := true;
                                 Path := "D/Roll1" |}) b_jpg 16]
  /\ ~ fallback_entered_on_every_failure.
Proof.
  split; [vm_compute; reflexivity |]. split; [vm_compute; reflexivity |].
  intros H.
  specialize (H World env b_jpg "D/Roll1/b.jpg" (start "D" broken)).
  assert (Hraise : exists e s1,
            primary_phase b_jpg "D/Roll1/b.jpg"
              (time_time (world (start "D" broken))) (start "D" broken)
            = (Raise e, s1)).
  { eexists _, _. vm_compute. reflexivity. }
  specialize (H (or_introl Hraise)
                (trace (snd (_copy_file_mtp b_jpg "D/Roll1/b.jpg"
                               (start "D" broken))))
                eq_refl).
  vm_compute in H. discriminate H.
Qed.


(** C7, as the specification words it, fails: the device and its storage
    are found, the listing of the storage raises, and the error ends the
    run. *)
Lemma listing_error_ends_the_run :
  fst (copy_photos (start "D" unreachable))
  = Raise (ComError "the device is unreachable")
  /\ ~ only_absence_ends_the_run.
Proof.
  split; [vm_compute; reflexivity |].
  intros H.
  edestruct (H World env (start "D" unreachable)) as (r & s' & Hr).
  - vm_compute. reflexivity.
  - vm_compute. reflexivity.
  - assert (Hrun : fst (copy_photos (start "D" unreachable))
                   = Raise (ComError "the device is unreachable"))
      by (vm_compute; reflexivity).
    rewrite Hr in Hrun. discriminate Hrun.
Qed.

(** C8 on a sample: the first run copies [b.jpg]; the second finds both
    files and skips them. *)
Lemma second_sync_on_desk :
  fst (_process_roll roll1 1 1 [a_jpg; b_jpg] (start "D" desk))
  = Ok "completata"
  /\ exists c2 s2 s3 calls,
       roll_scan roll1 1 1 [a_jpg; b_jpg]
         (snd (_process_roll roll1 1 1 [a_jpg; b_jpg] (start "D" desk)))
       = (Ok c2, s2)
       /\ files_copied c2 = 0
       /\ files_skipped c2 = len [a_jpg; b_jpg]
       /\ files_failed c2 = 0
       /\ _process_roll roll1 1 1 [a_jpg; b_jpg]
            (snd (_process_roll roll1 1 1 [a_jpg; b_jpg] (start "D" desk)))
          = (Ok "saltata", s3)
       /\ trace s3
          = (trace (snd (_process_roll roll1 1 1 [a_jpg; b_jpg]
                           (start "D" desk))) ++ calls)%list
       /\ count is_copyhere calls = 0%nat.
Proof.
  split; [vm_compute; reflexivity |].
  destruct (second_sync_skips_everything (P := sim_persistent)
              roll1 1 1 1 1 [a_jpg; b_jpg] (start "D" desk) "completata"
              (snd (_process_roll roll1 1 1 [a_jpg; b_jpg] (start "D" desk))))
    as (c2 & s2 & s3 & calls & H1 & H2 & H3 & H4 & H5 & H6 & H7 & _).
  - vm_compute. reflexivity.
  - discriminate.
  - exists c2, s2, s3, calls. auto 10.
Defined.

End OnSamples.
(* ================================================================== *)
(** * Further properties of the engine and of the script *)

(* ================================================================== *)
(** * The order of the rolls *)

Section Sorting.

Lemma ltb_false_leb (a b : string) :
  (a <? b)%string = false -> (b <=? a)%string = true.
Proof.
  unfold String.ltb, String.leb. rewrite (String.compare_antisym a b).
  destruct (b ?= a)%string; cbn; congruence.
Qed.

Lemma ltb_true_leb (a b : string) :
  (a <? b)%string = true -> (a <=? b)%string = true.
Proof.
  unfold String.ltb, String.leb. destruct (a ?= b)%string; congruence.
Qed.

Lemma ltb_true_neq (a b : string) :
  (a <? b)%string = true -> (a =? b)%string = false.
Proof.
  unfold String.ltb. intros H. apply String.eqb_neq. intros ->.
  assert (Hc : (b ?= b)%string = Eq).
  { pose proof (String.compare_antisym b b) as Ha.
    destruct (b ?= b)%string; cbn in Ha; congruence. }
  rewrite Hc in H. discriminate.
Qed.

Lemma insert_by_name_perm (x : Item) (l : list Item) :
  Permutation (x :: l) (insert_by_name x l).
Proof.
  induction l as [| y l IH]; cbn [insert_by_name].
  - apply Permutation_refl.
  - destruct (Name y <? Name x)%string.
    + apply perm_trans with (y :: x :: l); [apply perm_swap |].
      apply perm_skip. exact IH.
    + apply Permutation_refl.
Qed.

Lemma insert_by_name_head (x a : Item) (l : list Item) :
  name_le a x -> HdRel name_le a l -> HdRel name_le a (insert_by_name x l).
Proof.
  intros Hax Hl. destruct l as [| y l]; cbn [insert_by_name].
  - constructor. exact Hax.
  - inversion Hl; subst. destruct (Name y <? Name x)%string; constructor; assumption.
Qed.

Lemma insert_by_name_sorted (x : Item) (l : list Item) :
  Sorted name_le l -> Sorted name_le (insert_by_name x l).
Proof.
  induction l as [| y l IH]; intros Hs; cbn [insert_by_name].
  - repeat constructor.
  - inversion Hs; subst.
    destruct (Name y <? Name x)%string eqn:Hyx.
    + constructor; [apply IH; assumption |].
      apply insert_by_name_head; [| assumption].
      apply ltb_true_leb. exact Hyx.
    + constructor; [exact Hs |]. constructor.
      apply ltb_false_leb. exact Hyx.
Qed.

Lemma insert_by_name_named (n : string) (x : Item) (l : list Item) :
  named n (insert_by_name x l) = named n (x :: l).
Proof.
  induction l as [| y l IH]; cbn [insert_by_name]; [reflexivity |].
  destruct (Name y <? Name x)%string eqn:Hyx; [| reflexivity].
  unfold named in *. cbn [filter] in *. rewrite IH.
  destruct (Name x =? n)%string eqn:Hx; [| reflexivity].
  apply String.eqb_eq in Hx. subst n.
  rewrite (ltb_true_neq _ _ Hyx). reflexivity.
Qed.

Lemma sorted_by_name_perm (l : list Item) : Permutation l (sorted_by_name l).
Proof.
  induction l as [| x l IH]; cbn [sorted_by_name fold_right];
    [constructor |].
  apply perm_trans with (x :: sorted_by_name l);
    [apply perm_skip; exact IH | apply insert_by_name_perm].
Qed.

Lemma sorted_by_name_sorted (l : list Item) :
  Sorted name_le (sorted_by_name l).
Proof.
  induction l as [| x l IH]; cbn [sorted_by_name fold_right];
    [constructor |].
  apply insert_by_name_sorted. exact IH.
Qed.

(** X1: [sorted(..., key=lambda x: x.Name)] loses and repeats no item and
    leaves the names in ascending order. *)
Theorem sorted_by_name_orders (l : list Item) :
  Permutation l (sorted_by_name l) /\ Sorted name_le (sorted_by_name l).
Proof.
  split; [apply sorted_by_name_perm | apply sorted_by_name_sorted].
Qed.

(** X2: the sort is stable: the items of one name keep the order the
    listing gave them. *)
Theorem sorted_by_name_is_stable (n : string) (l : list Item) :
  named n (sorted_by_name l) = named n l.
Proof.
  induction l as [| x l IH]; [reflexivity |].
  cbn [sorted_by_name fold_right]. rewrite insert_by_name_named.
  unfold named in *. cbn [filter]. fold (sorted_by_name l). rewrite IH.
  reflexivity.
Qed.

End Sorting.

(* ================================================================== *)
(** * The look-ups and the clipboard *)

Section Lookups.
Context {W : Type} {E : Environment W}.

Lemma find_first {A} (p : A -> bool) (l : list A) :
  match find p l with
  | Some x =>
      exists pre post,
        l = (pre ++ x :: post)%list /\ p x = true
        /\ forallb (fun a => negb (p a)) pre = true
  | None => forallb (fun a => negb (p a)) l = true
  end.
Proof.
  induction l as [| a l IH]; cbn [find]; [reflexivity |].
  destruct (p a) eqn:Hp.
  - exists [], l. auto.
  - destruct (find p l) as [x |].
    + destruct IH as (pre & post & -> & Hx & Hpre).
      exists (a :: pre), post. cbn [forallb app]. rewrite Hp. auto.
    + cbn [forallb]. rewrite Hp. exact IH.
Qed.

(** What [_clear_clipboard] does to the state. *)
Lemma clear_clipboard_summary (s : State W) :
  exists s' calls,
    _clear_clipboard s = (Ok tt, s')
    /\ trace s' = (trace s ++ calls)%list
    /\ self s' = self s /\ console s' = console s
    /\ log_txt s' = log_txt s /\ run s' = run s
    /\ calls = match OpenClipboard (world s) with
               | (Raise _, _) => [EvOpenClipboard]
               | (Ok _, w1) =>
                   match EmptyClipboard w1 with
                   | (Raise _, _) => [EvOpenClipboard; EvEmptyClipboard]
                   | (Ok _, _) =>
                       [EvOpenClipboard; EvEmptyClipboard; EvCloseClipboard]
                   end
               end.
Proof.
  unfold _clear_clipboard, try_except, bind, call, ret.
  destruct (OpenClipboard (world s)) as [[[] | e1] w1];
    cbn [world self trace set_world add_event].
  - destruct (EmptyClipboard w1) as [[[] | e2] w2];
      cbn [world self trace set_world add_event].
    + destruct (CloseClipboard w2) as [[[] | e3] w3];
        eexists _, _; (split; [reflexivity |]);
        cbn [world self trace console log_txt run set_world add_event];
        rewrite <- !app_assoc; repeat apply conj; reflexivity.
    + eexists _, _; (split; [reflexivity |]);
        cbn [world self trace console log_txt run set_world add_event];
        rewrite <- !app_assoc; repeat apply conj; reflexivity.
  - eexists _, _; (split; [reflexivity |]);
      cbn [world self trace console log_txt run set_world add_event];
      repeat apply conj; reflexivity.
Qed.

(** X3: [_clear_clipboard] never raises, whatever the clipboard does, and
    leaves the object, the console and the log as they were; it stops at
    the first call that raises, so that a clipboard whose emptying fails
    is not closed. *)
Theorem clear_clipboard_swallows (s : State W) :
  exists s' calls,
    _clear_clipboard s = (Ok tt, s')
    /\ trace s' = (trace s ++ calls)%list
    /\ self s' = self s /\ console s' = console s
    /\ log_txt s' = log_txt s /\ run s' = run s
    /\ calls = match OpenClipboard (world s) with
               | (Raise _, _) => [EvOpenClipboard]
               | (Ok _, w1) =>
                   match EmptyClipboard w1 with
                   | (Raise _, _) => [EvOpenClipboard; EvEmptyClipboard]
                   | (Ok _, _) =>
                       [EvOpenClipboard; EvEmptyClipboard; EvCloseClipboard]
                   end
               end.
Proof. exact (clear_clipboard_summary s). Qed.

(** X4: [_find_iphone] returns the first item of the listing of the
    computer whose name, in lower case, contains "iphone" or "apple", and
    [None] only when no item does. *)
Theorem find_iphone_takes_first_match (s : State W) computer w1 items w2 :
  shell_Namespace (CSIDL 17) (world s) = (Ok (Some computer), w1) ->
  folder_Items computer w1 = (Ok items, w2) ->
  exists r s',
    _find_iphone s = (Ok r, s')
    /\ match r with
       | Some it =>
           exists pre post,
             items = (pre ++ it :: post)%list
             /\ looks_like_iphone it = true
             /\ forallb (fun i => negb (looks_like_iphone i)) pre = true
       | None => forallb (fun i => negb (looks_like_iphone i)) items = true
       end.
Proof.
  intros Hn Hi. unfold _find_iphone, Items, bind, call, ret.
  rewrite Hn. cbn [world set_world add_event]. rewrite Hi.
  eexists _, _. split; [reflexivity |].
  apply (find_first looks_like_iphone items).
Qed.

(** X5: [_find_folder] returns the first sub-item that is a folder and
    whose name equals the target up to case; an item of that name that is
    no folder is passed over. *)
Theorem find_folder_takes_first_folder (parent : Item) (target_name : string)
    (s : State W) items w1 :
  folder_Items (GetFolder parent) (world s) = (Ok items, w1) ->
  exists r s',
    _find_folder parent target_name s = (Ok r, s')
    /\ match r with
       | Some sub =>
           exists pre post,
             items = (pre ++ sub :: post)%list
             /\ IsFolder sub = true
             /\ str_lower (Name sub) = str_lower target_name
             /\ forallb (fun i => negb (is_folder_named target_name i)) pre
                = true
       | None =>
           forallb (fun i => negb (is_folder_named target_name i)) items
           = true
       end.
Proof.
  intros Hi. unfold _find_folder, Items, bind, call, ret.
  rewrite Hi.
  eexists _, _. split; [reflexivity |].
  pose proof (find_first (is_folder_named target_name) items) as H.
  unfold is_folder_named in *.
  destruct (find _ items) as [sub |]; [| exact H].
  destruct H as (pre & post & Hl & Hsub & Hpre).
  apply andb_prop in Hsub. destruct Hsub as [Hf Hn].
  apply String.eqb_eq in Hn. exists pre, post. auto.
Qed.

End Lookups.

(* ================================================================== *)
(** * What a copy leaves behind *)

Section CopySummary.
Context {W : Type} {E : Environment W}.

Ltac run_copy :=
  repeat (cbn [world self trace set_world set_self add_event fst snd];
          match goal with
          | |- context [match ?x with Some _ => _ | None => _ end] =>
              is_var x; destruct x
          | |- context [match ?op ?w with (_, _) => _ end] =>
              match type of w with W => destruct (op w) as [[? | ?] ?] end
          | |- context [if os_path_exists ?p ?w then _ else _] =>
              destruct (os_path_exists p w) eqn:?
          end).

(** What [_copy_file_mtp] does to the state, by its result. *)
Lemma copy_file_summary (f : Item) (d : string) (s : State W) :
  exists b s' calls,
    _copy_file_mtp f d s = (Ok b, s')
    /\ trace s' = (trace s ++ calls)%list
    /\ forallb (fun ev => negb (is_makedirs ev)) calls = true
    /\ (IsFolder f = false -> forallb copies_a_file calls = true)
    /\ run s' = run s
    /\ dest_dir (self s') = dest_dir (self s)
    /\ start_time (self s') = start_time (self s)
    /\ (b = true ->
        files_copied_total (self s') = files_copied_total (self s) + 1
        /\ copy_times (self s')
           = (copy_times (self s)
              ++ [fsub (time_time (world s')) (time_time (world s))])%list
        /\ os_path_exists d (world s') = true)
    /\ (b = false -> self s' = self s).
Proof.
  unfold _copy_file_mtp, copy_attempt, primary_copy, fallback_copy,
    _clear_clipboard, try_except, record_copy, log.
  unfold bind, call, sleep, act, exists_, now, get_self, put_self, ret, raise.
  run_copy.
  all: eexists _, _, _; split; [reflexivity |];
    cbn [world self trace run set_world set_self add_event fst snd
         dest_dir start_time files_copied_total copy_times];
    rewrite <- ?app_assoc; split; [reflexivity |].
  all: repeat apply conj; try reflexivity; try discriminate;
    try (intros Hf; cbn; rewrite ?Hf; reflexivity);
    try (intros _; repeat apply conj; first [reflexivity | assumption]).
Qed.

End CopySummary.

Section RollSummary.
Context {W : Type} {E : Environment W}.

Lemma len_app {A} (l1 l2 : list A) : len (l1 ++ l2) = len l1 + len l2.
Proof. unfold len. rewrite length_app. lia. Qed.

(** What one turn of the loop of [_process_roll] does to the state. *)
Lemma process_file_summary roll dst n idx f c (s : State W) :
  exists c' s' calls ts,
    process_file roll dst n idx f c s = (Ok c', s')
    /\ trace s' = (trace s ++ calls)%list
    /\ forallb (fun ev => negb (is_makedirs ev)) calls = true
    /\ (IsFolder f = false -> forallb copies_a_file calls = true)
    /\ run s' = run s
    /\ dest_dir (self s') = dest_dir (self s)
    /\ start_time (self s') = start_time (self s)
    /\ copy_times (self s') = (copy_times (self s) ++ ts)%list
    /\ files_copied_total (self s') = files_copied_total (self s) + len ts
    /\ files_copied c' = files_copied c + len ts.
Proof.
  unfold process_file. rewrite bind_exists.
  destruct (os_path_exists _ _).
  - rewrite bind_log. eexists _, _, [EvExists _], [].
    split; [reflexivity |].
    cbn [log snd self run trace add_event dest_dir start_time copy_times
         files_copied_total files_copied forallb is_makedirs negb
         copies_a_file andb].
    rewrite app_nil_r. unfold len. cbn [length Z.of_nat].
    repeat apply conj; auto; lia.
  - destruct (copy_file_summary f (os_path_join dst (Name f))
                (add_event (EvExists (os_path_join dst (Name f))) s))
      as (b & s1 & calls & Hb & Htr & Hmk & Hcp & Hrun & Hdd & Hst & Ht & Hf).
    unfold bind at 1. rewrite Hb.
    cbn [add_event trace self run] in Htr, Hrun, Hdd, Hst, Ht, Hf.
    destruct b; rewrite bind_log.
    + destruct (Ht eq_refl) as (Htot & Htimes & _).
      eexists _, _, (EvExists _ :: calls), [_].
      split; [reflexivity |].
      cbn [log snd self run trace dest_dir start_time copy_times
           files_copied_total files_copied forallb is_makedirs negb
           copies_a_file andb].
      rewrite Htr, <- app_assoc. unfold len. cbn [length Z.of_nat app].
      repeat apply conj; auto; try lia. exact Htimes.
    + specialize (Hf eq_refl).
      eexists _, _, (EvExists _ :: calls), [].
      split; [reflexivity |].
      cbn [log snd self run trace dest_dir start_time copy_times
           files_copied_total files_copied forallb is_makedirs negb
           copies_a_file andb].
      rewrite Htr, <- app_assoc, Hf, app_nil_r.
      unfold len. cbn [length Z.of_nat app].
      repeat apply conj; auto; lia.
Qed.

Lemma process_files_summary roll dst n files : forall idx c (s : State W),
  exists c' s' calls ts,
    process_files roll dst n idx files c s = (Ok c', s')
    /\ trace s' = (trace s ++ calls)%list
    /\ forallb (fun ev => negb (is_makedirs ev)) calls = true
    /\ (forallb (fun f => negb (IsFolder f)) files = true ->
        forallb copies_a_file calls = true)
    /\ run s' = run s
    /\ dest_dir (self s') = dest_dir (self s)
    /\ start_time (self s') = start_time (self s)
    /\ copy_times (self s') = (copy_times (self s) ++ ts)%list
    /\ files_copied_total (self s') = files_copied_total (self s) + len ts
    /\ files_copied c' = files_copied c + len ts.
Proof.
  induction files as [| f rest IH]; intros idx c s.
  - exists c, s, [], []. cbn [process_files ret forallb].
    rewrite !app_nil_r. unfold len. cbn. repeat apply conj; auto; lia.
  - cbn [process_files]. unfold bind.
    destruct (process_file_summary roll dst n idx f c s)
      as (c1 & s1 & k1 & t1 & H1 & Htr1 & Hmk1 & Hcp1 & Hrun1 & Hdd1 & Hst1
          & Hct1 & Htot1 & Hfc1).
    rewrite H1.
    destruct (IH (idx + 1) c1 s1)
      as (c2 & s2 & k2 & t2 & H2 & Htr2 & Hmk2 & Hcp2 & Hrun2 & Hdd2 & Hst2
          & Hct2 & Htot2 & Hfc2).
    rewrite H2. exists c2, s2, (k1 ++ k2)%list, (t1 ++ t2)%list.
    split; [reflexivity |].
    rewrite Htr2, Htr1, Hct2, Hct1, <- !app_assoc, forallb_app, Hmk1, Hmk2,
      len_app.
    repeat apply conj; auto; try congruence; try lia.
    intros Hall. cbn [forallb] in Hall. apply andb_prop in Hall.
    destruct Hall as [Hf Hrest]. rewrite forallb_app.
    rewrite Hcp1, Hcp2; auto.
    destruct (IsFolder f); [discriminate | reflexivity].
Qed.

Lemma filter_none {A} (p : A -> bool) (l : list A) :
  forallb (fun a => negb (p a)) l = true -> filter p l = [].
Proof.
  induction l as [| a l IH]; cbn; [reflexivity |].
  destruct (p a); cbn; [discriminate | exact IH].
Qed.

(** What [_process_roll] does up to the end of its loop. *)
Lemma roll_scan_summary roll roll_idx total_rolls files (s : State W) :
  let dst := os_path_join (dest_dir (self s)) (Name roll) in
  exists c s' calls ts,
    roll_scan roll roll_idx total_rolls files s = (Ok c, s')
    /\ trace s' = (trace s ++ calls)%list
    /\ filter is_makedirs calls
       = (if os_path_exists dst (world s) then [] else [EvMakedirs dst])
    /\ (forallb (fun f => negb (IsFolder f)) files = true ->
        forallb copies_a_file calls = true)
    /\ run s' = run s
    /\ dest_dir (self s') = dest_dir (self s)
    /\ start_time (self s') = start_time (self s)
    /\ copy_times (self s') = (copy_times (self s) ++ ts)%list
    /\ files_copied_total (self s') = files_copied_total (self s) + len ts
    /\ files_copied c = len ts.
Proof.
  intros dst. unfold roll_scan. rewrite bind_get_self, bind_exists.
  fold dst. destruct (os_path_exists dst (world s)); cbn [negb]; mstep.
  all: match goal with |- context [process_files ?r ?d ?n ?i ?fs ?c ?st] =>
      destruct (process_files_summary r d n fs i c st)
        as (c' & s' & k & ts & H & Htr & Hmk & Hcp & Hrun & Hdd & Hst & Hct
            & Htot & Hfc) end;
    rewrite H;
    cbn [log snd self run trace world add_event set_world dest_dir start_time
         copy_times files_copied_total files_copied] in *.
  - exists c', s', (EvExists dst :: k), ts. split; [reflexivity |].
    rewrite Htr, <- app_assoc. cbn [app filter is_makedirs].
    rewrite (filter_none _ _ Hmk).
    repeat apply conj; auto; try lia.
  - exists c', s', (EvExists dst :: EvMakedirs dst :: k), ts.
    split; [reflexivity |].
    rewrite Htr, <- !app_assoc. cbn [app filter is_makedirs].
    rewrite (filter_none _ _ Hmk).
    repeat apply conj; auto; try lia.
Qed.

Lemma roll_status_quiet roll roll_idx total_rolls n c (s : State W) :
  exists status s',
    roll_status roll roll_idx total_rolls n c s = (Ok status, s')
    /\ trace s' = trace s /\ run s' = run s /\ self s' = self s
    /\ world s' = world s
    /\ (status = "completata" \/ status = "saltata" \/ status = "errore").
Proof.
  unfold roll_status.
  destruct (files_failed c >? 0);
    [| destruct ((files_copied c =? 0) && (files_skipped c =? n))];
    rewrite bind_log; eexists _, _; (split; [reflexivity |]);
    cbn [log snd self run trace world]; auto 10.
Qed.

(** What [_process_roll] does to the state. *)
Lemma process_roll_summary roll roll_idx total_rolls files (s : State W) :
  let dst := os_path_join (dest_dir (self s)) (Name roll) in
  exists status s' calls ts,
    _process_roll roll roll_idx total_rolls files s = (Ok status, s')
    /\ trace s' = (trace s ++ calls)%list
    /\ filter is_makedirs calls
       = (if os_path_exists dst (world s) then [] else [EvMakedirs dst])
    /\ (forallb (fun f => negb (IsFolder f)) files = true ->
        forallb copies_a_file calls = true)
    /\ run s' = run s
    /\ dest_dir (self s') = dest_dir (self s)
    /\ start_time (self s') = start_time (self s)
    /\ copy_times (self s') = (copy_times (self s) ++ ts)%list
    /\ files_copied_total (self s') = files_copied_total (self s) + len ts
    /\ (status = "completata" \/ status = "saltata" \/ status = "errore").
Proof.
  intros dst. unfold _process_roll, bind.
  destruct (roll_scan_summary roll roll_idx total_rolls files s)
    as (c & s1 & k & ts & H1 & Htr & Hmk & Hcp & Hrun & Hdd & Hst & Hct
        & Htot & Hfc).
  rewrite H1.
  destruct (roll_status_quiet roll roll_idx total_rolls (len files) c s1)
    as (status & s2 & H2 & Qtr & Qrun & Qself & _ & Hstatus).
  rewrite H2. exists status, s2, k, ts. split; [reflexivity |].
  rewrite Qtr, Qrun, Qself. auto 12.
Qed.

End RollSummary.

Section Emits.
Context {W : Type} {E : Environment W}.
Variable p : event -> bool.

Lemma emits_same {A} (m : M W A) :
  (forall s, trace (snd (m s)) = trace s) -> emits p m.
Proof. intros H s. exists []. rewrite H, app_nil_r. auto. Qed.

Lemma emits_ret {A} (a : A) : emits (W:=W) p (ret a).
Proof. apply emits_same. reflexivity. Qed.

Lemma emits_raise {A} e : emits p (@raise W A e).
Proof. apply emits_same. reflexivity. Qed.

Lemma emits_lift {A} (r : result A) : emits (W:=W) p (lift r).
Proof. apply emits_same. reflexivity. Qed.

Lemma emits_log msg : emits (W:=W) p (log msg).
Proof. apply emits_same. reflexivity. Qed.

Lemma emits_print msg : emits (W:=W) p (print msg).
Proof. apply emits_same. reflexivity. Qed.

Lemma emits_now : emits (W:=W) p now.
Proof. apply emits_same. reflexivity. Qed.

Lemma emits_get_self : emits (W:=W) p get_self.
Proof. apply emits_same. reflexivity. Qed.

Lemma emits_put_self c : emits (W:=W) p (put_self c).
Proof. apply emits_same. reflexivity. Qed.

Lemma emits_get_run : emits (W:=W) p get_run.
Proof. apply emits_same. reflexivity. Qed.

Lemma emits_put_run r : emits (W:=W) p (put_run r).
Proof. apply emits_same. reflexivity. Qed.

Lemma emits_call {A} ev (op : W -> result A * W) :
  p ev = true -> emits p (call ev op).
Proof.
  intros Hp s. exists [ev]. unfold call.
  destruct (op (world s)) as [r w]. cbn. rewrite Hp. auto.
Qed.

Lemma emits_bind {A B} (m : M W A) (k : A -> M W B) :
  emits p m -> (forall a, emits p (k a)) -> emits p (bind m k).
Proof.
  intros Hm Hk s. unfold bind. destruct (Hm s) as (c1 & T1 & F1).
  destruct (m s) as [[a | e] s1]; cbn [snd] in *.
  - destruct (Hk a s1) as (c2 & T2 & F2). exists (c1 ++ c2)%list.
    rewrite T2, T1, <- app_assoc, forallb_app, F1, F2. auto.
  - exists c1. auto.
Qed.

Lemma emits_try {A} (m : M W A) (h : exn -> M W A) :
  emits p m -> (forall e, emits p (h e)) -> emits p (try_except m h).
Proof.
  intros Hm Hh s. unfold try_except. destruct (Hm s) as (c1 & T1 & F1).
  destruct (m s) as [[a | e] s1]; cbn [snd] in *.
  - exists c1. auto.
  - destruct (Hh e s1) as (c2 & T2 & F2). exists (c1 ++ c2)%list.
    rewrite T2, T1, <- app_assoc, forallb_app, F1, F2. auto.
Qed.

Lemma emits_Items obj :
  (forall f, p (EvItems f) = true) -> emits p (Items obj).
Proof.
  intros Hp. destruct obj as [f |]; cbn [Items].
  - apply emits_call. apply Hp.
  - apply emits_raise.
Qed.

End Emits.

Ltac emit :=
  repeat
    lazymatch goal with
    | |- emits _ (ret _) => apply emits_ret
    | |- emits _ (raise _) => apply emits_raise
    | |- emits _ (lift _) => apply emits_lift
    | |- emits _ (log _) => apply emits_log
    | |- emits _ (print _) => apply emits_print
    | |- emits _ now => apply emits_now
    | |- emits _ get_self => apply emits_get_self
    | |- emits _ (put_self _) => apply emits_put_self
    | |- emits _ get_run => apply emits_get_run
    | |- emits _ (put_run _) => apply emits_put_run
    | |- emits _ (bind _ _) => apply emits_bind; [| intros ?]
    | |- emits _ (try_except _ _) => apply emits_try; [| intros ?]
    | |- emits _ (if ?b then _ else _) => destruct b
    | |- emits _ (match ?x with Some _ => _ | None => _ end) => destruct x
    end.

Section RunCalls.
Context {W : Type} {E : Environment W}.

Lemma bind_ok {A B} (m : M W A) (k : A -> M W B) s a s1 :
  m s = (Ok a, s1) -> bind m k s = k a s1.
Proof. intros H. unfold bind. rewrite H. reflexivity. Qed.

Lemma emits_find_iphone : emits copies_a_file _find_iphone.
Proof.
  unfold _find_iphone. emit.
  - apply emits_call. reflexivity.
  - apply emits_Items. reflexivity.
Qed.

Lemma emits_find_folder parent name :
  emits copies_a_file (_find_folder parent name).
Proof. unfold _find_folder. emit. apply emits_Items. reflexivity. Qed.

Lemma emits_process_roll roll idx total files :
  forallb (fun f => negb (IsFolder f)) files = true ->
  emits copies_a_file (_process_roll roll idx total files).
Proof.
  intros Hfiles s.
  destruct (process_roll_summary roll idx total files s)
    as (status & s' & calls & ts & H & Htr & _ & Hcp & _).
  exists calls. rewrite H. cbn [snd]. auto.
Qed.

Lemma files_are_no_folders (items : list Item) :
  forallb (fun f => negb (IsFolder f))
    (filter (fun f => negb (IsFolder f)) items) = true.
Proof.
  apply forallb_forall. intros f Hf. apply filter_In in Hf. tauto.
Qed.

Lemma emits_append_completate n :
  emits (W:=W) copies_a_file (append_completate n).
Proof. unfold append_completate. emit. Qed.

Lemma emits_append_saltate n :
  emits (W:=W) copies_a_file (append_saltate n).
Proof. unfold append_saltate. emit. Qed.

Lemma emits_append_errori n :
  emits (W:=W) copies_a_file (append_errori n).
Proof. unfold append_errori. emit. Qed.

Lemma emits_roll_body idx total roll :
  emits copies_a_file (roll_body idx total roll).
Proof.
  unfold roll_body. emit.
  - apply emits_Items. reflexivity.
  - apply emits_process_roll. apply files_are_no_folders.
  - apply emits_append_completate.
  - apply emits_append_saltate.
  - apply emits_append_errori.
Qed.

Lemma emits_rolls_loop rolls : forall idx total,
  emits copies_a_file (rolls_loop idx total rolls).
Proof.
  induction rolls as [| roll rest IH]; intros idx total; cbn [rolls_loop].
  - apply emits_ret.
  - emit.
    + apply emits_roll_body.
    + apply emits_append_errori.
    + apply IH.
Qed.

Lemma emits_final_summary total : emits copies_a_file (final_summary total).
Proof. unfold final_summary. emit. Qed.

(** X6: whatever the device and the disk answer, [copy_photos] asks the
    shell for nothing but copies of files: every [CopyHere] has the
    option 16 and an item that is no folder, and the only verbs invoked
    are copy, on such an item, and paste. *)
Theorem copy_photos_only_copies_files (s : State W) :
  exists calls,
    trace (snd (copy_photos s)) = (trace s ++ calls)%list
    /\ forallb copies_a_file calls = true.
Proof.
  revert s. change (emits copies_a_file copy_photos).
  unfold copy_photos. emit.
  - apply emits_find_iphone.
  - apply emits_find_folder.
  - apply emits_Items. reflexivity.
  - apply emits_rolls_loop.
  - apply emits_final_summary.
Qed.

End RunCalls.

Section Report.
Context {W : Type} {E : Environment W}.

Ltac proj :=
  cbn [log print snd fst self run trace world console log_txt set_run
       set_self set_world add_event res completate saltate errori
       total_files_in_rolls rolls_with_files].

Lemma turn_reports idx total_rolls roll (s : State W) :
  exists s' a b c,
    roll_turn idx total_rolls roll s = (Ok tt, s')
    /\ completate (res (run s')) = (completate (res (run s)) ++ a)%list
    /\ saltate (res (run s')) = (saltate (res (run s)) ++ b)%list
    /\ errori (res (run s')) = (errori (res (run s)) ++ c)%list
    /\ (forall x, In x a \/ In x b \/ In x c -> x = Name roll)
    /\ (In (Name roll) a \/ In (Name roll) b \/ In (Name roll) c)
    /\ (length a + length b <= 1)%nat
    /\ (length a + length b + length c <= 2)%nat
    /\ (b <> [] -> c = [])
    /\ (total_rolls <= idx -> (length a + length b + length c = 1)%nat).
Proof.
  unfold roll_turn, try_except, roll_body.
  rewrite bind_print. unfold Items. rewrite bind_call.
  cbn [print snd world].
  destruct (folder_Items (GetFolder roll) (world s)) as [[items | e] w1].
  2:{ rewrite bind_log. unfold append_errori.
      rewrite bind_get_run. unfold put_run.
      eexists _, [], [], [Name roll]. split; [reflexivity |]. proj.
      rewrite !app_nil_r. cbn [length In].
      repeat apply conj; auto; try lia; try tauto.
      intros x [[] | [[] | [<- | []]]]. reflexivity. }
  set (files := filter (fun f => negb (IsFolder f)) items).
  set (s1 := set_world w1 _).
  assert (Htally : exists s2,
             (forall B (k : unit -> M W B),
                bind (if negb (is_empty files)
                      then bind get_run (fun r =>
                             put_run
                               {| res := res r;
                                  total_files_in_rolls :=
                                    total_files_in_rolls r + len files;
                                  rolls_with_files := rolls_with_files r + 1 |})
                      else ret tt) k s1 = k tt s2)
             /\ res (run s2) = res (run s)).
  { destruct (negb (is_empty files)).
    - eexists. split; [intros; rewrite bind_assoc, bind_get_run, bind_put_run;
                       reflexivity |].
      reflexivity.
    - eexists. split; [intros; rewrite bind_ret; reflexivity | reflexivity]. }
  destruct Htally as (s2 & Hk & Hres2). rewrite Hk.
  destruct (process_roll_summary roll idx total_rolls files s2)
    as (status & s3 & calls & ts & H3 & _ & _ & _ & Hrun3 & _ & _ & _ & _
        & Hstatus).
  rewrite (bind_ok _ _ _ _ _ H3).
  assert (Hres3 : res (run s3) = res (run s)) by congruence.
  destruct Hstatus as [-> | [-> | ->]].
  - (* completata *)
    change ("completata" =? "completata")%string with true.
    change ("completata" =? "saltata")%string with false.
    cbv beta iota. unfold append_completate.
    rewrite !bind_assoc, bind_get_run, bind_put_run, bind_get_self.
    cbn [negb]. rewrite Bool.andb_true_r.
    destruct ((idx <? total_rolls)
              && (files_copied_total (self (set_run _ s3)) >? 0)) eqn:Hc.
    + rewrite bind_get_run, bind_lift.
      destruct (if rolls_with_files _ >? 0 then _ else _) as [avg | e1].
      * rewrite bind_lift.
        destruct (_calculate_eta _ _ _ _) as [eta | e2].
        -- eexists _, [Name roll], [], []. split; [reflexivity |]. proj.
           rewrite Hres3, !app_nil_r. cbn [length In].
           apply andb_prop in Hc. destruct Hc as [Hc _].
           apply Z.ltb_lt in Hc.
           repeat apply conj; auto; try lia; try tauto.
           intros x [[<- | []] | [[] | []]]. reflexivity.
        -- rewrite bind_log. unfold append_errori.
           rewrite bind_get_run. unfold put_run.
           eexists _, [Name roll], [], [Name roll].
           split; [reflexivity |]. proj.
           rewrite Hres3, !app_nil_r. cbn [length In].
           apply andb_prop in Hc. destruct Hc as [Hc _].
           apply Z.ltb_lt in Hc.
           repeat apply conj; auto; try lia; try tauto.
           intros x [[<- | []] | [[] | [<- | []]]]; reflexivity.
      * rewrite bind_log. unfold append_errori.
        rewrite bind_get_run. unfold put_run.
        eexists _, [Name roll], [], [Name roll].
        split; [reflexivity |]. proj.
        rewrite Hres3, !app_nil_r. cbn [length In].
        apply andb_prop in Hc. destruct Hc as [Hc _].
        apply Z.ltb_lt in Hc.
        repeat apply conj; auto; try lia; try tauto.
        intros x [[<- | []] | [[] | [<- | []]]]; reflexivity.
    + eexists _, [Name roll], [], []. split; [reflexivity |]. proj.
      rewrite Hres3, !app_nil_r. cbn [length In].
      repeat apply conj; auto; try lia; try tauto.
      intros x [[<- | []] | [[] | []]]. reflexivity.
  - (* saltata *)
    change ("saltata" =? "completata")%string with false.
    change ("saltata" =? "saltata")%string with true.
    cbv beta iota. unfold append_saltate.
    rewrite !bind_assoc, bind_get_run, bind_put_run, bind_get_self.
    cbn [negb]. rewrite Bool.andb_false_r.
    eexists _, [], [Name roll], []. split; [reflexivity |]. proj.
    rewrite Hres3, !app_nil_r. cbn [length In].
    repeat apply conj; auto; try lia; try tauto.
    intros x [[] | [[<- | []] | []]]. reflexivity.
  - (* errore *)
    change ("errore" =? "completata")%string with false.
    change ("errore" =? "saltata")%string with false.
    change ("errore" =? "errore")%string with true.
    cbv beta iota. unfold append_errori.
    rewrite !bind_assoc, bind_get_run, bind_put_run, bind_get_self.
    cbn [negb]. rewrite Bool.andb_true_r.
    destruct ((idx <? total_rolls)
              && (files_copied_total (self (set_run _ s3)) >? 0)) eqn:Hc.
    + rewrite bind_get_run, bind_lift.
      destruct (if rolls_with_files _ >? 0 then _ else _) as [avg | e1].
      * rewrite bind_lift.
        destruct (_calculate_eta _ _ _ _) as [eta | e2].
        -- eexists _, [], [], [Name roll]. split; [reflexivity |]. proj.
           rewrite Hres3, !app_nil_r. cbn [length In].
           repeat apply conj; auto; try lia; try tauto.
           intros x [[] | [[] | [<- | []]]]. reflexivity.
        -- rewrite bind_log, bind_get_run. unfold put_run.
           eexists _, [], [], [Name roll; Name roll].
           split; [reflexivity |]. proj.
           rewrite Hres3, !app_nil_r, <- app_assoc. cbn [length In app].
           apply andb_prop in Hc. destruct Hc as [Hc _].
           apply Z.ltb_lt in Hc.
           repeat apply conj; auto; try lia; try tauto.
           intros x [[] | [[] | [<- | [<- | []]]]]; reflexivity.
      * rewrite bind_log, bind_get_run. unfold put_run.
        eexists _, [], [], [Name roll; Name roll].
        split; [reflexivity |]. proj.
        rewrite Hres3, !app_nil_r, <- app_assoc. cbn [length In app].
        apply andb_prop in Hc. destruct Hc as [Hc _].
        apply Z.ltb_lt in Hc.
        repeat apply conj; auto; try lia; try tauto.
        intros x [[] | [[] | [<- | [<- | []]]]]; reflexivity.
    + eexists _, [], [], [Name roll]. split; [reflexivity |]. proj.
      rewrite Hres3, !app_nil_r. cbn [length In].
      repeat apply conj; auto; try lia; try tauto.
      intros x [[] | [[] | [<- | []]]]. reflexivity.
Qed.

End Report.

Section Loop.
Context {W : Type} {E : Environment W}.

Lemma rolls_loop_cons idx total_rolls roll rest (s : State W) :
  rolls_loop idx total_rolls (roll :: rest) s
  = bind (roll_turn idx total_rolls roll)
      (fun _ => rolls_loop (idx + 1) total_rolls rest) s.
Proof. reflexivity. Qed.

(** What the loop of [copy_photos] adds to the three lists. *)
Lemma rolls_loop_summary (rolls : list Item) : forall idx total_rolls
    (s : State W),
  exists s' a b c,
    rolls_loop idx total_rolls rolls s = (Ok tt, s')
    /\ completate (res (run s')) = (completate (res (run s)) ++ a)%list
    /\ saltate (res (run s')) = (saltate (res (run s)) ++ b)%list
    /\ errori (res (run s')) = (errori (res (run s)) ++ c)%list
    /\ (forall roll, In roll rolls -> In (Name roll) (a ++ b ++ c))
    /\ (forall x, In x (a ++ b ++ c) ->
        exists roll, In roll rolls /\ x = Name roll)
    /\ (length a + length b <= length rolls)%nat
    /\ (length rolls <= length (a ++ b ++ c) <= 2 * length rolls)%nat.
Proof.
  induction rolls as [| roll rest IH]; intros idx total_rolls s.
  - exists s, [], [], []. cbn [rolls_loop ret]. rewrite !app_nil_r.
    cbn [app In length]. repeat apply conj; auto; try lia; try tauto.
  - rewrite rolls_loop_cons.
    destruct (turn_reports idx total_rolls roll s)
      as (s1 & a1 & b1 & c1 & H1 & Ha1 & Hb1 & Hc1 & Hname1 & Hin1 & Hab1
          & Hlen1 & _).
    rewrite (bind_ok _ _ _ _ _ H1).
    destruct (IH (idx + 1) total_rolls s1)
      as (s2 & a2 & b2 & c2 & H2 & Ha2 & Hb2 & Hc2 & Hin2 & Hname2 & Hab2
          & Hlen2).
    exists s2, (a1 ++ a2)%list, (b1 ++ b2)%list, (c1 ++ c2)%list.
    split; [exact H2 |].
    rewrite Ha2, Ha1, Hb2, Hb1, Hc2, Hc1, <- !app_assoc.
    split; [reflexivity |]. split; [reflexivity |]. split; [reflexivity |].
    assert (Hlen1' : (1 <= length a1 + length b1 + length c1)%nat).
    { destruct Hin1 as [Hx | [Hx | Hx]];
        [destruct a1 | destruct b1 | destruct c1];
        cbn [In length] in *; try tauto; lia. }
    rewrite !length_app in *. cbn [length].
    repeat apply conj; try lia.
    + intros r [<- | Hr].
      * rewrite !in_app_iff. tauto.
      * specialize (Hin2 r Hr). rewrite !in_app_iff in *. tauto.
    + intros x Hx. rewrite !in_app_iff in Hx.
      assert (Hcase : (In x a1 \/ In x b1 \/ In x c1)
                      \/ In x (a2 ++ b2 ++ c2)).
      { rewrite !in_app_iff. tauto. }
      destruct Hcase as [Hx1 | Hx2].
      * exists roll. split; [left; reflexivity | apply Hname1; exact Hx1].
      * destruct (Hname2 x Hx2) as (r & Hr & ->).
        exists r. split; [right; exact Hr | reflexivity].
Qed.

End Loop.

Section Accounts.
Context {W : Type} {E : Environment W}.

(** X9: over one roll the running total of the object and the roll's own
    counter agree: [files_copied_total] grows by the number of files the
    roll counts as copied, and as many copy times are recorded. *)
Theorem roll_total_follows_counter roll roll_idx total_rolls files
    (s : State W) :
  exists c s' ts,
    roll_scan roll roll_idx total_rolls files s = (Ok c, s')
    /\ files_copied_total (self s')
       = files_copied_total (self s) + files_copied c
    /\ copy_times (self s') = (copy_times (self s) ++ ts)%list
    /\ len ts = files_copied c.
Proof.
  destruct (roll_scan_summary roll roll_idx total_rolls files s)
    as (c & s' & calls & ts & H & _ & _ & _ & _ & _ & _ & Hct & Htot & Hfc).
  exists c, s', ts. repeat apply conj; auto; lia.
Qed.

(** X10: [_process_roll] makes the destination folder of the roll when it is
    absent, once, and makes no other folder; when the folder exists it
    makes none. *)
Theorem roll_folder_made_once roll roll_idx total_rolls files (s : State W) :
  let dst := os_path_join (dest_dir (self s)) (Name roll) in
  exists status s' calls,
    _process_roll roll roll_idx total_rolls files s = (Ok status, s')
    /\ trace s' = (trace s ++ calls)%list
    /\ filter is_makedirs calls
       = if os_path_exists dst (world s) then [] else [EvMakedirs dst].
Proof.
  intros dst.
  destruct (process_roll_summary roll roll_idx total_rolls files s)
    as (status & s' & calls & ts & H & Htr & Hmk & _).
  exists status, s', calls. auto.
Qed.

Ltac run_copy :=
  repeat (cbn [world self trace set_world set_self add_event fst snd];
          match goal with
          | |- context [match ?x with Some _ => _ | None => _ end] =>
              is_var x; destruct x
          | |- context [match ?op ?w with (_, _) => _ end] =>
              match type of w with W => destruct (op w) as [[? | ?] ?] end
          | |- context [if os_path_exists ?p ?w then _ else _] =>
              destruct (os_path_exists p w) eqn:?
          end).


Lemma float_of_int_small (n : Z) :
  0 <= n < 2 ^ 53 ->
  exists x, float_of_int n = Ok x /\ is_finite x = true.
Proof.
  intros Hn. unfold float_of_int, of_Z.
  destruct (binary_normalize_exact n 0 false Hn ltac:(lia)) as (Hf & _).
  destruct (binary_normalize prec emax n 0 false) as [sg | sg | | sg m e];
    try discriminate Hf; eauto.
Qed.

(** X12: the statistics of [copy_photos] divide the files copied by the
    time elapsed: when at least one file was copied and the clock reads at
    the end what it read at the start, the division raises
    [ZeroDivisionError]; no summary is printed or logged and no result is
    returned. *)
Theorem summary_fails_on_zero_elapsed (total_rolls : Z) (s : State W) t0 :
  start_time (self s) = Some t0 ->
  0 < files_copied_total (self s) < 2 ^ 53 ->
  is_zero (fsub (time_time (world s)) t0) = true ->
  exists msg s',
    final_summary total_rolls s = (Raise (ZeroDivisionError msg), s')
    /\ console s' = console s /\ log_txt s' = log_txt s.
Proof.
  intros Hstart Hn Hz. unfold final_summary.
  rewrite bind_now, bind_get_self, Hstart, bind_ret, bind_get_run,
    bind_put_run.
  cbn [self set_run].
  destruct (Z.gtb_spec (files_copied_total (self s)) 0) as [_ | Hle];
    [| lia].
  destruct (float_of_int_small (files_copied_total (self s)) ltac:(lia))
    as (x & Hx & _).
  rewrite !bind_assoc, bind_lift, Hx, bind_assoc, bind_lift.
  unfold truediv. rewrite Hz.
  eexists _, _. split; [reflexivity |]. split; reflexivity.
Qed.

End Accounts.

(** X13: [_format_time] has no rendering for a duration that is not finite:
    on NaN and on the infinities it raises. *)
Theorem format_time_rejects_non_finite (seconds : float) :
  is_finite seconds = false ->
  exists msg,
    _format_time seconds = Raise (ValueError msg)
    \/ _format_time seconds = Raise (OverflowError msg).
Proof.
  intros Hf. destruct seconds as [sg | sg | | sg m e]; try discriminate Hf.
  - destruct sg; eexists; [right | left]; vm_compute; reflexivity.
  - eexists; left; vm_compute; reflexivity.
Qed.

Section Result.
Context {W : Type} {E : Environment W}.

Lemma final_summary_keeps_lists total_rolls (s : State W) r s' :
  final_summary total_rolls s = (Ok r, s') ->
  completate r = completate (res (run s))
  /\ saltate r = saltate (res (run s))
  /\ errori r = errori (res (run s))
  /\ file_copiati r = files_copied_total (self s)
  /\ self s' = self s.
Proof.
  unfold final_summary.
  rewrite bind_now, bind_get_self.
  destruct (start_time (self s)) as [t0 |];
    [rewrite bind_ret | rewrite bind_raise; discriminate].
  rewrite bind_get_run, bind_put_run.
  destruct (files_copied_total (self s) >? 0).
  - rewrite !bind_assoc, bind_lift.
    destruct (float_of_int _) as [n | e]; [| discriminate].
    rewrite bind_assoc, bind_lift.
    destruct (truediv _ _) as [q | e]; [| discriminate].
    mstep. rewrite bind_lift.
    destruct (_format_time _) as [t | e]; [| discriminate].
    mstep. intros Hr. injection Hr as <- <-.
    cbn. auto.
  - mstep. rewrite bind_lift.
    destruct (_format_time _) as [t | e]; [| discriminate].
    mstep. intros Hr. injection Hr as <- <-.
    cbn. auto.
Qed.

(** X14: when the device and its storage are found and [copy_photos]
    returns, its result names the folders of the storage and nothing
    else: a name is in one of the three lists exactly when it is the name
    of a folder of the listing; and the result carries the running total
    of the object as [file_copiati]. *)
Theorem result_names_the_folders (s : State W) iphone s1 internal s2 items w3
    r s' :
  _find_iphone (started s) = (Ok (Some iphone), s1) ->
  _find_folder iphone "Internal Storage" s1 = (Ok (Some internal), s2) ->
  folder_Items (GetFolder internal) (world s2) = (Ok items, w3) ->
  copy_photos s = (Ok r, s') ->
  (forall x,
     In x (reported r) <->
     exists roll, In roll items /\ IsFolder roll = true /\ x = Name roll)
  /\ file_copiati r = files_copied_total (self s').
Proof.
  intros Hi Hf Hl. unfold copy_photos.
  rewrite bind_now, bind_get_self, bind_put_self.
  change (set_self _ s) with (started s).
  rewrite (bind_ok _ _ _ _ _ Hi), (bind_ok _ _ _ _ _ Hf).
  unfold Items. rewrite bind_call, Hl.
  rewrite bind_log, bind_put_run.
  set (rolls := sorted_by_name (filter IsFolder items)).
  set (s3 := set_run _ _).
  destruct (rolls_loop_summary rolls 1 (len rolls) s3)
    as (s4 & a & b & c & Hloop & Ha & Hb & Hc & Hin & Hname & _).
  rewrite (bind_ok _ _ _ _ _ Hloop).
  intros Hfin.
  destruct (final_summary_keeps_lists _ _ _ _ Hfin)
    as (Fa & Fb & Fc & Fn & Fself).
  split; [| congruence].
  assert (Hrep : reported r = (a ++ b ++ c)%list).
  { unfold reported. rewrite Fa, Fb, Fc, Ha, Hb, Hc. reflexivity. }
  rewrite Hrep. intros x. split.
  - intros Hx. destruct (Hname x Hx) as (roll & Hr & ->).
    exists roll. unfold rolls in Hr.
    apply (Permutation_in _ (Permutation_sym (sorted_by_name_perm _))) in Hr.
    apply filter_In in Hr. tauto.
  - intros (roll & Hr & Hfolder & ->). apply Hin. unfold rolls.
    apply (Permutation_in _ (sorted_by_name_perm _)).
    apply filter_In. tauto.
Qed.

End Result.

Section Order.
Context {W : Type} {E : Environment W}.
Variable p : event -> bool.
Hypothesis p_plain : forall ev, is_plain ev = true -> p ev = true.

Lemma emits_exists d : emits p (exists_ d).
Proof.
  intros s. exists [EvExists d]. cbn. rewrite p_plain by reflexivity. auto.
Qed.

Lemma emits_act ev (op : W -> W) : p ev = true -> emits p (act ev op).
Proof. intros Hp s. exists [ev]. cbn. rewrite Hp. auto. Qed.

End Order.

Section UpToDate.
Context {W : Type} {E : Environment W}.

Lemma forallb_looks_checks dst (files : list Item) :
  forallb only_looks
    (map (fun f => EvExists (os_path_join dst (Name f))) files) = true.
Proof. induction files as [| f rest IH]; [reflexivity | exact IH]. Qed.

Lemma turn_up_to_date idx total_rolls roll (s : State W) :
  up_to_date roll s ->
  exists s' calls,
    roll_turn idx total_rolls roll s = (Ok tt, s')
    /\ world s' = world s /\ self s' = self s
    /\ completate (res (run s')) = completate (res (run s))
    /\ saltate (res (run s')) = (saltate (res (run s)) ++ [Name roll])%list
    /\ errori (res (run s')) = errori (res (run s))
    /\ trace s' = (trace s ++ calls)%list
    /\ forallb only_looks calls = true.
Proof.
  intros (items & Hl & Hdst & Hfiles).
  unfold roll_turn, try_except, roll_body.
  rewrite bind_print. unfold Items. rewrite bind_call.
  cbn [print snd world]. rewrite Hl.
  set (files := filter (fun f => negb (IsFolder f)) items).
  set (s1 := set_world (world s) _).
  assert (Htally : exists s2,
             (forall B (k : unit -> M W B),
                bind (if negb (is_empty files)
                      then bind get_run (fun r =>
                             put_run
                               {| res := res r;
                                  total_files_in_rolls :=
                                    total_files_in_rolls r + len files;
                                  rolls_with_files := rolls_with_files r + 1 |})
                      else ret tt) k s1 = k tt s2)
             /\ res (run s2) = res (run s) /\ world s2 = world s
             /\ self s2 = self s
             /\ trace s2 = (trace s ++ [EvItems (GetFolder roll)])%list).
  { destruct (negb (is_empty files)).
    - eexists. split; [intros; rewrite bind_assoc, bind_get_run, bind_put_run;
                       reflexivity |].
      auto.
    - eexists. split; [intros; rewrite bind_ret; reflexivity |]. auto. }
  destruct Htally as (s2 & Hk & Hres2 & Hw2 & Hself2 & Htr2). rewrite Hk.
  (* the roll: one check of its folder, one of each file *)
  set (dst := os_path_join (dest_dir (self s)) (Name roll)) in *.
  assert (Hroll : exists s3,
             _process_roll roll idx total_rolls files s2 = (Ok "saltata", s3)
             /\ world s3 = world s /\ self s3 = self s
             /\ run s3 = run s2
             /\ trace s3
                = (trace s2
                   ++ EvExists dst
                      :: map (fun f => EvExists (os_path_join dst (Name f)))
                             files)%list).
  { unfold _process_roll, roll_scan.
    rewrite bind_assoc, bind_get_self. cbv beta.
    rewrite bind_assoc, bind_exists, Hself2, Hw2.
    fold dst. rewrite Hdst. cbn [negb]. rewrite !bind_assoc, bind_log.
    match goal with
    | |- context [bind (process_files ?r ?d ?n ?i ?fs ?c) _ ?st] =>
        destruct (populated_pass_skips r d n fs i c st)
          as (s3 & H3 & Hw3 & Hself3 & Htr3);
        [| destruct (process_files_summary r d n fs i c st)
             as (c' & s3' & k' & ts & H3' & _ & _ & _ & Hrun3 & _)]
    end.
    { intros f Hf. cbn [log snd world add_event]. rewrite Hw2.
      apply filter_In in Hf. destruct Hf as [Hin Hnf].
      apply Hfiles; [exact Hin |].
      destruct (IsFolder f); [discriminate | reflexivity]. }
    rewrite H3 in H3'. injection H3' as <- <-.
    rewrite (bind_ok _ _ _ _ _ H3). unfold roll_status.
    cbn [files_copied files_skipped files_failed].
    rewrite Z.add_0_l, !Z.eqb_refl. cbn [Z.gtb Z.compare andb].
    rewrite bind_log. eexists. split; [reflexivity |].
    cbn [log snd world self run trace add_event] in *.
    rewrite Hw3, Hself3, Hrun3, Htr3, <- app_assoc.
    auto. }
  destruct Hroll as (s3 & H3 & Hw3 & Hself3 & Hrun3 & Htr3).
  rewrite (bind_ok _ _ _ _ _ H3).
  change ("saltata" =? "completata")%string with false.
  change ("saltata" =? "saltata")%string with true.
  cbv beta iota. unfold append_saltate.
  rewrite !bind_assoc, bind_get_run, bind_put_run, bind_get_self.
  cbn [negb]. rewrite Bool.andb_false_r.
  eexists _, (EvItems (GetFolder roll) :: EvExists dst
              :: map (fun f => EvExists (os_path_join dst (Name f))) files).
  split; [reflexivity |].
  cbn [ret snd fst world self run trace set_run res completate saltate errori].
  rewrite Hrun3, Hres2, Htr3, Htr2, <- app_assoc.
  cbn [app forallb only_looks andb]. rewrite forallb_looks_checks.
  auto 10.
Qed.


End UpToDate.

(* ================================================================== *)
(** * The destination folder *)

Section Destination.
Context {W : Type} {E : Environment W} {H : Host W}.

Ltac hproj :=
  cbn [hworld hconsole hlog hcalls fst snd].

Ltac quiet_or_not :=
  split; intros; first [reflexivity | discriminate | congruence].

(** What [_get_destination_folder] does, by what [config.json] holds. *)
Lemma destination_cases (desktop : string) (b : Boot W) :
  let config_path :=
    os_path_join (os_path_dirname script_file) "config.json" in
  let fallback := os_path_join desktop "photo_iphone" in
  let loaded := load_json config_path (hworld b) in
  match loaded with
  | Failed (FileNotFoundError _) =>
      exists r w,
        dump_json config_path default_config (hworld b) = (r, w)
        /\ _get_destination_folder desktop b
           = (match r with Done _ => Done fallback | Failed e => Failed e end,
              {| hworld := w; hconsole := hconsole b; hlog := hlog b;
                 hcalls := hcalls b ++ [HvLoad config_path;
                                        HvDump config_path default_config] |})
  | _ =>
      exists lines,
        _get_destination_folder desktop b
        = (Done (match custom_choice (hworld b) loaded with
                 | Some p => p
                 | None => fallback
                 end),
           {| hworld := hworld b; hconsole := hconsole b ++ lines;
              hlog := hlog b; hcalls := hcalls b ++ [HvLoad config_path] |})
        /\ (forall p, custom_choice (hworld b) loaded = Some p -> lines = [])
        /\ (forall items,
              loaded = Done (JDict items) ->
              truthy (dict_get items "use_desktop" (JBool true)) = true ->
              lines = [])
  end.
Proof.
  intros config_path fallback loaded.
  unfold _get_destination_folder, btry, read_config, bbind, load, host_call,
    blift, bexists.
  fold config_path. fold loaded. hproj.
  destruct loaded as [config | e] eqn:Hload.
  - assert (Hnot : forall lines,
               (Done fallback,
                {| hworld := hworld b; hconsole := hconsole b ++ lines;
                   hlog := hlog b; hcalls := hcalls b ++ [HvLoad config_path] |})
               = (Done fallback,
                  {| hworld := hworld b; hconsole := hconsole b ++ lines;
                     hlog := hlog b;
                     hcalls := hcalls b ++ [HvLoad config_path] |}))
      by reflexivity.
    destruct config as [| bb | n | x | str | l | items];
      try (eexists [_]; split; [reflexivity |];
           quiet_or_not).
    cbn [py_get custom_choice].
    destruct (truthy (dict_get items "use_desktop" (JBool true))) eqn:Hud.
    + exists []. rewrite app_nil_r. split; [reflexivity |].
      quiet_or_not.
    + hproj.
      destruct (dict_get items "custom_path" (JStr "")) as
        [| bb | n | x | p | l | items'] eqn:Hcp; cbn [truthy py_str].
      all: try (match goal with
                | |- context [if ?c then _ else _] => destruct c eqn:?
                end).
      all: unfold braise, bret, hprint; hproj.
      all: try (eexists [_; _]; rewrite <- ?app_assoc;
                split; [reflexivity |]; quiet_or_not).
      all: try (eexists [_]; rewrite <- ?app_assoc;
                split; [reflexivity |]; quiet_or_not).
      * (* a string *)
        cbn [negb andb].
        destruct (os_path_exists (os_path_dirname p) (hworld b)).
        -- exists []. rewrite app_nil_r. split; [reflexivity |].
           quiet_or_not.
        -- eexists [_; _]. rewrite <- ?app_assoc.
           split; [reflexivity |]. quiet_or_not.
  - destruct e as [key | msg | msg | e'];
      try (eexists [_]; split; [reflexivity |]; quiet_or_not).
    hproj.
    destruct (dump_json config_path default_config (hworld b)) as [r w].
    exists r, w. split; [reflexivity |].
    rewrite <- app_assoc. destruct r as [[] | e2]; reflexivity.
Qed.

End Destination.

Section Choice.
Context {W : Type} {E : Environment W} {H : Host W}.

Lemma custom_choice_some (w : W) (config : outcome json) (p : string) :
  custom_choice w config = Some p <->
  exists items,
    config = Done (JDict items)
    /\ truthy (dict_get items "use_desktop" (JBool true)) = false
    /\ dict_get items "custom_path" (JStr "") = JStr p
    /\ p <> ""
    /\ os_path_exists (os_path_dirname p) w = true.
Proof.
  unfold custom_choice. split.
  - destruct config as [[| bb | n | x | str | l | items] | e]; try discriminate.
    destruct (truthy _) eqn:Hud; [discriminate |].
    destruct (dict_get items "custom_path" (JStr ""))
      as [| bb | n | x | q | l | items'] eqn:Hcp; try discriminate.
    destruct (String.eqb_spec q "") as [-> | Hne]; cbn [negb andb];
      [discriminate |].
    destruct (os_path_exists _ w) eqn:Hex; [| discriminate].
    intros Hq. injection Hq as <-. exists items. auto.
  - intros (items & -> & Hud & Hcp & Hne & Hex).
    rewrite Hud, Hcp, Hex.
    destruct (String.eqb_spec p "") as [-> | _]; [congruence | reflexivity].
Qed.

(** X17: [_get_destination_folder] returns a folder other than
    [photo_iphone] on the desktop only when [config.json] holds a [dict]
    whose [use_desktop] is false and whose [custom_path] is that folder, a
    string not empty whose parent folder exists. *)
Theorem custom_folder_only_when_valid (desktop : string) (b : Boot W) p b' :
  _get_destination_folder desktop b = (Done p, b') ->
  p <> os_path_join desktop "photo_iphone" ->
  exists items,
    load_json (os_path_join (os_path_dirname script_file) "config.json")
              (hworld b)
    = Done (JDict items)
    /\ truthy (dict_get items "use_desktop" (JBool true)) = false
    /\ dict_get items "custom_path" (JStr "") = JStr p
    /\ p <> ""
    /\ os_path_exists (os_path_dirname p) (hworld b) = true.
Proof.
  intros Hrun Hp.
  pose proof (destination_cases desktop b) as Hc. cbv zeta in Hc.
  set (cfg := os_path_join (os_path_dirname script_file) "config.json") in *.
  assert (Hgen :
    forall lines,
      _get_destination_folder desktop b
      = (Done match custom_choice (hworld b) (load_json cfg (hworld b)) with
              | Some p0 => p0
              | None => os_path_join desktop "photo_iphone"
              end,
         {| hworld := hworld b; hconsole := hconsole b ++ lines;
            hlog := hlog b; hcalls := hcalls b ++ [HvLoad cfg] |}) ->
      custom_choice (hworld b) (load_json cfg (hworld b)) = Some p).
  { intros lines Hl. rewrite Hrun in Hl. injection Hl as Hl _.
    destruct (custom_choice _ _) as [p0 |]; congruence. }
  apply custom_choice_some.
  destruct (load_json cfg (hworld b)) as [config | [key | msg | msg | e]].
  1, 2, 4, 5: destruct Hc as (lines & Hl & _); exact (Hgen lines Hl).
  destruct Hc as (r & w & _ & Hl). rewrite Hrun in Hl.
  destruct r; injection Hl as Hl _; congruence.
Qed.

(** X18: a [config.json] that holds a [dict] whose [use_desktop] is false
    and whose [custom_path] is a string, not empty, with a parent folder
    that exists, is followed: [custom_path] is returned, nothing is
    printed and nothing is written. *)
Theorem valid_custom_folder_is_taken (desktop : string) (b : Boot W) items p :
  load_json (os_path_join (os_path_dirname script_file) "config.json")
            (hworld b)
  = Done (JDict items) ->
  truthy (dict_get items "use_desktop" (JBool true)) = false ->
  dict_get items "custom_path" (JStr "") = JStr p ->
  p <> "" ->
  os_path_exists (os_path_dirname p) (hworld b) = true ->
  exists b',
    _get_destination_folder desktop b = (Done p, b')
    /\ hworld b' = hworld b /\ hconsole b' = hconsole b
    /\ hcalls b'
       = (hcalls b
          ++ [HvLoad (os_path_join (os_path_dirname script_file)
                                   "config.json")])%list.
Proof.
  intros Hload Hud Hcp Hne Hex.
  pose proof (destination_cases desktop b) as Hc. cbv zeta in Hc.
  assert (Hch : custom_choice (hworld b) (Done (JDict items)) = Some p).
  { apply custom_choice_some. exists items. auto. }
  rewrite Hload in Hc. destruct Hc as (lines & Hl & Hquiet & _).
  rewrite Hch in Hl. rewrite (Hquiet p Hch), app_nil_r in Hl.
  eexists. split; [exact Hl |]. auto.
Qed.

(** X19: [_get_destination_folder] writes [config.json] only when reading
    it raised [FileNotFoundError], and what it writes then is the default
    configuration: the reading and that one writing are all it asks of the
    machine.  In every other case, whatever the file holds and whatever
    else the reading raised, the reading is all it asks and the machine is
    left as it was. *)
Theorem only_a_missing_config_is_written (desktop : string) (b : Boot W) :
  let config_path :=
    os_path_join (os_path_dirname script_file) "config.json" in
  let r := _get_destination_folder desktop b in
  match load_json config_path (hworld b) with
  | Failed (FileNotFoundError _) =>
      hcalls (snd r)
      = (hcalls b ++ [HvLoad config_path;
                      HvDump config_path default_config])%list
      /\ hworld (snd r)
         = snd (dump_json config_path default_config (hworld b))
  | _ =>
      hcalls (snd r) = (hcalls b ++ [HvLoad config_path])%list
      /\ hworld (snd r) = hworld b
  end.
Proof.
  intros config_path r.
  pose proof (destination_cases desktop b) as Hc. cbv zeta in Hc.
  fold config_path in Hc. unfold r.
  destruct (load_json config_path (hworld b))
    as [config | [key | msg | msg | e]].
  1, 2, 4, 5: destruct Hc as (lines & -> & _); cbn [fst snd hworld hcalls];
    auto.
  destruct Hc as (o & w & Hd & ->). cbn [fst snd hcalls hworld].
  rewrite Hd. auto.
Qed.

(** X20: the configuration that [_get_destination_folder] writes when there
    is none is one it reads back as the desktop folder: on a machine that
    keeps what is written, the next call returns the same folder, prints
    nothing and writes nothing. *)
Theorem default_config_reads_back {S : StoresJson H} (desktop : string)
    (b : Boot W) msg p b1 :
  load_json (os_path_join (os_path_dirname script_file) "config.json")
            (hworld b)
  = Failed (FileNotFoundError msg) ->
  _get_destination_folder desktop b = (Done p, b1) ->
  exists b2,
    _get_destination_folder desktop b1 = (Done p, b2)
    /\ hworld b2 = hworld b1 /\ hconsole b2 = hconsole b1
    /\ hcalls b2
       = (hcalls b1
          ++ [HvLoad (os_path_join (os_path_dirname script_file)
                                   "config.json")])%list.
Proof.
  intros Hload Hrun.
  pose proof (destination_cases desktop b) as Hc. cbv zeta in Hc.
  rewrite Hload in Hc. destruct Hc as (r & w & Hd & Hl).
  rewrite Hrun in Hl. destruct r as [[] | e]; [| discriminate].
  injection Hl as -> ->.
  pose proof (dump_then_load _ _ _ _ Hd) as Hback.
  pose proof (destination_cases desktop
                {| hworld := w; hconsole := hconsole b; hlog := hlog b;
                   hcalls := hcalls b
                             ++ [HvLoad (os_path_join
                                           (os_path_dirname script_file)
                                           "config.json");
                                 HvDump (os_path_join
                                           (os_path_dirname script_file)
                                           "config.json") default_config] |})
    as Hc2.
  cbv zeta in Hc2. cbn [hworld] in Hc2. rewrite Hback in Hc2.
  destruct Hc2 as (lines & Hl2 & _ & Hquiet).
  rewrite (Hquiet _ eq_refl eq_refl), app_nil_r in Hl2.
  eexists. split; [exact Hl2 |]. auto.
Qed.

(** X21: [__init__] needs the variable [USERPROFILE] whatever its argument:
    without it the constructor raises [KeyError] at its first line, before
    it reads anything.  With it, a destination that is given and not empty
    is taken as it is ([config.json] is neither read nor written, the log
    file is [log.txt] in that folder, the statistics start at zero), an
    empty string is treated as no argument, and without an argument the
    destination is the one [_get_destination_folder] answers for the
    desktop of that profile. *)
Theorem init_sets_up_the_object (b : Boot W) :
  match os_environ "USERPROFILE" (hworld b) with
  | None =>
      forall dest_dir,
        __init__ dest_dir b = (Failed (KeyError "USERPROFILE"), b)
  | Some home =>
      (forall d,
         d <> "" ->
         __init__ (Some d) b
         = (Done {| desktop := os_path_join home "Desktop";
                    log_file := os_path_join d "log.txt";
                    has_shell := false;
                    engine := {| dest_dir := d; start_time := None;
                                 files_copied_total := 0;
                                 copy_times := [] |} |},
            b))
      /\ __init__ (Some "") b = __init__ None b
      /\ (forall o b',
            __init__ None b = (Done o, b') ->
            _get_destination_folder (os_path_join home "Desktop") b
            = (Done (dest_dir (engine o)), b')
            /\ log_file o = os_path_join (dest_dir (engine o)) "log.txt"
            /\ files_copied_total (engine o) = 0
            /\ copy_times (engine o) = []
            /\ has_shell o = false)
  end.
Proof.
  destruct (os_environ "USERPROFILE" (hworld b)) as [home |] eqn:Hh.
  - split; [| split; [reflexivity |]].
    + intros d Hd. unfold __init__, bbind, environ. rewrite Hh.
      destruct (String.eqb_spec d "") as [-> | _]; [congruence |].
      reflexivity.
    + intros o b'. unfold __init__, bbind, environ. rewrite Hh.
      destruct (_get_destination_folder _ b) as [[dest | e] b1];
        [| discriminate].
      unfold bret. intros Ho. injection Ho as <- <-.
      cbn [engine dest_dir log_file files_copied_total copy_times has_shell].
      auto.
  - intros dest_dir. unfold __init__, bbind, environ. rewrite Hh. reflexivity.
Qed.

End Choice.

Section ScriptFacts.
Context {W : Type} {E : Environment W} {H : Host W}.

(** X22: once [__enter__] has returned, the script never ends without
    [__exit__]: whatever [copy_photos] did, returned or raised, the
    clipboard is cleared after it and [CoUninitialize] is the last call
    made; and the script ends without an exception only if [copy_photos]
    returned. *)
Theorem exit_runs_after_enter (b : Boot W) o b1 c b2 :
  __init__ None b = (Done o, b1) ->
  __enter__ o b1 = (Done c, b2) ->
  let body := in_engine (engine c) copy_photos b2 in
  exists clip,
    hcalls (snd (main b))
    = (hcalls (snd body)
       ++ map HvEngine (EvOpenClipboard :: clip) ++ [HvCoUninitialize])%list
    /\ (fst (main b) = Done tt -> exists r, fst body = Done r).
Proof.
  intros Hi He body. unfold main. rewrite Hi, He. fold body.
  destruct body as [r b3]. cbn [fst snd].
  assert (Hexit : exists ru b4 clip,
             __exit__ c b3 = (ru, b4)
             /\ hcalls b4
                = (hcalls b3 ++ map HvEngine (EvOpenClipboard :: clip)
                   ++ [HvCoUninitialize])%list).
  { unfold __exit__, bbind, in_engine, host_call.
    match goal with
    | |- context [_clear_clipboard ?s] =>
        destruct (clear_clipboard_summary s)
          as (s' & calls & Hc & Htr & _ & _ & _ & _ & Hcalls)
    end.
    rewrite Hc. cbn [hworld hcalls trace world app] in *.
    assert (Hclip : exists clip, trace s' = EvOpenClipboard :: clip).
    { rewrite Htr, Hcalls.
      destruct (OpenClipboard (hworld b3)) as [[[] | e1] w1]; [| eauto].
      destruct (EmptyClipboard w1) as [[[] | e2] w2]; eauto. }
    destruct Hclip as (clip & Hclip). rewrite Hclip.
    destruct (CoUninitialize (world s')) as [ru w].
    eexists _, _, clip. split; [reflexivity |]. cbn [hcalls].
    rewrite <- app_assoc. reflexivity. }
  destruct Hexit as (ru & b4 & clip & Hexit & Hcalls).
  rewrite Hexit. exists clip.
  destruct ru as [[] | e]; cbn [fst snd].
  - split; [exact Hcalls |]. destruct r as [a | e]; [eauto | discriminate].
  - split; [exact Hcalls | discriminate].
Qed.

(** X23: when the shell object cannot be made, [__enter__] raises after
    [CoInitialize] has been called; [__exit__] is then not run: the script
    ends with that exception, with no call of [CoUninitialize] and no call
    of the engine. *)
Theorem failed_dispatch_skips_exit (b : Boot W) o b1 w1 w2 e w3 :
  __init__ None b = (Done o, b1) ->
  makedirs_exist_ok (dest_dir (engine o)) (hworld b1) = (Done tt, w1) ->
  CoInitialize w1 = (Done tt, w2) ->
  Dispatch "Shell.Application" w2 = (Failed e, w3) ->
  exists b2,
    main b = (Failed e, b2)
    /\ hcalls b2
       = (hcalls b1
          ++ [HvMakedirs (dest_dir (engine o)); HvCoInitialize;
              HvDispatch "Shell.Application"])%list.
Proof.
  intros Hi Hm Hc Hd. unfold main. rewrite Hi.
  unfold __enter__, bbind, host_call. rewrite Hm. cbn [hworld].
  rewrite Hc. cbn [hworld]. rewrite Hd.
  eexists. split; [reflexivity |]. cbn [hcalls].
  rewrite <- !app_assoc. reflexivity.
Qed.

End ScriptFacts.

(* ================================================================== *)
(** * The properties on the samples *)

Section EngineOnSamples.

Import Sim Samples.

(** The device of [desk] is found: it is the first and only item. *)
Lemma find_iphone_on_desk :
  exists r s',
    _find_iphone (start "D" desk) = (Ok r, s')
    /\ match r with
       | Some it =>
           exists pre post,
             sim_computer desk = (pre ++ it :: post)%list
             /\ looks_like_iphone it = true
             /\ forallb (fun i => negb (looks_like_iphone i)) pre = true
       | None =>
           forallb (fun i => negb (looks_like_iphone i)) (sim_computer desk)
           = true
       end.
Proof.
  apply (find_iphone_takes_first_match (start "D" desk)
           (GetFolder computer) desk (sim_computer desk) desk);
    reflexivity.
Defined.

(** The storage of the device of [desk] is found among its sub-items. *)
Lemma find_folder_on_desk :
  exists r s',
    _find_folder iphone "Internal Storage" (start "D" desk) = (Ok r, s')
    /\ match r with
       | Some sub =>
           exists pre post,
             [storage] = (pre ++ sub :: post)%list
             /\ IsFolder sub = true
             /\ str_lower (Name sub) = str_lower "Internal Storage"
             /\ forallb
                  (fun i => negb (is_folder_named "Internal Storage" i)) pre
                = true
       | None =>
           forallb (fun i => negb (is_folder_named "Internal Storage" i))
                   [storage]
           = true
       end.
Proof.
  apply (find_folder_takes_first_folder iphone "Internal Storage"
           (start "D" desk) [storage] desk).
  reflexivity.
Defined.


(** A run in which one file was copied and whose clock stands still. *)
Lemma summary_fails_on_a_still_clock :
  exists msg s',
    final_summary 1
      {| world := desk;
         self := {| dest_dir := "D"; start_time := Some (of_Z 1000);
                    files_copied_total := 1; copy_times := [of_Z 0] |};
         console := []; log_txt := [];
         run := {| res := mkCopyResult ["Roll1"] [] [];
                   total_files_in_rolls := 1; rolls_with_files := 1 |};
         trace := [] |}
    = (Raise (ZeroDivisionError msg), s')
    /\ console s' = [] /\ log_txt s' = [].
Proof.
  apply (summary_fails_on_zero_elapsed 1
           {| world := desk;
              self := {| dest_dir := "D"; start_time := Some (of_Z 1000);
                         files_copied_total := 1; copy_times := [of_Z 0] |};
              console := []; log_txt := [];
              run := {| res := mkCopyResult ["Roll1"] [] [];
                        total_files_in_rolls := 1; rolls_with_files := 1 |};
              trace := [] |}
           (of_Z 1000)).
  - reflexivity.
  - cbn [self files_copied_total]. split; [lia | reflexivity].
  - vm_compute. reflexivity.
Defined.

(** Not a number is not a duration. *)
Lemma format_time_rejects_nan :
  exists msg,
    _format_time S754_nan = Raise (ValueError msg)
    \/ _format_time S754_nan = Raise (OverflowError msg).
Proof. apply (format_time_rejects_non_finite S754_nan). reflexivity. Defined.

(** The run on [desk]: the roll [Roll1] is the one name of the result. *)
Lemma result_names_the_folders_on_desk :
  exists r s',
    copy_photos (start "D" desk) = (Ok r, s')
    /\ (forall x,
          In x (reported r) <->
          exists roll,
            In roll [roll1] /\ IsFolder roll = true /\ x = Name roll)
    /\ file_copiati r = files_copied_total (self s').
Proof.
  destruct (copy_photos (start "D" desk)) as [[r | e] s'] eqn:Hrun.
  - exists r, s'. split; [reflexivity |].
    refine (result_names_the_folders (start "D" desk) iphone _
              storage _ [roll1] desk r s' _ _ _ Hrun);
      vm_compute; reflexivity.
  - exfalso.
    assert (H : exists r, fst (copy_photos (start "D" desk)) = Ok r)
      by (eexists; vm_compute; reflexivity).
    destruct H as (r & H). rewrite Hrun in H. discriminate H.
Defined.


End EngineOnSamples.

Section ScriptOnSamples.

Import Sim Samples SimHost.

Lemma sim_stores : StoresJson SimHost.host.
Proof.
  constructor. intros path v w w'. cbn [dump_json load_json host].
  destruct (write_protected w); [discriminate |].
  intros Hd. injection Hd as <-. cbn [json_files with_json_files find fst snd].
  rewrite String.eqb_refl. reflexivity.
Qed.

(** The machine [configured] names [D/photos], and [D] is on its disk. *)
Lemma custom_folder_on_configured :
  exists items,
    load_json (os_path_join (os_path_dirname script_file) "config.json")
              (hworld (boot configured))
    = Done (JDict items)
    /\ truthy (dict_get items "use_desktop" (JBool true)) = false
    /\ dict_get items "custom_path" (JStr "") = JStr "D/photos"
    /\ "D/photos" <> ""
    /\ os_path_exists (os_path_dirname "D/photos") (hworld (boot configured))
       = true.
Proof.
  eapply (custom_folder_only_when_valid "C:/Users/anna/Desktop"
            (boot configured) "D/photos").
  - vm_compute. reflexivity.
  - vm_compute. discriminate.
Defined.

Lemma valid_custom_folder_on_configured :
  exists b',
    _get_destination_folder "C:/Users/anna/Desktop" (boot configured)
    = (Done "D/photos", b')
    /\ hworld b' = hworld (boot configured)
    /\ hconsole b' = hconsole (boot configured)
    /\ hcalls b'
       = (hcalls (boot configured)
          ++ [HvLoad (os_path_join (os_path_dirname script_file)
                                   "config.json")])%list.
Proof.
  eapply (valid_custom_folder_is_taken "C:/Users/anna/Desktop"
            (boot configured)
            [("use_desktop", JBool false); ("custom_path", JStr "D/photos")]
            "D/photos").
  - reflexivity.
  - reflexivity.
  - reflexivity.
  - discriminate.
  - reflexivity.
Defined.

(** On [fresh] the first call writes the default configuration and the
    second reads it back. *)
Lemma default_config_reads_back_on_fresh :
  exists b2,
    _get_destination_folder "C:/Users/anna/Desktop"
      (snd (_get_destination_folder "C:/Users/anna/Desktop" (boot fresh)))
    = (Done "C:/Users/anna/Desktop/photo_iphone", b2)
    /\ hworld b2
       = hworld (snd (_get_destination_folder "C:/Users/anna/Desktop"
                        (boot fresh)))
    /\ hconsole b2 = []
    /\ hcalls b2
       = (hcalls (snd (_get_destination_folder "C:/Users/anna/Desktop"
                         (boot fresh)))
          ++ [HvLoad (os_path_join (os_path_dirname script_file)
                                   "config.json")])%list.
Proof.
  eapply (default_config_reads_back (S := sim_stores)
            "C:/Users/anna/Desktop" (boot fresh)
            "No such file or directory").
  - reflexivity.
  - vm_compute. reflexivity.
Defined.

(** The script on [configured]: it ends by [CoUninitialize]. *)
Lemma exit_runs_on_configured :
  exists clip,
    hcalls (snd (main (boot configured)))
    = (hcalls (snd (in_engine
                      (engine
                         {| desktop := "C:/Users/anna/Desktop";
                            log_file := "D/photos/log.txt";
                            has_shell := true;
                            engine := Sim.copier "D/photos" |})
                      copy_photos
                      (snd (__enter__
                              {| desktop := "C:/Users/anna/Desktop";
                                 log_file := "D/photos/log.txt";
                                 has_shell := false;
                                 engine := Sim.copier "D/photos" |}
                              (snd (__init__ None (boot configured)))))))
       ++ map HvEngine (EvOpenClipboard :: clip) ++ [HvCoUninitialize])%list.
Proof.
  edestruct (exit_runs_after_enter (boot configured)) as (clip & Hc & _).
  - vm_compute. reflexivity.
  - vm_compute. reflexivity.
  - exists clip. exact Hc.
Defined.

(** The script on [no_shell]: it ends in [__enter__]. *)
Lemma failed_dispatch_on_no_shell :
  exists b2,
    main (boot no_shell) = (Failed (Other (ComError "Invalid class string")), b2)
    /\ filter is_uninitialize (hcalls b2) = []
    /\ filter is_engine_call (hcalls b2) = [].
Proof.
  edestruct (failed_dispatch_skips_exit (boot no_shell)) as (b2 & Hm & Hc).
  - vm_compute. reflexivity.
  - vm_compute. reflexivity.
  - vm_compute. reflexivity.
  - vm_compute. reflexivity.
  - exists b2. split; [exact Hm |]. rewrite Hc.
    split; vm_compute; reflexivity.
Defined.

End ScriptOnSamples.

(* ================================================================== *)
(** * The engine when a local call fails: its run *)

Section FallibleRun.
Context {W : Type} {E : Environment W} {F : Faults W}.

(** [print] by the answer of the console. *)
Lemma print_run line (s : State W) :
  Fallible.print line s
  = match print_raises line (world s) with
    | Some e => (Raise e, s)
    | None => (Ok tt, snd (print line s))
    end.
Proof. reflexivity. Qed.

(** [log] by the answers of the console and of the file. *)
Lemma log_run msg (s : State W) :
  let line := log_line msg (world s) in
  Fallible.log msg s
  = match print_raises line (world s) with
    | Some e => (Raise e, s)
    | None =>
        match append_raises (fstr [line; newline]) (world s) with
        | Some e => (Raise e, snd (print line s))
        | None => (Ok tt, snd (log msg s))
        end
    end.
Proof.
  cbv zeta. unfold Fallible.log, Fallible.print, Fallible.append_log, bind,
    log_line.
  destruct (print_raises _ _); [reflexivity |].
  cbn [world]. destruct (append_raises _ _); reflexivity.
Qed.

(** [log] changes the console and the file of the log at most. *)
Lemma log_frame msg (s : State W) :
  world (snd (Fallible.log msg s)) = world s
  /\ self (snd (Fallible.log msg s)) = self s
  /\ run (snd (Fallible.log msg s)) = run s
  /\ trace (snd (Fallible.log msg s)) = trace s.
Proof.
  rewrite log_run. cbv zeta.
  destruct (print_raises _ _); [auto |].
  destruct (append_raises _ _); auto.
Qed.

Lemma print_frame line (s : State W) :
  world (snd (Fallible.print line s)) = world s
  /\ self (snd (Fallible.print line s)) = self s
  /\ run (snd (Fallible.print line s)) = run s
  /\ trace (snd (Fallible.print line s)) = trace s.
Proof. rewrite print_run. destruct (print_raises _ _); auto. Qed.

(** What leaves [log] is what [print] or the append raised. *)
Lemma log_raises msg (s s' : State W) e :
  Fallible.log msg s = (Raise e, s') ->
  print_raises (log_line msg (world s)) (world s) = Some e
  \/ append_raises (fstr [log_line msg (world s); newline]) (world s) = Some e.
Proof.
  rewrite log_run. cbv zeta.
  destruct (print_raises _ _) as [e1 |].
  - intros H. inversion H. auto.
  - destruct (append_raises _ _) as [e2 |]; intros H; inversion H. auto.
Qed.

End FallibleRun.

(** ** When no local call fails, this engine is the one above *)

Section Reliable.
Context {W : Type} {E : Environment W} {F : Faults W}.
Hypothesis quiet : reliable F.

Lemma bind_same {A B} (m m' : M W A) (k k' : A -> M W B) :
  (forall s, m s = m' s) -> (forall a s, k a s = k' a s) ->
  forall s, bind m k s = bind m' k' s.
Proof.
  intros Hm Hk s. unfold bind. rewrite Hm.
  destruct (m' s) as [[a | e] s1]; [apply Hk | reflexivity].
Qed.

Lemma try_same {A} (m m' : M W A) (h h' : exn -> M W A) :
  (forall s, m s = m' s) -> (forall e s, h e s = h' e s) ->
  forall s, try_except m h s = try_except m' h' s.
Proof.
  intros Hm Hh s. unfold try_except. rewrite Hm.
  destruct (m' s) as [[a | e] s1]; [reflexivity | apply Hh].
Qed.

Lemma print_reliable line (s : State W) : Fallible.print line s = print line s.
Proof.
  rewrite print_run. destruct (quiet line (world s)) as (-> & _). reflexivity.
Qed.

Lemma log_reliable msg (s : State W) : Fallible.log msg s = log msg s.
Proof.
  rewrite log_run. cbv zeta.
  destruct (quiet (log_line msg (world s)) (world s)) as (-> & _).
  destruct (quiet (fstr [log_line msg (world s); newline]) (world s))
    as (_ & -> & _).
  reflexivity.
Qed.

Lemma makedirs_reliable path (s : State W) :
  Fallible.makedirs path s = act (EvMakedirs path) (os_makedirs path) s.
Proof.
  unfold Fallible.makedirs.
  destruct (quiet path (world s)) as (_ & _ & ->). reflexivity.
Qed.

Ltac same :=
  repeat first
    [ reflexivity
    | apply log_reliable | apply print_reliable | apply makedirs_reliable
    | apply bind_same; [intros ? | intros ? ?]
    | apply try_same; [intros ? | intros ? ?]
    | match goal with
      | |- (if ?b then _ else _) _ = (if ?b then _ else _) _ => destruct b
      | |- match ?x with Some _ => _ | None => _ end _
           = match ?x with Some _ => _ | None => _ end _ => destruct x
      end ].

Lemma copy_file_reliable f d (s : State W) :
  Fallible._copy_file_mtp f d s = _copy_file_mtp f d s.
Proof. unfold Fallible._copy_file_mtp, _copy_file_mtp. same. Qed.

Lemma process_file_reliable roll dst n idx f c (s : State W) :
  Fallible.process_file roll dst n idx f c s = process_file roll dst n idx f c s.
Proof.
  unfold Fallible.process_file, process_file. same.
Qed.

Lemma process_files_reliable roll dst n files : forall idx c (s : State W),
  Fallible.process_files roll dst n idx files c s
  = process_files roll dst n idx files c s.
Proof.
  induction files as [| f rest IH]; intros idx c s; [reflexivity |].
  cbn [Fallible.process_files process_files].
  apply bind_same; [apply process_file_reliable | intros; apply IH].
Qed.

Lemma roll_scan_reliable roll idx total files (s : State W) :
  Fallible.roll_scan roll idx total files s = roll_scan roll idx total files s.
Proof.
  unfold Fallible.roll_scan, roll_scan. same.
  apply process_files_reliable.
Qed.

Lemma roll_status_reliable roll idx total n c (s : State W) :
  Fallible.roll_status roll idx total n c s = roll_status roll idx total n c s.
Proof. unfold Fallible.roll_status, roll_status. same. Qed.

Lemma process_roll_reliable roll idx total files (s : State W) :
  Fallible._process_roll roll idx total files s
  = _process_roll roll idx total files s.
Proof.
  unfold Fallible._process_roll, _process_roll.
  apply bind_same; [apply roll_scan_reliable |].
  intros; apply roll_status_reliable.
Qed.

Lemma roll_body_reliable idx total roll (s : State W) :
  Fallible.roll_body idx total roll s = roll_body idx total roll s.
Proof.
  unfold Fallible.roll_body, roll_body.
  apply bind_same; [apply print_reliable | intros ? ?].
  apply bind_same; [reflexivity | intros ? ?].
  apply bind_same; [reflexivity | intros ? ?].
  apply bind_same; [apply process_roll_reliable | intros ? ?].
  same.
Qed.

Lemma rolls_loop_reliable rolls : forall idx total (s : State W),
  Fallible.rolls_loop idx total rolls s = rolls_loop idx total rolls s.
Proof.
  induction rolls as [| roll rest IH]; intros idx total s; [reflexivity |].
  cbn [Fallible.rolls_loop rolls_loop].
  apply bind_same; [| intros; apply IH].
  apply try_same; [apply roll_body_reliable |].
  intros e s'. unfold Fallible.roll_handler. same.
Qed.

Lemma final_summary_reliable total (s : State W) :
  Fallible.final_summary total s = final_summary total s.
Proof. unfold Fallible.final_summary, final_summary. same. Qed.

Lemma copy_photos_reliable (s : State W) :
  Fallible.copy_photos s = copy_photos s.
Proof.
  unfold Fallible.copy_photos, copy_photos.
  do 3 (apply bind_same; [reflexivity | intros ? ?]).
  apply bind_same; [reflexivity | intros found ?].
  destruct found as [iphone |]; [| same].
  apply bind_same; [reflexivity | intros internal ?].
  destruct internal as [internal |]; [| same].
  apply bind_same; [reflexivity | intros ? ?].
  apply bind_same; [apply log_reliable | intros ? ?].
  apply bind_same; [reflexivity | intros ? ?].
  apply bind_same; [apply rolls_loop_reliable | intros ? ?].
  apply final_summary_reliable.
Qed.

End Reliable.

(* ================================================================== *)
(** * The copy of one file, when the log can fail *)

Section CopyHandler.
Context {W : Type} {E : Environment W} {F : Faults W}.

(** The handler of [_copy_file_mtp]: it makes no call on the shell, and
    it ends in [False] or in what its [log] raised. *)
Lemma copy_handler_run e0 (s1 : State W) :
  let line := log_line (copy_error e0) (world s1) in
  let r := bind (Fallible.log (copy_error e0)) (fun _ => ret false) s1 in
  fst r = match print_raises line (world s1) with
          | Some e => Raise e
          | None =>
              match append_raises (fstr [line; newline]) (world s1) with
              | Some e => Raise e
              | None => Ok false
              end
          end
  /\ world (snd r) = world s1 /\ self (snd r) = self s1
  /\ run (snd r) = run s1 /\ trace (snd r) = trace s1.
Proof.
  cbv zeta. unfold bind. rewrite log_run. cbv zeta.
  destruct (print_raises _ _); [repeat split |].
  destruct (append_raises _ _); repeat split.
Qed.

(** The handler ends in [False], or in what its [log] raised. *)
Lemma copy_handler_ends e0 (s1 : State W) :
  let r := bind (Fallible.log (copy_error e0)) (fun _ => ret false) s1 in
  fst r = Ok false
  \/ exists e' e s0,
       fst r = Raise e' /\ Fallible.log (copy_error e) s0 = (Raise e', snd r).
Proof.
  cbv zeta. unfold bind.
  destruct (Fallible.log (copy_error e0) s1) as [[[] | e'] s2] eqn:Hlog.
  - left. reflexivity.
  - right. exists e', e0, s1. split; [reflexivity | exact Hlog].
Qed.

(** [_copy_file_mtp] by the outcome of its [try] block. *)
Lemma copy_file_by_attempt f d (s : State W) :
  Fallible._copy_file_mtp f d s
  = match copy_attempt f d (time_time (world s)) s with
    | (Ok b, s1) => (Ok b, s1)
    | (Raise e0, s1) =>
        bind (Fallible.log (copy_error e0)) (fun _ => ret false) s1
    end.
Proof. reflexivity. Qed.

(** [_copy_file_mtp] by the outcome of its primary part. *)
Lemma copy_file_by_primary f d (s : State W) :
  Fallible._copy_file_mtp f d s
  = match primary_phase f d (time_time (world s)) s with
    | (Ok (_, true), s1) => (Ok true, s1)
    | (Ok (df, false), s1) =>
        match fallback_copy df f d (time_time (world s)) s1 with
        | (Ok b, s2) => (Ok b, s2)
        | (Raise e0, s2) =>
            bind (Fallible.log (copy_error e0)) (fun _ => ret false) s2
        end
    | (Raise e0, s1) =>
        bind (Fallible.log (copy_error e0)) (fun _ => ret false) s1
    end.
Proof.
  rewrite copy_file_by_attempt, copy_attempt_split. unfold bind at 1.
  destruct (primary_phase f d (time_time (world s)) s)
    as [[[df []] | e] s1]; reflexivity.
Qed.

(** The calls of the primary part, by its outcome. *)
Lemma primary_phase_trace f d t (s s1 : State W) r :
  primary_phase f d t s = (r, s1) ->
  let ns := EvNamespace (Dir (os_path_dirname d)) in
  match r with
  | Ok (Some folder, false) =>
      trace s1 = (trace s ++ [ns; EvCopyHere folder f 16; EvSleep f0_03;
                              EvExists d])%list
      /\ os_path_exists d (world s1) = false /\ self s1 = self s
  | Ok (None, false) => trace s1 = (trace s ++ [ns])%list /\ self s1 = self s
  | Ok (Some folder, true) =>
      trace s1 = (trace s ++ [ns; EvCopyHere folder f 16; EvSleep f0_03;
                              EvExists d])%list
      /\ os_path_exists d (world s1) = true
      /\ self s1
         = {| dest_dir := dest_dir (self s); start_time := start_time (self s);
              files_copied_total := files_copied_total (self s) + 1;
              copy_times := (copy_times (self s)
                             ++ [fsub (time_time (world s1)) t])%list |}
  | Ok (None, true) => False
  | Raise _ =>
      (trace s1 = (trace s ++ [ns])%list
       \/ exists folder,
            trace s1 = (trace s ++ [ns; EvCopyHere folder f 16])%list)
      /\ self s1 = self s
  end.
Proof.
  unfold primary_phase, primary_copy, record_copy.
  unfold bind, call, sleep, act, exists_, now, get_self, put_self, ret.
  destruct (shell_Namespace _ (world s)) as [[[folder |] | e] w1];
    cbn [world self trace set_world set_self add_event fst snd].
  - destruct (folder_CopyHere folder f 16 w1) as [[[] | e] w2];
      cbn [world self trace set_world set_self add_event fst snd].
    + destruct (os_path_exists d (time_sleep f0_03 w2)) eqn:Hex;
        intros H; inversion H; subst; cbv zeta;
        cbn [world self trace set_world set_self add_event fst snd];
        rewrite <- ?app_assoc; repeat split; auto.
    + intros H; inversion H; subst. cbv zeta.
      cbn [world self trace set_world set_self add_event fst snd].
      rewrite <- ?app_assoc. split; [right; exists folder |]; reflexivity.
  - intros H; inversion H; subst. cbv zeta. cbn. auto.
  - intros H; inversion H; subst. cbv zeta. cbn. auto.
Qed.

(** The clipboard fallback after the clearing of the clipboard, step by
    step: the copy verb; when it returned, the paste verb on the
    destination folder; when that returned, the wait and the second test
    of existence, which decides the result. *)
Lemma fallback_copy_steps df f d t (s1 : State W) :
  exists s2 clip,
    _clear_clipboard s1 = (Ok tt, s2)
    /\ trace s2 = (trace s1 ++ clip)%list
    /\ count is_clear clip = 1%nat
    /\ count (is_verb "copy") clip = 0%nat
    /\ count (is_verb "paste") clip = 0%nat
    /\ count is_copyhere clip = 0%nat
    /\ self s2 = self s1
    /\ let r := fallback_copy df f d t s1 in
       let copy := EvInvokeVerbEx f "copy" in
       match item_InvokeVerbEx f "copy" (world s2) with
       | (Raise e, _) =>
           fst r = Raise e /\ trace (snd r) = (trace s2 ++ [copy])%list
           /\ self (snd r) = self s1
       | (Ok _, w3) =>
           match df with
           | None =>
               (exists e, fst r = Raise e)
               /\ trace (snd r) = (trace s2 ++ [copy])%list
               /\ self (snd r) = self s1
           | Some folder =>
               let paste := EvInvokeVerbEx (Self folder) "paste" in
               match item_InvokeVerbEx (Self folder) "paste" w3 with
               | (Raise e, _) =>
                   fst r = Raise e
                   /\ trace (snd r) = (trace s2 ++ [copy; paste])%list
                   /\ self (snd r) = self s1
               | (Ok _, w4) =>
                   fst r = Ok (os_path_exists d (time_sleep f0_1 w4))
                   /\ trace (snd r)
                      = (trace s2 ++ [copy; paste; EvSleep f0_1;
                                      EvExists d])%list
                   /\ world (snd r) = time_sleep f0_1 w4
                   /\ self (snd r)
                      = (if os_path_exists d (time_sleep f0_1 w4)
                         then {| dest_dir := dest_dir (self s1);
                                 start_time := start_time (self s1);
                                 files_copied_total :=
                                   files_copied_total (self s1) + 1;
                                 copy_times :=
                                   (copy_times (self s1)
                                    ++ [fsub (time_time (time_sleep f0_1 w4))
                                             t])%list |}
                         else self s1)
               end
           end
       end.
Proof.
  destruct (clear_clipboard_summary s1)
    as (s2 & clip & Hc & Htr & Hself & _ & _ & _ & Hclip).
  exists s2, clip. split; [exact Hc |]. split; [exact Htr |].
  assert (Hcount : count is_clear clip = 1%nat
                   /\ count (is_verb "copy") clip = 0%nat
                   /\ count (is_verb "paste") clip = 0%nat
                   /\ count is_copyhere clip = 0%nat).
  { rewrite Hclip. destruct (OpenClipboard (world s1)) as [[[] | ?] w];
      [destruct (EmptyClipboard w) as [[[] | ?] ?] |]; cbn; auto. }
  destruct Hcount as (H1 & H2 & H3 & H4).
  do 4 (split; [assumption |]). split; [exact Hself |].
  cbv zeta. unfold fallback_copy. rewrite (bind_ok _ _ _ _ _ Hc).
  rewrite bind_call.
  destruct (item_InvokeVerbEx f "copy" (world s2)) as [[[] | e] w3];
    [| cbn [fst snd trace self set_world add_event]; auto].
  destruct df as [folder |].
  - rewrite bind_ret, bind_call.
    cbn [world set_world add_event].
    destruct (item_InvokeVerbEx (Self folder) "paste" w3) as [[[] | e] w4].
    + rewrite bind_sleep, bind_exists.
      cbn [world set_world add_event].
      destruct (os_path_exists d (time_sleep f0_1 w4)).
      * unfold record_copy, bind, now, get_self, put_self, ret.
        cbn [fst snd trace self world set_self set_world add_event].
        rewrite <- ?app_assoc, ?Hself. repeat split.
      * cbn [fst snd trace self world set_self set_world add_event ret].
        rewrite <- ?app_assoc, ?Hself. repeat split.
    + cbn [fst snd trace self world set_self set_world add_event].
      rewrite <- ?app_assoc. auto.
  - rewrite bind_raise.
    cbn [fst snd trace self world set_self set_world add_event].
    split; [eexists; reflexivity | auto].
Qed.

End CopyHandler.

Section CopyClaims.
Context {W : Type} {E : Environment W} {F : Faults W}.

(** C1 (amended): when the primary attempt ends without raising and
    without the destination file, [_copy_file_mtp] enters the clipboard
    fallback, once: after the calls of the primary attempt it clears the
    clipboard, once, and invokes the copy verb on the source, once; when
    the copy verb returned and there is a destination folder, it invokes
    the paste verb on that folder, once; when the paste verb returned, it
    waits 0.1 s and tests the destination again, and that test is the
    result.  A step that raises ends the fallback, and the call fails: it
    returns [False], or it raises what the [log] of its handler raised.
    When the primary attempt returns [True], and when it raises, the
    fallback is not entered: no call follows those of the primary
    attempt; in the second case the call fails in the same way. *)
Theorem fallback_once_after_quiet_primary file_item dest_path (s : State W) :
  let t := time_time (world s) in
  let r := Fallible._copy_file_mtp file_item dest_path s in
  let ns := EvNamespace (Dir (os_path_dirname dest_path)) in
  let copy := EvInvokeVerbEx file_item "copy" in
  let failed :=
    fst r = Ok false
    \/ exists e' e0 s0,
         fst r = Raise e'
         /\ Fallible.log (copy_error e0) s0 = (Raise e', snd r) in
  (forall df s1,
     primary_phase file_item dest_path t s = (Ok (df, false), s1) ->
     exists s2 clip,
       trace s1
       = (trace s
          ++ ns :: match df with
                   | Some folder =>
                       [EvCopyHere folder file_item 16; EvSleep f0_03;
                        EvExists dest_path]
                   | None => []
                   end)%list
       /\ _clear_clipboard s1 = (Ok tt, s2)
       /\ trace s2 = (trace s1 ++ clip)%list
       /\ count is_clear clip = 1%nat
       /\ count (is_verb "copy") clip = 0%nat
       /\ count (is_verb "paste") clip = 0%nat
       /\ count is_copyhere clip = 0%nat
       /\ match item_InvokeVerbEx file_item "copy" (world s2) with
          | (Raise _, _) =>
              trace (snd r) = (trace s2 ++ [copy])%list /\ failed
          | (Ok _, w3) =>
              match df with
              | None =>
                  trace (snd r) = (trace s2 ++ [copy])%list /\ failed
              | Some folder =>
                  let paste := EvInvokeVerbEx (Self folder) "paste" in
                  match item_InvokeVerbEx (Self folder) "paste" w3 with
                  | (Raise _, _) =>
                      trace (snd r) = (trace s2 ++ [copy; paste])%list
                      /\ failed
                  | (Ok _, w4) =>
                      trace (snd r)
                      = (trace s2 ++ [copy; paste; EvSleep f0_1;
                                      EvExists dest_path])%list
                      /\ fst r
                         = Ok (os_path_exists dest_path (time_sleep f0_1 w4))
                  end
              end
          end)
  /\ (forall df s1,
        primary_phase file_item dest_path t s = (Ok (df, true), s1) ->
        r = (Ok true, s1)
        /\ exists folder,
             trace s1 = (trace s ++ [ns; EvCopyHere folder file_item 16;
                                     EvSleep f0_03; EvExists dest_path])%list)
  /\ (forall e s1,
        primary_phase file_item dest_path t s = (Raise e, s1) ->
        (trace (snd r) = (trace s ++ [ns])%list
         \/ exists folder,
              trace (snd r)
              = (trace s ++ [ns; EvCopyHere folder file_item 16])%list)
        /\ failed).
Proof.
  intros t r ns copy failed. subst failed r.
  split; [| split].
  - intros df s1 Hp.
    pose proof (primary_phase_trace _ _ _ _ _ _ Hp) as Htr. cbv zeta in Htr.
    destruct (fallback_copy_steps df file_item dest_path t s1)
      as (s2 & clip & Hc & Htr2 & C1 & C2 & C3 & C4 & Hself & Hsteps).
    exists s2, clip.
    split.
    { destruct df as [folder |]; [destruct Htr as (-> & _) |
                                   destruct Htr as (-> & _)]; reflexivity. }
    do 6 (split; [assumption |]).
    rewrite copy_file_by_primary. fold t. rewrite Hp.
    cbv zeta in Hsteps. fold copy in Hsteps.
    destruct (fallback_copy df file_item dest_path t s1) as [rf sf].
    cbn [fst snd] in Hsteps.
    destruct (item_InvokeVerbEx file_item "copy" (world s2))
      as [[[] | e] w3].
    + destruct df as [folder |].
      * cbv zeta in Hsteps |- *.
        destruct (item_InvokeVerbEx (Self folder) "paste" w3)
          as [[[] | e] w4].
        -- destruct Hsteps as (-> & Ht & _). cbn [fst snd]. auto.
        -- destruct Hsteps as (-> & Ht & _).
           destruct (copy_handler_run e sf) as (_ & _ & _ & _ & ->).
           split; [exact Ht | apply copy_handler_ends].
      * destruct Hsteps as ((e & ->) & Ht & _).
        destruct (copy_handler_run e sf) as (_ & _ & _ & _ & ->).
        split; [exact Ht | apply copy_handler_ends].
    + destruct Hsteps as (-> & Ht & _).
      destruct (copy_handler_run e sf) as (_ & _ & _ & _ & ->).
      split; [exact Ht | apply copy_handler_ends].
  - intros df s1 Hp.
    pose proof (primary_phase_trace _ _ _ _ _ _ Hp) as Htr. cbv zeta in Htr.
    rewrite copy_file_by_primary. fold t. rewrite Hp.
    split; [reflexivity |].
    destruct df as [folder |]; [| contradiction].
    exists folder. apply Htr.
  - intros e s1 Hp.
    pose proof (primary_phase_trace _ _ _ _ _ _ Hp) as Htr. cbv zeta in Htr.
    rewrite copy_file_by_primary. fold t. rewrite Hp.
    destruct (copy_handler_run e s1) as (_ & _ & _ & _ & ->).
    split; [apply Htr | apply copy_handler_ends].
Qed.

Ltac run_copy :=
  repeat (cbn [world self trace set_world set_self add_event fst snd];
          match goal with
          | |- context [match ?x with Some _ => _ | None => _ end] =>
              is_var x; destruct x
          | |- context [match ?op ?w with (_, _) => _ end] =>
              match type of w with W => destruct (op w) as [[? | ?] ?] end
          | |- context [if os_path_exists ?p ?w then _ else _] =>
              destruct (os_path_exists p w) eqn:?
          | |- context [match print_raises ?l ?w with _ => _ end] =>
              destruct (print_raises l w)
          | |- context [match append_raises ?l ?w with _ => _ end] =>
              destruct (append_raises l w)
          end).

(** X8: [_copy_file_mtp] counts a copy exactly when it returns [True],
    and then the destination file exists: the counter grows by one and
    the time the copy took is recorded.  When it returns [False], and
    when its handler's [log] raises, the object is as it was. *)
Theorem copy_counts_only_when_verified (f : Item) (d : string) (s : State W) :
  let r := Fallible._copy_file_mtp f d s in
  dest_dir (self (snd r)) = dest_dir (self s)
  /\ start_time (self (snd r)) = start_time (self s)
  /\ run (snd r) = run s
  /\ match fst r with
     | Ok true =>
         os_path_exists d (world (snd r)) = true
         /\ files_copied_total (self (snd r)) = files_copied_total (self s) + 1
         /\ copy_times (self (snd r))
            = (copy_times (self s)
               ++ [fsub (time_time (world (snd r))) (time_time (world s))])%list
     | _ => self (snd r) = self s
     end.
Proof.
  cbv zeta.
  unfold Fallible._copy_file_mtp, copy_attempt, primary_copy, fallback_copy,
    _clear_clipboard, try_except, record_copy, Fallible.log, Fallible.print,
    Fallible.append_log.
  unfold bind, call, sleep, act, exists_, now, get_self, put_self, ret, raise.
  run_copy.
  all: cbn [world self trace run set_world set_self add_event fst snd
            dest_dir start_time files_copied_total copy_times];
    repeat apply conj; first [reflexivity | assumption].
Qed.

End CopyClaims.

(* ================================================================== *)
(** * The loop over the rolls, when a local call can fail *)

Section KeepsRun.
Context {W : Type} {E : Environment W} {F : Faults W}.

Lemma keeps_ret {A} (a : A) : keeps_run (W:=W) (ret a).
Proof. intros s. reflexivity. Qed.

Lemma keeps_raise {A} e : keeps_run (@raise W A e).
Proof. intros s. reflexivity. Qed.

Lemma keeps_lift {A} (r : result A) : keeps_run (W:=W) (lift r).
Proof. intros s. reflexivity. Qed.

Lemma keeps_now : keeps_run (W:=W) now.
Proof. intros s. reflexivity. Qed.

Lemma keeps_get_self : keeps_run (W:=W) get_self.
Proof. intros s. reflexivity. Qed.

Lemma keeps_put_self c : keeps_run (W:=W) (put_self c).
Proof. intros s. reflexivity. Qed.

Lemma keeps_get_run : keeps_run (W:=W) get_run.
Proof. intros s. reflexivity. Qed.

Lemma keeps_exists d : keeps_run (W:=W) (exists_ d).
Proof. intros s. reflexivity. Qed.

Lemma keeps_sleep d : keeps_run (W:=W) (sleep d).
Proof. intros s. reflexivity. Qed.

Lemma keeps_call {A} ev (op : W -> result A * W) : keeps_run (call ev op).
Proof. intros s. unfold call. destruct (op (world s)). reflexivity. Qed.

Lemma keeps_print line : keeps_run (Fallible.print line).
Proof. intros s. apply print_frame. Qed.

Lemma keeps_log msg : keeps_run (Fallible.log msg).
Proof. intros s. apply log_frame. Qed.

Lemma keeps_makedirs d : keeps_run (Fallible.makedirs d).
Proof.
  intros s. unfold Fallible.makedirs.
  destruct (makedirs_raises d (world s)); reflexivity.
Qed.

Lemma keeps_bind {A B} (m : M W A) (k : A -> M W B) :
  keeps_run m -> (forall a, keeps_run (k a)) -> keeps_run (bind m k).
Proof.
  intros Hm Hk s. unfold bind. specialize (Hm s).
  destruct (m s) as [[a | e] s1]; cbn [snd] in *.
  - rewrite Hk. exact Hm.
  - exact Hm.
Qed.

Lemma keeps_try {A} (m : M W A) (h : exn -> M W A) :
  keeps_run m -> (forall e, keeps_run (h e)) -> keeps_run (try_except m h).
Proof.
  intros Hm Hh s. unfold try_except. specialize (Hm s).
  destruct (m s) as [[a | e] s1]; cbn [snd] in *.
  - exact Hm.
  - rewrite Hh. exact Hm.
Qed.

End KeepsRun.

Ltac keep :=
  repeat
    lazymatch goal with
    | |- keeps_run (ret _) => apply keeps_ret
    | |- keeps_run (raise _) => apply keeps_raise
    | |- keeps_run (lift _) => apply keeps_lift
    | |- keeps_run now => apply keeps_now
    | |- keeps_run get_self => apply keeps_get_self
    | |- keeps_run (put_self _) => apply keeps_put_self
    | |- keeps_run get_run => apply keeps_get_run
    | |- keeps_run (exists_ _) => apply keeps_exists
    | |- keeps_run (sleep _) => apply keeps_sleep
    | |- keeps_run (call _ _) => apply keeps_call
    | |- keeps_run (Fallible.print _) => apply keeps_print
    | |- keeps_run (Fallible.log _) => apply keeps_log
    | |- keeps_run (Fallible.makedirs _) => apply keeps_makedirs
    | |- keeps_run (bind _ _) => apply keeps_bind; [| intros ?]
    | |- keeps_run (try_except _ _) => apply keeps_try; [| intros ?]
    | |- keeps_run (if ?b then _ else _) => destruct b
    | |- keeps_run (match ?x with Some _ => _ | None => _ end) => destruct x
    end.

Ltac femit :=
  repeat
    lazymatch goal with
    | |- emits _ (ret _) => apply emits_ret
    | |- emits _ (raise _) => apply emits_raise
    | |- emits _ (lift _) => apply emits_lift
    | |- emits _ now => apply emits_now
    | |- emits _ get_self => apply emits_get_self
    | |- emits _ (put_self _) => apply emits_put_self
    | |- emits _ get_run => apply emits_get_run
    | |- emits _ (put_run _) => apply emits_put_run
    | |- emits _ (Fallible.print _) =>
        apply emits_same; intros ?; apply print_frame
    | |- emits _ (Fallible.log _) =>
        apply emits_same; intros ?; apply log_frame
    | |- emits _ (bind _ _) => apply emits_bind; [| intros ?]
    | |- emits _ (try_except _ _) => apply emits_try; [| intros ?]
    | |- emits _ (if ?b then _ else _) => destruct b
    | |- emits _ (match ?x with Some _ => _ | None => _ end) => destruct x
    end.

Section ProcessRoll.
Context {W : Type} {E : Environment W} {F : Faults W}.

Lemma keeps_copy_file f d : keeps_run (Fallible._copy_file_mtp f d).
Proof.
  unfold Fallible._copy_file_mtp, copy_attempt, primary_copy, fallback_copy,
    _clear_clipboard, record_copy.
  keep.
Qed.

Lemma keeps_process_files roll dst n files : forall idx c,
  keeps_run (Fallible.process_files roll dst n idx files c).
Proof.
  induction files as [| f rest IH]; intros idx c;
    cbn [Fallible.process_files].
  - apply keeps_ret.
  - apply keeps_bind; [| intros c'; apply IH].
    unfold Fallible.process_file. keep. apply keeps_copy_file.
Qed.

Lemma keeps_process_roll roll idx total files :
  keeps_run (Fallible._process_roll roll idx total files).
Proof.
  unfold Fallible._process_roll, Fallible.roll_scan, Fallible.roll_status.
  keep. apply keeps_process_files.
Qed.

Ltac no_listing :=
  first [ apply emits_call; reflexivity
        | apply emits_act; reflexivity
        | apply emits_exists; intros ev Hev; destruct ev;
          try discriminate Hev; reflexivity ].

Lemma copy_file_lists_nothing f d :
  emits (fun ev => negb (is_listing ev)) (Fallible._copy_file_mtp f d).
Proof.
  unfold Fallible._copy_file_mtp, copy_attempt, primary_copy, fallback_copy,
    _clear_clipboard, record_copy, sleep.
  femit; no_listing.
Qed.

Lemma process_files_list_nothing roll dst n files : forall idx c,
  emits (fun ev => negb (is_listing ev))
    (Fallible.process_files roll dst n idx files c).
Proof.
  induction files as [| f rest IH]; intros idx c;
    cbn [Fallible.process_files].
  - apply emits_ret.
  - apply emits_bind; [| intros c'; apply IH].
    unfold Fallible.process_file.
    femit; first [apply copy_file_lists_nothing | no_listing].
Qed.

Lemma makedirs_lists_nothing d :
  emits (fun ev => negb (is_listing ev)) (Fallible.makedirs d).
Proof.
  intros s. unfold Fallible.makedirs. exists [EvMakedirs d].
  destruct (makedirs_raises d (world s)); cbn; auto.
Qed.

(** [_process_roll] lists nothing. *)
Lemma process_roll_lists_nothing roll idx total files :
  emits (fun ev => negb (is_listing ev))
    (Fallible._process_roll roll idx total files).
Proof.
  unfold Fallible._process_roll, Fallible.roll_scan, Fallible.roll_status.
  femit;
    first [ apply process_files_list_nothing | apply makedirs_lists_nothing
          | no_listing ].
Qed.

(** The status [_process_roll] returns is one of the three. *)
Lemma process_roll_status roll idx total files (s s' : State W) status :
  Fallible._process_roll roll idx total files s = (Ok status, s') ->
  status = "completata" \/ status = "saltata" \/ status = "errore".
Proof.
  unfold Fallible._process_roll. unfold bind at 1.
  destruct (Fallible.roll_scan roll idx total files s) as [[c | e] s1];
    [| discriminate].
  unfold Fallible.roll_status.
  destruct (files_failed c >? 0);
    [| destruct ((files_copied c =? 0) && (files_skipped c =? len files))];
    unfold bind;
    destruct (Fallible.log _ s1) as [[[] | e] s2]; intros H; inversion H; auto.
Qed.

End ProcessRoll.

Section Turn.
Context {W : Type} {E : Environment W} {F : Faults W}.

Lemma try_bind {A B} (m : M W A) (k : A -> M W B) (h : exn -> M W B) s :
  try_except (bind m k) h s
  = match m s with
    | (Ok a, s1) => try_except (k a) h s1
    | (Raise e, s1) => h e s1
    end.
Proof.
  unfold try_except, bind. destruct (m s) as [[a | e] s1]; reflexivity.
Qed.

(** The three appends to the lists of the result. *)
Lemma append_completate_run n (s : State W) :
  exists s',
    append_completate n s = (Ok tt, s')
    /\ completate (res (run s')) = (completate (res (run s)) ++ [n])%list
    /\ saltate (res (run s')) = saltate (res (run s))
    /\ errori (res (run s')) = errori (res (run s))
    /\ trace s' = trace s.
Proof.
  unfold append_completate, bind, get_run, put_run. cbv zeta.
  eexists. split; [reflexivity |]. repeat split.
Qed.

Lemma append_saltate_run n (s : State W) :
  exists s',
    append_saltate n s = (Ok tt, s')
    /\ completate (res (run s')) = completate (res (run s))
    /\ saltate (res (run s')) = (saltate (res (run s)) ++ [n])%list
    /\ errori (res (run s')) = errori (res (run s))
    /\ trace s' = trace s.
Proof.
  unfold append_saltate, bind, get_run, put_run. cbv zeta.
  eexists. split; [reflexivity |]. repeat split.
Qed.

Lemma append_errori_run n (s : State W) :
  exists s',
    append_errori n s = (Ok tt, s')
    /\ completate (res (run s')) = completate (res (run s))
    /\ saltate (res (run s')) = saltate (res (run s))
    /\ errori (res (run s')) = (errori (res (run s)) ++ [n])%list
    /\ trace s' = trace s.
Proof.
  unfold append_errori, bind, get_run, put_run. cbv zeta.
  eexists. split; [reflexivity |]. repeat split.
Qed.

(** The handler of the loop: it makes no call on the shell; when its
    [log] returns, the roll is added to [errori]; when its [log] raises,
    the three lists are as they were and the exception is that of the
    [log]. *)
Lemma roll_handler_run roll e (s1 : State W) :
  let r := Fallible.roll_handler roll e s1 in
  trace (snd r) = trace s1
  /\ completate (res (run (snd r))) = completate (res (run s1))
  /\ saltate (res (run (snd r))) = saltate (res (run s1))
  /\ match fst r with
     | Ok _ =>
         errori (res (run (snd r)))
         = (errori (res (run s1)) ++ [Name roll])%list
     | Raise e' =>
         errori (res (run (snd r))) = errori (res (run s1))
         /\ Fallible.log (critical_error roll e) s1 = (Raise e', snd r)
     end.
Proof.
  cbv zeta. unfold Fallible.roll_handler. fold (critical_error roll e).
  unfold bind.
  destruct (log_frame (critical_error roll e) s1) as (_ & _ & Hrun & Htr).
  destruct (Fallible.log (critical_error roll e) s1) as [[[] | e'] s2];
    cbn [fst snd] in *.
  - unfold append_errori, bind, get_run, put_run. cbn. rewrite Hrun, Htr. auto.
  - rewrite Hrun, Htr. auto.
Qed.

(** A turn that ends in the handler, entered in [s1] when the turn had
    added [a0], [b0] and [c0] to the lists. *)
Lemma ends_by_handler roll e (s s1 : State W) a0 b0 c0 calls1 :
  completate (res (run s1)) = (completate (res (run s)) ++ a0)%list ->
  saltate (res (run s1)) = (saltate (res (run s)) ++ b0)%list ->
  errori (res (run s1)) = (errori (res (run s)) ++ c0)%list ->
  trace s1 = (trace s ++ calls1)%list ->
  (a0, b0, c0) = ([], [], []) \/ (a0, b0, c0) = ([Name roll], [], [])
  \/ (a0, b0, c0) = ([], [], [Name roll]) ->
  exists a b c calls,
    completate (res (run (snd (Fallible.roll_handler roll e s1))))
    = (completate (res (run s)) ++ a)%list
    /\ saltate (res (run (snd (Fallible.roll_handler roll e s1))))
       = (saltate (res (run s)) ++ b)%list
    /\ errori (res (run (snd (Fallible.roll_handler roll e s1))))
       = (errori (res (run s)) ++ c)%list
    /\ trace (snd (Fallible.roll_handler roll e s1)) = (trace s ++ calls)%list
    /\ filter is_listing calls = filter is_listing calls1
    /\ match fst (Fallible.roll_handler roll e s1) with
       | Ok _ => roll_outcome (Name roll) (a, b, c)
       | Raise e' =>
           exists e0 s0,
             Fallible.log (critical_error roll e0) s0
             = (Raise e', snd (Fallible.roll_handler roll e s1))
       end.
Proof.
  intros Ha Hb Hc Htr Hcase.
  destruct (roll_handler_run roll e s1) as (Ht & Hca & Hsa & Hend).
  cbv zeta in *.
  destruct (Fallible.roll_handler roll e s1) as [[[] | e'] s2];
    cbn [fst snd] in *.
  - exists a0, b0, (c0 ++ [Name roll])%list, calls1.
    rewrite Hca, Hsa, Hend, Ht, Ha, Hb, Hc, Htr, <- app_assoc.
    repeat (split; [reflexivity |]).
    unfold roll_outcome.
    destruct Hcase as [H | [H | H]]; inversion H; subst; cbn [app]; tauto.
  - destruct Hend as (Her & Hlog).
    exists a0, b0, c0, calls1.
    rewrite Hca, Hsa, Her, Ht, Ha, Hb, Hc, Htr.
    repeat (split; [reflexivity |]).
    exists e, s1. exact Hlog.
Qed.

(** The estimate at the end of a turn makes no call and keeps the lists. *)
Lemma estimate_frame idx total (status : string) (s : State W) :
  let m := bind get_self (fun me =>
             if (idx <? total) && (files_copied_total me >? 0)
                && negb (status =? "saltata")%string
             then
               bind get_run (fun r =>
               bind (lift (if rolls_with_files r >? 0
                           then int_truediv (total_files_in_rolls r)
                                            (rolls_with_files r)
                           else Ok (of_Z 0))) (fun avg_files_per_roll =>
               bind (lift (_calculate_eta me idx total
                             (fmul avg_files_per_roll f1_2))) (fun eta =>
               Fallible.log
                 (fstr ["⏱️  Estimated time remaining: "; eta;
                        " [statistical estimate, not based on actual missing files]";
                        newline]))))
             else ret tt) in
  run (snd (m s)) = run s /\ trace (snd (m s)) = trace s
  /\ (status = "saltata" -> fst (m s) = Ok tt).
Proof.
  cbv zeta. split; [| split].
  - match goal with |- run (snd (?m s)) = _ => assert (H : keeps_run m) end.
    { keep. }
    apply H.
  - match goal with |- trace (snd (?m s)) = _ =>
      assert (H : emits (fun _ => false) m) end.
    { femit. }
    destruct (H s) as (calls & Htr & Hall).
    destruct calls as [| ev calls]; [| discriminate Hall].
    rewrite Htr. apply app_nil_r.
  - intros ->. rewrite bind_get_self.
    change ("saltata" =? "saltata")%string with true.
    cbn [negb]. rewrite Bool.andb_false_r. reflexivity.
Qed.

(** One turn of the loop: what it adds to the three lists, the listing it
    asks for, and how it ends. *)
Lemma fallible_turn idx total roll (s : State W) :
  let r := try_except (Fallible.roll_body idx total roll)
             (Fallible.roll_handler roll) s in
  exists a b c calls,
    completate (res (run (snd r))) = (completate (res (run s)) ++ a)%list
    /\ saltate (res (run (snd r))) = (saltate (res (run s)) ++ b)%list
    /\ errori (res (run (snd r))) = (errori (res (run s)) ++ c)%list
    /\ trace (snd r) = (trace s ++ calls)%list
    /\ filter is_listing calls
       = match print_raises (analyzing idx total roll) (world s) with
         | None => [EvItems (GetFolder roll)]
         | Some _ => []
         end
    /\ match fst r with
       | Ok _ => roll_outcome (Name roll) (a, b, c)
       | Raise e =>
           exists e0 s0,
             Fallible.log (critical_error roll e0) s0 = (Raise e, snd r)
       end.
Proof.
  cbv zeta. unfold Fallible.roll_body, analyzing.
  rewrite try_bind, print_run.
  destruct (print_raises _ (world s)) as [e |].
  { (* the line cannot be printed *)
    destruct (ends_by_handler roll e s s [] [] [] [])
      as (a & b & c & calls & H1 & H2 & H3 & H4 & H5 & H6);
      rewrite ?app_nil_r; auto.
    exists a, b, c, calls. auto 10. }
  set (s0 := snd (print _ s)).
  rewrite try_bind. unfold Items, call.
  change (world s0) with (world s).
  destruct (folder_Items (GetFolder roll) (world s)) as [[items | e] w1].
  2:{ (* the listing raises *)
      match goal with |- context [Fallible.roll_handler roll e ?st] =>
        destruct (ends_by_handler roll e s st [] [] []
                    [EvItems (GetFolder roll)])
          as (a & b & c & calls & H1 & H2 & H3 & H4 & H5 & H6)
      end; rewrite ?app_nil_r; auto.
      exists a, b, c, calls. auto 10. }
  set (files := filter (fun f => negb (IsFolder f)) items).
  set (s1 := set_world w1 (add_event (EvItems (GetFolder roll)) s0)).
  assert (Hs1 : res (run s1) = res (run s)
                /\ trace s1 = (trace s ++ [EvItems (GetFolder roll)])%list)
    by (split; reflexivity).
  destruct Hs1 as (Hres1 & Htr1).
  rewrite try_bind.
  assert (Htally : exists s2,
             (if negb (is_empty files)
              then bind get_run (fun r =>
                     put_run
                       {| res := res r;
                          total_files_in_rolls :=
                            total_files_in_rolls r + len files;
                          rolls_with_files := rolls_with_files r + 1 |})
              else ret tt) s1 = (Ok tt, s2)
             /\ res (run s2) = res (run s1) /\ trace s2 = trace s1).
  { destruct (negb (is_empty files)); eexists; split; try reflexivity;
      split; reflexivity. }
  destruct Htally as (s2 & -> & Hres2 & Htr2).
  rewrite try_bind.
  pose proof (keeps_process_roll roll idx total files s2) as Hrun3.
  destruct (process_roll_lists_nothing roll idx total files s2)
    as (calls3 & Htr3 & Hall3).
  pose proof (process_roll_status roll idx total files s2) as Hstatus.
  destruct (Fallible._process_roll roll idx total files s2)
    as [[status | e] s3]; cbn [snd] in Hrun3, Htr3.
  2:{ (* the roll raises *)
      destruct (ends_by_handler roll e s s3 [] [] []
                  (EvItems (GetFolder roll) :: calls3))
        as (a & b & c & calls & H1 & H2 & H3 & H4 & H5 & H6);
        rewrite ?app_nil_r, ?Hrun3, ?Hres2, ?Hres1, ?Htr3, ?Htr2, ?Htr1,
          <- ?app_assoc; auto.
      exists a, b, c, calls. rewrite H5. cbn [filter is_listing].
      rewrite (filter_none _ _ Hall3). auto 10. }
  assert (Hres3 : res (run s3) = res (run s)) by congruence.
  assert (Htr3' : trace s3
                  = (trace s ++ EvItems (GetFolder roll) :: calls3)%list).
  { rewrite Htr3, Htr2, Htr1, <- app_assoc. reflexivity. }
  assert (Hlist : filter is_listing (EvItems (GetFolder roll) :: calls3)
                  = [EvItems (GetFolder roll)]).
  { cbn [filter is_listing]. rewrite (filter_none _ _ Hall3). reflexivity. }
  clear Hrun3 Htr3 Hres2 Htr2 Hres1 Htr1 Hall3.
  rewrite try_bind.
  destruct (Hstatus s3 status eq_refl) as [-> | [-> | ->]]; clear Hstatus.
  - (* completata *)
    change ("completata" =? "completata")%string with true. cbv iota.
    destruct (append_completate_run (Name roll) s3)
      as (s4 & -> & Ha4 & Hb4 & Hc4 & Ht4).
    match goal with |- context [try_except ?m _ s4] =>
      destruct (estimate_frame idx total "completata" s4) as (Hr & Ht & _);
      unfold try_except; cbv zeta in Hr, Ht;
      destruct (m s4) as [[[] | e] s5]; cbn [fst snd] in Hr, Ht |- *
    end.
    + exists [Name roll], [], [], (EvItems (GetFolder roll) :: calls3).
      rewrite Hr, Ht, Ha4, Hb4, Hc4, Ht4, Hres3, Htr3', !app_nil_r.
      repeat (split; [first [reflexivity | exact Hlist] |]).
      unfold roll_outcome. tauto.
    + destruct (ends_by_handler roll e s s5 [Name roll] [] []
                  (EvItems (GetFolder roll) :: calls3))
        as (a & b & c & calls & H1 & H2 & H3 & H4 & H5 & H6);
        rewrite ?Hr, ?Ht, ?Ha4, ?Hb4, ?Hc4, ?Ht4, ?Hres3, ?Htr3', ?app_nil_r;
        auto.
      exists a, b, c, calls. rewrite H5, Hlist. auto 10.
  - (* saltata *)
    change ("saltata" =? "completata")%string with false.
    change ("saltata" =? "saltata")%string with true. cbv iota.
    destruct (append_saltate_run (Name roll) s3)
      as (s4 & -> & Ha4 & Hb4 & Hc4 & Ht4).
    match goal with |- context [try_except ?m _ s4] =>
      destruct (estimate_frame idx total "saltata" s4) as (Hr & Ht & Hok);
      unfold try_except; cbv zeta in Hr, Ht, Hok;
      specialize (Hok eq_refl);
      change ("saltata" =? "saltata")%string with true in Hr, Ht, Hok;
      destruct (m s4) as [[[] | e] s5]; cbn [fst snd] in Hr, Ht, Hok |- *
    end; [| discriminate Hok].
    exists [], [Name roll], [], (EvItems (GetFolder roll) :: calls3).
    rewrite Hr, Ht, Ha4, Hb4, Hc4, Ht4, Hres3, Htr3', !app_nil_r.
    repeat (split; [first [reflexivity | exact Hlist] |]).
    unfold roll_outcome. tauto.
  - (* errore *)
    change ("errore" =? "completata")%string with false.
    change ("errore" =? "saltata")%string with false.
    change ("errore" =? "errore")%string with true. cbv iota.
    destruct (append_errori_run (Name roll) s3)
      as (s4 & -> & Ha4 & Hb4 & Hc4 & Ht4).
    match goal with |- context [try_except ?m _ s4] =>
      destruct (estimate_frame idx total "errore" s4) as (Hr & Ht & _);
      unfold try_except; cbv zeta in Hr, Ht;
      change ("errore" =? "saltata")%string with false in Hr, Ht;
      destruct (m s4) as [[[] | e] s5]; cbn [fst snd] in Hr, Ht |- *
    end.
    + exists [], [], [Name roll], (EvItems (GetFolder roll) :: calls3).
      rewrite Hr, Ht, Ha4, Hb4, Hc4, Ht4, Hres3, Htr3', !app_nil_r.
      repeat (split; [first [reflexivity | exact Hlist] |]).
      unfold roll_outcome. tauto.
    + destruct (ends_by_handler roll e s s5 [] [] [Name roll]
                  (EvItems (GetFolder roll) :: calls3))
        as (a & b & c & calls & H1 & H2 & H3 & H4 & H5 & H6);
        rewrite ?Hr, ?Ht, ?Ha4, ?Hb4, ?Hc4, ?Ht4, ?Hres3, ?Htr3', ?app_nil_r;
        auto.
      exists a, b, c, calls. rewrite H5, Hlist. auto 10.
Qed.

End Turn.

Section FallibleLoop.
Context {W : Type} {E : Environment W} {F : Faults W}.

Lemma subsequence_nil {A} (l : list A) : subsequence [] l.
Proof. induction l; constructor; assumption. Qed.

(** The loop of [copy_photos]: what it adds to the three lists, roll by
    roll, the listings it asks for, and how it ends. *)
Lemma fallible_loop (rolls : list Item) : forall idx total (s : State W),
  let r := Fallible.rolls_loop idx total rolls s in
  exists (per : list report) calls listed,
    completate (res (run (snd r)))
    = (completate (res (run s)) ++ concat (map to_completate per))%list
    /\ saltate (res (run (snd r)))
       = (saltate (res (run s)) ++ concat (map to_saltate per))%list
    /\ errori (res (run (snd r)))
       = (errori (res (run s)) ++ concat (map to_errori per))%list
    /\ trace (snd r) = (trace s ++ calls)%list
    /\ filter is_listing calls
       = map (fun roll => EvItems (GetFolder roll)) listed
    /\ subsequence listed rolls
    /\ match fst r with
       | Ok _ =>
           Forall2 (fun roll o => roll_outcome (Name roll) o) rolls per
           /\ ((forall line w, print_raises line w = None) -> listed = rolls)
       | Raise e =>
           exists roll e0 s0,
             In roll rolls
             /\ Fallible.log (critical_error roll e0) s0 = (Raise e, snd r)
       end.
Proof.
  induction rolls as [| roll rest IH]; intros idx total s; cbv zeta.
  - exists [], [], []. cbn. rewrite !app_nil_r.
    repeat split; auto; constructor.
  - cbn [Fallible.rolls_loop]. unfold bind.
    destruct (fallible_turn idx total roll s)
      as (a & b & c & calls1 & Ha & Hb & Hc & Htr & Hlist & Hend).
    cbv zeta in *.
    assert (Hsub : exists listed1,
               filter is_listing calls1
               = map (fun roll => EvItems (GetFolder roll)) listed1
               /\ (forall l, subsequence l rest ->
                             subsequence (listed1 ++ l) (roll :: rest))
               /\ ((forall line w, print_raises line w = None) ->
                   listed1 = [roll])).
    { destruct (print_raises _ (world s)) eqn:Hp.
      - exists []. split; [exact Hlist |]. split.
        + intros l Hl. apply sub_skip. exact Hl.
        + intros Hq. rewrite Hq in Hp. discriminate Hp.
      - exists [roll]. split; [exact Hlist |]. split.
        + intros l Hl. apply sub_keep. exact Hl.
        + reflexivity. }
    destruct Hsub as (listed1 & Hl1 & Hsub1 & Hall1). clear Hlist.
    destruct (try_except (Fallible.roll_body idx total roll)
                (Fallible.roll_handler roll) s) as [[[] | e] s1];
      cbn [fst snd] in *.
    + destruct (IH (idx + 1) total s1)
        as (per & calls2 & listed2 & Ha2 & Hb2 & Hc2 & Htr2 & Hl2 & Hsub2
            & Hend2).
      cbv zeta in *.
      exists ((a, b, c) :: per), (calls1 ++ calls2)%list,
        (listed1 ++ listed2)%list.
      cbn [map concat to_completate to_saltate to_errori fst snd].
      rewrite Ha2, Hb2, Hc2, Htr2, Ha, Hb, Hc, Htr, <- !app_assoc.
      rewrite filter_app, map_app, Hl1, Hl2.
      repeat (split; [reflexivity |]).
      split; [apply Hsub1; exact Hsub2 |].
      destruct (fst (Fallible.rolls_loop (idx + 1) total rest s1))
        as [[] | e2].
      * destruct Hend2 as (Hper & Hall2). split.
        -- constructor; assumption.
        -- intros Hq. rewrite (Hall1 Hq), (Hall2 Hq). reflexivity.
      * destruct Hend2 as (roll2 & e0 & s0 & Hin & Hlog).
        exists roll2, e0, s0. split; [right; exact Hin | exact Hlog].
    + exists [(a, b, c)], calls1, listed1.
      cbn [map concat to_completate to_saltate to_errori fst snd].
      rewrite !app_nil_r.
      repeat (split; [assumption |]).
      split.
      * rewrite <- (app_nil_r listed1). apply Hsub1. apply subsequence_nil.
      * destruct Hend as (e0 & s0 & Hlog).
        exists roll, e0, s0. split; [left; reflexivity | exact Hlog].
Qed.

(** What leaves the loop is what the [log] of its handler raised. *)
Lemma loop_raises_from_the_log rolls idx total (s s' : State W) e :
  Fallible.rolls_loop idx total rolls s = (Raise e, s') ->
  exists roll e0 s0,
    In roll rolls
    /\ Fallible.log (critical_error roll e0) s0 = (Raise e, s').
Proof.
  intros H.
  destruct (fallible_loop rolls idx total s)
    as (per & calls & listed & _ & _ & _ & _ & _ & _ & Hend).
  cbv zeta in Hend. rewrite H in Hend. exact Hend.
Qed.

Lemma process_files_all_handled (quiet : reliable F) roll dst n idx files c
    (s0 : State W) :
  exists c' s',
    Fallible.process_files roll dst n idx files c s0 = (Ok c', s')
    /\ handled c' = handled c + len files.
Proof.
  rewrite (process_files_reliable quiet).
  destruct (process_files_returns roll dst n files idx c s0)
    as (c' & s' & H & Hsum & _).
  eauto.
Qed.

(** C5 (amended): an exception of the primary or of the fallback strategy
    goes to the handler of [_copy_file_mtp], which logs it and returns
    [False], making no call on the shell and leaving the object as it was;
    what the [try] block returns is returned as it is.  The one exception
    that can leave [_copy_file_mtp] is the one its handler's [log] raises,
    by [print] or by the append to [log.txt]; it ends the loop over the
    files of the folder, the files after it being left, and the loop over
    the folders catches it, raising only what the [log] of its own handler
    raises.  When no local call fails, [_copy_file_mtp] returns, a file
    whose copy raised is counted as failed, every file of the folder is
    handled, and [_process_roll] and the loop over the folders run to
    their end. *)
Theorem strategy_errors_reach_the_handler file_item dest_path (s : State W) :
  let t := time_time (world s) in
  let r := Fallible._copy_file_mtp file_item dest_path s in
  (forall b s1,
     copy_attempt file_item dest_path t s = (Ok b, s1) -> r = (Ok b, s1))
  /\ (forall e0 s1,
        copy_attempt file_item dest_path t s = (Raise e0, s1) ->
        let line := log_line (copy_error e0) (world s1) in
        fst r = match print_raises line (world s1) with
                | Some e => Raise e
                | None =>
                    match append_raises (fstr [line; newline]) (world s1) with
                    | Some e => Raise e
                    | None => Ok false
                    end
                end
        /\ world (snd r) = world s1 /\ self (snd r) = self s1
        /\ trace (snd r) = trace s1)
  /\ (forall e s',
        r = (Raise e, s') ->
        exists e0 s1,
          copy_attempt file_item dest_path t s = (Raise e0, s1)
          /\ Fallible.log (copy_error e0) s1 = (Raise e, s'))
  /\ (forall roll dst n idx post c s0 e s',
        let dest_file := os_path_join dst (Name file_item) in
        os_path_exists dest_file (world s0) = false ->
        Fallible._copy_file_mtp file_item dest_file
          (add_event (EvExists dest_file) s0) = (Raise e, s') ->
        Fallible.process_files roll dst n idx (file_item :: post) c s0
        = (Raise e, s'))
  /\ (forall idx total_rolls rolls s0 e s',
        Fallible.rolls_loop idx total_rolls rolls s0 = (Raise e, s') ->
        exists roll e0 s1,
          In roll rolls
          /\ Fallible.log (critical_error roll e0) s1 = (Raise e, s'))
  /\ (reliable F ->
      (exists b s', r = (Ok b, s'))
      /\ (forall roll dst n idx c s0 e0 s1,
            let dest_file := os_path_join dst (Name file_item) in
            os_path_exists dest_file (world s0) = false ->
            copy_attempt file_item dest_file (time_time (world s0))
              (add_event (EvExists dest_file) s0) = (Raise e0, s1) ->
            exists s',
              Fallible.process_file roll dst n idx file_item c s0
              = (Ok {| files_copied := files_copied c;
                       files_skipped := files_skipped c;
                       files_failed := files_failed c + 1 |}, s'))
      /\ (forall roll dst n idx files c s0,
            exists c' s',
              Fallible.process_files roll dst n idx files c s0 = (Ok c', s')
              /\ handled c' = handled c + len files)
      /\ (forall roll roll_idx total_rolls files s0,
            exists status s',
              Fallible._process_roll roll roll_idx total_rolls files s0
              = (Ok status, s'))
      /\ (forall idx total_rolls rolls s0,
            exists s',
              Fallible.rolls_loop idx total_rolls rolls s0 = (Ok tt, s'))).
Proof.
  intros t r. subst t r.
  split; [| split; [| split; [| split; [| split]]]].
  - intros b s1 H. rewrite copy_file_by_attempt, H. reflexivity.
  - intros e0 s1 H. rewrite copy_file_by_attempt, H. cbv zeta.
    destruct (copy_handler_run e0 s1) as (H1 & H2 & H3 & _ & H4). auto.
  - intros e s'. rewrite copy_file_by_attempt.
    destruct (copy_attempt file_item dest_path (time_time (world s)) s)
      as [[b | e0] s1]; [discriminate |].
    intros H. exists e0, s1. split; [reflexivity |].
    unfold bind in H.
    destruct (Fallible.log (copy_error e0) s1) as [[[] | e1] s2];
      [discriminate | inversion H; reflexivity].
  - intros roll dst n idx post c s0 e s' dest_file Hex Hraise.
    cbn [Fallible.process_files]. unfold Fallible.process_file.
    fold dest_file. unfold bind at 1. rewrite bind_exists, Hex.
    unfold bind at 1. rewrite Hraise. reflexivity.
  - intros idx total_rolls rolls s0 e s'. apply loop_raises_from_the_log.
  - intros quiet. repeat apply conj.
    + rewrite (copy_file_reliable quiet).
      apply copy_file_returns.
    + intros roll dst n idx c s0 e0 s1 dest_file Hex Hraise.
      unfold Fallible.process_file. fold dest_file.
      rewrite bind_exists, Hex.
      rewrite (bind_ok _ _ _ false (snd (log (copy_error e0) s1))).
      * rewrite (bind_ok _ _ _ tt _ (log_reliable quiet _ _)).
        eexists. reflexivity.
      * rewrite copy_file_by_attempt. cbn [world add_event]. rewrite Hraise.
        unfold bind. rewrite (log_reliable quiet). reflexivity.
    + intros. apply (process_files_all_handled quiet).
    + intros. rewrite (process_roll_reliable quiet).
      apply process_roll_returns.
    + intros. rewrite (rolls_loop_reliable quiet).
      apply rolls_loop_returns.
Qed.

(** X7: when the loop of [copy_photos] ends, it has reported every roll:
    the three lists have grown, roll after roll, by what each roll got,
    and what a roll gets is its name in one of the three lists, or its
    name in [completate] or in [errori] and then in [errori] again (when
    the estimate raised after the roll was classified).  So every roll is
    named once or twice, in the order of the rolls, never in both
    [completate] and [saltate], and never twice in either. *)
Theorem every_roll_is_reported (rolls : list Item) idx total_rolls
    (s s' : State W) :
  Fallible.rolls_loop idx total_rolls rolls s = (Ok tt, s') ->
  exists per : list report,
    Forall2 (fun roll o => roll_outcome (Name roll) o) rolls per
    /\ completate (res (run s'))
       = (completate (res (run s)) ++ concat (map to_completate per))%list
    /\ saltate (res (run s'))
       = (saltate (res (run s)) ++ concat (map to_saltate per))%list
    /\ errori (res (run s'))
       = (errori (res (run s)) ++ concat (map to_errori per))%list.
Proof.
  intros H.
  destruct (fallible_loop rolls idx total_rolls s)
    as (per & calls & listed & Ha & Hb & Hc & _ & _ & _ & Hend).
  cbv zeta in *. rewrite H in *. cbn [fst snd] in *.
  exists per. destruct Hend as (Hper & _). auto.
Qed.

(** X15: the loop of [copy_photos] lists the rolls in the order it was
    given them and none twice: the listings it asks of the shell are those
    of some of the rolls, in their order; a roll is left out when the line
    that announces it cannot be printed, or when the loop has ended before
    it; when the loop ends and every line can be printed, they are the
    listings of all the rolls. *)
Theorem rolls_are_listed_in_order (rolls : list Item) idx total_rolls
    (s : State W) :
  let r := Fallible.rolls_loop idx total_rolls rolls s in
  exists calls listed,
    trace (snd r) = (trace s ++ calls)%list
    /\ filter is_listing calls
       = map (fun roll => EvItems (GetFolder roll)) listed
    /\ subsequence listed rolls
    /\ (fst r = Ok tt ->
        (forall line w, print_raises line w = None) -> listed = rolls).
Proof.
  destruct (fallible_loop rolls idx total_rolls s)
    as (per & calls & listed & _ & _ & _ & Htr & Hl & Hsub & Hend).
  cbv zeta in *. exists calls, listed.
  repeat (split; [assumption |]).
  intros Hok. rewrite Hok in Hend. apply Hend.
Qed.

End FallibleLoop.

Section FallibleRunEnds.
Context {W : Type} {E : Environment W}.

(** C7 (amended): when the device, or its internal storage, is not found,
    [copy_photos] returns the empty result after the look-up calls alone:
    no roll is listed, no file is checked or copied; when the [log] that
    reports the absence raises, its exception leaves [copy_photos]
    instead, after the same calls.  When both are found and the rolls are
    listed, the run goes on to its summary once the loop over the rolls
    has ended; what a roll raises is caught in the loop, which raises only
    what the [log] of its handler raises, and ends when no local call
    fails.  When the listing of the rolls raises, the error leaves
    [copy_photos]. *)
Theorem startup_absence_returns_empty (s : State W) :
  (forall s1,
     _find_iphone (started s) = (Ok None, s1) ->
     exists s' computer,
       copy_photos s = (Ok (mkCopyResult [] [] []), s')
       /\ trace s'
          = (trace s ++ [EvNamespace (CSIDL 17); EvItems computer])%list
       /\ files_copied_total (self s') = files_copied_total (self s)
       /\ copy_times (self s') = copy_times (self s))
  /\ (forall iphone s1 s2,
        _find_iphone (started s) = (Ok (Some iphone), s1) ->
        _find_folder iphone "Internal Storage" s1 = (Ok None, s2) ->
        exists s' computer,
          copy_photos s = (Ok (mkCopyResult [] [] []), s')
          /\ trace s'
             = (trace s ++ [EvNamespace (CSIDL 17); EvItems computer;
                            EvItems (GetFolder iphone)])%list
          /\ files_copied_total (self s') = files_copied_total (self s)
          /\ copy_times (self s') = copy_times (self s))
  /\ (forall iphone internal items s1 s2 s3,
        _find_iphone (started s) = (Ok (Some iphone), s1) ->
        _find_folder iphone "Internal Storage" s1 = (Ok (Some internal), s2) ->
        Items (Some (GetFolder internal)) s2 = (Ok items, s3) ->
        let rolls := sorted_by_name (filter IsFolder items) in
        forall s4,
          rolls_loop 1 (len rolls) rolls (prepared (len rolls) s3) = (Ok tt, s4) ->
          copy_photos s = final_summary (len rolls) s4)
  /\ (forall (F : Faults W) s1,
        _find_iphone (started s) = (Ok None, s1) ->
        trace (snd (Fallible.copy_photos s)) = trace s1
        /\ self (snd (Fallible.copy_photos s)) = self s1
        /\ (fst (Fallible.copy_photos s) = Ok (mkCopyResult [] [] [])
            \/ exists e,
                 fst (Fallible.copy_photos s) = Raise e
                 /\ Fallible.log "❌ iPhone not found." s1
                    = (Raise e, snd (Fallible.copy_photos s))))
  /\ (forall (F : Faults W) iphone s1 s2,
        _find_iphone (started s) = (Ok (Some iphone), s1) ->
        _find_folder iphone "Internal Storage" s1 = (Ok None, s2) ->
        trace (snd (Fallible.copy_photos s)) = trace s2
        /\ self (snd (Fallible.copy_photos s)) = self s2
        /\ (fst (Fallible.copy_photos s) = Ok (mkCopyResult [] [] [])
            \/ exists e,
                 fst (Fallible.copy_photos s) = Raise e
                 /\ Fallible.log "❌ Internal Storage not found." s2
                    = (Raise e, snd (Fallible.copy_photos s))))
  /\ (forall (F : Faults W) idx total_rolls rolls (s0 : State W),
        (forall e s',
           Fallible.rolls_loop idx total_rolls rolls s0 = (Raise e, s') ->
           exists roll e0 s1,
             In roll rolls
             /\ Fallible.log (critical_error roll e0) s1 = (Raise e, s'))
        /\ (reliable F ->
            exists s',
              Fallible.rolls_loop idx total_rolls rolls s0 = (Ok tt, s')))
  /\ (forall iphone internal e s1 s2 s3,
        _find_iphone (started s) = (Ok (Some iphone), s1) ->
        _find_folder iphone "Internal Storage" s1 = (Ok (Some internal), s2) ->
        Items (Some (GetFolder internal)) s2 = (Raise e, s3) ->
        copy_photos s = (Raise e, s3)).
Proof.
  assert (Hstart : forall A (k : M W A),
            bind now (fun t0 => bind get_self (fun me =>
              bind (put_self {| dest_dir := dest_dir me;
                                start_time := Some t0;
                                files_copied_total := files_copied_total me;
                                copy_times := copy_times me |})
                   (fun _ => k))) s
            = k (started s)) by reflexivity.
  assert (Hends : forall (F : Faults W) msg (s1 : State W),
            let r := bind (Fallible.log msg)
                       (fun _ => ret (mkCopyResult [] [] [])) s1 in
            trace (snd r) = trace s1 /\ self (snd r) = self s1
            /\ (fst r = Ok (mkCopyResult [] [] [])
                \/ exists e,
                     fst r = Raise e
                     /\ Fallible.log msg s1 = (Raise e, snd r))).
  { intros F msg s1. cbv zeta. unfold bind.
    destruct (log_frame msg s1) as (_ & Hself & _ & Htr).
    destruct (Fallible.log msg s1) as [[[] | e] s2]; cbn [fst snd ret] in *.
    - auto.
    - split; [exact Htr |]. split; [exact Hself |]. right. exists e. auto. }
  unfold copy_photos, Fallible.copy_photos. rewrite Hstart.
  repeat apply conj.
  - intros s1 H1. destruct (find_iphone_ok _ _ _ H1) as (computer & Htr & Hself).
    unfold bind at 1. rewrite H1. rewrite bind_log.
    eexists _, computer. split; [reflexivity |].
    cbn [snd log trace self]. rewrite Htr, Hself. auto.
  - intros iphone s1 s2 H1 H2.
    destruct (find_iphone_ok _ _ _ H1) as (computer & Htr & Hself).
    destruct (find_folder_ok _ _ _ _ _ H2) as (Htr2 & Hself2).
    unfold bind at 1. rewrite H1. unfold bind at 1. rewrite H2.
    rewrite bind_log.
    eexists _, computer. split; [reflexivity |].
    cbn [snd log trace self]. rewrite Htr2, Htr, Hself2, Hself, <- app_assoc.
    auto.
  - intros iphone internal items s1 s2 s3 H1 H2 H3 s4 H4.
    set (rolls := sorted_by_name (filter IsFolder items)) in *.
    unfold bind at 1. rewrite H1. unfold bind at 1. rewrite H2.
    unfold bind at 1. rewrite H3. fold rolls.
    rewrite bind_log, bind_put_run. fold (prepared (len rolls) s3).
    unfold bind at 1. rewrite H4. reflexivity.
  - intros F s1 H1.
    rewrite !Hstart, !(bind_ok _ _ _ _ _ H1). apply Hends.
  - intros F iphone s1 s2 H1 H2.
    rewrite !Hstart, !(bind_ok _ _ _ _ _ H1), !(bind_ok _ _ _ _ _ H2).
    apply Hends.
  - intros F idx total_rolls rolls s0. split.
    + intros e s'. apply loop_raises_from_the_log.
    + intros quiet. rewrite (rolls_loop_reliable quiet).
      apply rolls_loop_returns.
  - intros iphone internal e s1 s2 s3 H1 H2 H3.
    unfold bind at 1. rewrite H1. unfold bind at 1. rewrite H2.
    unfold bind at 1. rewrite H3. reflexivity.
Qed.

End FallibleRunEnds.

(* ================================================================== *)
(** * The fallible engine on the simulated device *)

Section FallibleOnSamples.

Import Sim Samples SimFaults.

(** C1 on a sample: [CopyHere] of [b.jpg] transfers nothing; the fallback
    runs once, through its four steps, and the copy fails. *)
Lemma fallback_once_on_silent_transfer :
  exists folder s1 s2,
    primary_phase b_jpg "D/Roll1/b.jpg"
      (time_time (world (start "D" silent))) (start "D" silent)
    = (Ok (Some folder, false), s1)
    /\ _clear_clipboard s1 = (Ok tt, s2)
    /\ trace (snd (Fallible._copy_file_mtp (F:=sound) b_jpg "D/Roll1/b.jpg"
                     (start "D" silent)))
       = (trace s2 ++ [EvInvokeVerbEx b_jpg "copy";
                       EvInvokeVerbEx (Self folder) "paste";
                       EvSleep f0_1; EvExists "D/Roll1/b.jpg"])%list
    /\ fst (Fallible._copy_file_mtp (F:=sound) b_jpg "D/Roll1/b.jpg"
              (start "D" silent))
       = Ok false.
Proof.
  destruct (primary_phase b_jpg "D/Roll1/b.jpg"
              (time_time (world (start "D" silent))) (start "D" silent))
    as [[[[folder |] []] | e] s1] eqn:Hp;
    try (exfalso; vm_compute in Hp; discriminate Hp).
  destruct (fallback_once_after_quiet_primary (F:=sound) b_jpg "D/Roll1/b.jpg"
              (start "D" silent)) as (H & _).
  destruct (H (Some folder) s1 Hp)
    as (s2 & clip & _ & Hc & _ & _ & _ & _ & _ & Hsteps).
  exists folder, s1, s2. split; [reflexivity |]. split; [exact Hc |].
  vm_compute in Hp. injection Hp as <- <-.
  vm_compute in Hc. injection Hc as <-.
  vm_compute in Hsteps. vm_compute. exact Hsteps.
Defined.

(** C1 on a second sample: the transfer works by paste only when
    [CopyHere] does nothing; the second test of existence is the result. *)
Example fallback_copies_by_paste :
  fst (Fallible._copy_file_mtp (F:=sound) b_jpg "D/Roll1/b.jpg"
         (start "D" {| sim_paths := sim_paths desk; sim_clock := sim_clock desk;
                       sim_computer := sim_computer desk;
                       sim_children := sim_children desk;
                       sim_silent := ["b.jpg"]; sim_broken := [];
                       sim_paste_works := true; sim_clipboard := None |}))
  = Ok true.
Proof. vm_compute. reflexivity. Qed.

(** The console and the disk of [sound] fail at nothing. *)
Lemma sound_is_reliable : reliable sound.
Proof. intros text w. repeat split. Qed.

(** C5 on a sample: the error [CopyHere] raises goes to the handler and
    comes back as [False] when the log works; the roll goes on, and the
    two files of the roll are handled. *)
Lemma strategy_error_on_broken_transfer :
  exists e0 s1 c' s',
    copy_attempt b_jpg "D/Roll1/b.jpg"
      (time_time (world (start "D" broken))) (start "D" broken)
    = (Raise e0, s1)
    /\ fst (Fallible._copy_file_mtp (F:=sound) b_jpg "D/Roll1/b.jpg"
              (start "D" broken))
       = Ok false
    /\ trace (snd (Fallible._copy_file_mtp (F:=sound) b_jpg "D/Roll1/b.jpg"
                     (start "D" broken)))
       = trace s1
    /\ Fallible.process_files (F:=sound) roll1 "D/Roll1" 2 1 [b_jpg; a_jpg]
         {| files_copied := 0; files_skipped := 0; files_failed := 0 |}
         (start "D" broken)
       = (Ok c', s')
    /\ handled c' = 2.
Proof.
  destruct (copy_attempt b_jpg "D/Roll1/b.jpg"
              (time_time (world (start "D" broken))) (start "D" broken))
    as [[b | e0] s1] eqn:Ha;
    [exfalso; vm_compute in Ha; discriminate Ha |].
  destruct (strategy_errors_reach_the_handler (F:=sound) b_jpg "D/Roll1/b.jpg"
              (start "D" broken)) as (_ & H & _ & _ & _ & Hquiet).
  destruct (H e0 s1 Ha) as (Hr & _ & _ & Ht).
  destruct (Hquiet sound_is_reliable) as (_ & _ & Hfiles & _).
  destruct (Hfiles roll1 "D/Roll1" 2 1 [b_jpg; a_jpg]
              {| files_copied := 0; files_skipped := 0; files_failed := 0 |}
              (start "D" broken)) as (c' & s' & Hrun & Hsum).
  exists e0, s1, c', s'. split; [reflexivity |].
  split; [exact Hr |]. split; [exact Ht |]. split; [exact Hrun | exact Hsum].
Defined.

(** On the same sample the file that failed is counted, and the file
    after it is still handled. *)
Example failed_file_is_counted :
  fst (Fallible.process_files (F:=sound) roll1 "D/Roll1" 2 1 [b_jpg; a_jpg]
         {| files_copied := 0; files_skipped := 0; files_failed := 0 |}
         (start "D" broken))
  = Ok {| files_copied := 0; files_skipped := 1; files_failed := 1 |}.
Proof. vm_compute. reflexivity. Qed.

(** C5, as the specification words it, fails: on a console that cannot
    encode the line of the handler, the [log] of the handler raises and
    its exception leaves [_copy_file_mtp]; so does the exception of
    [open] when the folder of [log.txt] is not there. *)
Lemma log_error_leaves_copy_file :
  fst (Fallible._copy_file_mtp (F:=ascii_console) b_jpg "D/Roll1/b.jpg"
         (start "D" broken))
  = Raise (ValueError "'ascii' codec can't encode character")
  /\ fst (Fallible._copy_file_mtp (F:=log_in "E") b_jpg "E/Roll1/b.jpg"
            (start "E" desk))
     = Raise (OSError "[Errno 2] No such file or directory")
  /\ ~ strategy_errors_never_propagate.
Proof.
  split; [vm_compute; reflexivity |].
  split; [vm_compute; reflexivity |].
  intros H.
  destruct (copy_attempt b_jpg "D/Roll1/b.jpg"
              (time_time (world (start "D" broken))) (start "D" broken))
    as [[b | e0] s1] eqn:Ha;
    [vm_compute in Ha; discriminate Ha |].
  specialize (H World env ascii_console b_jpg "D/Roll1/b.jpg"
                (start "D" broken) e0 s1 Ha).
  vm_compute in H. discriminate H.
Qed.


(** C7 on samples: without a device, and with a device that shows no
    storage, the result is empty and only the look-ups were made. *)
Lemma startup_absence_on_samples :
  (exists s', copy_photos (start "D" unplugged)
              = (Ok (mkCopyResult [] [] []), s'))
  /\ (exists s', copy_photos (start "D" locked)
                 = (Ok (mkCopyResult [] [] []), s')).
Proof.
  split.
  - destruct (startup_absence_returns_empty (start "D" unplugged))
      as (Hnone & _).
    edestruct Hnone as (s' & computer & Hrun & _); [vm_compute; reflexivity |].
    exists s'. exact Hrun.
  - destruct (startup_absence_returns_empty (start "D" locked))
      as (_ & Hnone & _).
    edestruct Hnone as (s' & computer & Hrun & _);
      [vm_compute; reflexivity | vm_compute; reflexivity |].
    exists s'. exact Hrun.
Defined.

(** C7 on a third sample: on a console that cannot encode its lines, the
    line that announces the roll raises, the [log] of the handler raises
    in its turn, and the loop ends there: the roll is not listed. *)
Example loop_ends_when_the_log_fails :
  fst (Fallible.rolls_loop (F:=ascii_console) 1 1 [roll1] (start "D" desk))
  = Raise (ValueError "'ascii' codec can't encode character")
  /\ trace (snd (Fallible.rolls_loop (F:=ascii_console) 1 1 [roll1]
                   (start "D" desk)))
     = [].
Proof. split; vm_compute; reflexivity. Qed.

(** X7 on a sample: the roll of [desk] is reported once, as completed. *)
Lemma every_roll_on_desk :
  exists s' per,
    Fallible.rolls_loop (F:=sound) 1 1 [roll1] (start "D" desk) = (Ok tt, s')
    /\ Forall2 (fun roll o => roll_outcome (Name roll) o) [roll1] per
    /\ completate (res (run s')) = concat (map to_completate per)
    /\ saltate (res (run s')) = concat (map to_saltate per)
    /\ errori (res (run s')) = concat (map to_errori per)
    /\ completate (res (run s')) = ["Roll1"].
Proof.
  destruct (Fallible.rolls_loop (F:=sound) 1 1 [roll1] (start "D" desk))
    as [[[] | e] s'] eqn:Hrun;
    [| exfalso; vm_compute in Hrun; discriminate Hrun].
  destruct (every_roll_is_reported (F:=sound) [roll1] 1 1 (start "D" desk) s'
              Hrun) as (per & Hper & Ha & Hb & Hc).
  exists s', per. split; [reflexivity |].
  split; [exact Hper |]. split; [exact Ha |]. split; [exact Hb |].
  split; [exact Hc |].
  vm_compute in Hrun. injection Hrun as <-. reflexivity.
Defined.

End FallibleOnSamples.
